(** * Scholar PDF crawler: a shallow embedding of the acquisition pipeline

    The development follows the JavaScript sources module by module:
    - [JsString]: JavaScript strings as sequences of UTF-16 code units,
      with the few [String.prototype] methods the program calls;
    - [Failures]: the exceptions of the program and of its libraries, and
      completions (normal or abrupt);
    - [Ui]: [humanType] (browser.js) and [searchScholar] (scholar.js);
    - [Effects]: traces of effects, and the monad in which the
      asynchronous functions are written;
    - [Path]: Node's [path.join], as far as the program uses it;
    - [Dom]: the rendered document and [querySelectorAll];
    - [Downloader]: [sanitizeFilename], [downloadPDF], [findPDFOnPage]
      (downloader.js);
    - [Scholar]: [extractResults] (scholar.js);
    - [Index]: the per-record download closure of [main], the
      [Promise.allSettled] aggregation, [printSummary] and [main] itself
      with [launchBrowser] and [createPage] (index.js, browser.js);
    - [SpecWords]: the notions the properties are worded with;
    - [Samples]: concrete inputs on which the program is evaluated;
    - [Defaults], [Args]: the settings of config.js and the command line
      of [main] (index.js);
    - [Liveness]: [hasCaptcha] (scholar.js);
    - [MoreWords], [MoreSamples]: further notions and inputs.

    An asynchronous function becomes a function from an explicit
    environment (what the network, the browser and the file system
    answer) to a completion together with the trace of effects it
    performed.  Definitions come first, the theorems follow. *)

From Stdlib Require Import String Ascii.
From Stdlib Require Import List NArith ZArith Bool Lia.
From Stdlib Require DecimalPos DecimalN.
Import ListNotations.

Set Warnings "-register-all".

(* ================================================================== *)
(** * Part I: the program *)
(* ================================================================== *)

(** ** JavaScript strings *)

Module JsString.

(** A JavaScript string is a sequence of UTF-16 code units. *)
Definition jsstring := list N.

(** ASCII literals of the source text. *)
Definition js (s : string) : jsstring :=
  map N_of_ascii (list_ascii_of_string s).

(** [a === b] on strings. *)
Definition eqb (a b : jsstring) : bool :=
  if list_eq_dec N.eq_dec a b then true else false.

(** [ToBoolean] on a string: only the empty string is falsy. *)
Definition truthy (s : jsstring) : bool :=
  match s with [] => false | _ :: _ => true end.

(** [ToBoolean] on a value that is [null] or a string. *)
Definition truthy_opt (v : option jsstring) : bool :=
  match v with None => false | Some s => truthy s end.

(** [v || ''] on a value that is [null] or a string. *)
Definition or_empty (v : option jsstring) : jsstring :=
  match v with None => [] | Some s => s end.

Definition in_range (lo hi c : N) : bool := (lo <=? c)%N && (c <=? hi)%N.

Definition isUpper (c : N) : bool := in_range 65 90 c.
Definition isLower (c : N) : bool := in_range 97 122 c.
Definition isDigit (c : N) : bool := in_range 48 57 c.

(** The regular-expression class [\s], which is also what
    [String.prototype.trim] removes: WhiteSpace and LineTerminator of
    ECMA-262 (TAB, LF, VT, FF, CR, SPACE, NBSP, U+1680, U+2000..U+200A,
    U+2028, U+2029, U+202F, U+205F, U+3000, U+FEFF). *)
Definition isSpace (c : N) : bool :=
  in_range 9 13 c || (c =? 32)%N || (c =? 160)%N || (c =? 5760)%N
  || in_range 8192 8202 c || (c =? 8232)%N || (c =? 8233)%N
  || (c =? 8239)%N || (c =? 8287)%N || (c =? 12288)%N || (c =? 65279)%N.

(** [String.prototype.toLowerCase], code unit by code unit.  The
    mappings of A..Z are given, and so are the two whose result leaves
    the non-ASCII range (KELVIN SIGN, and LATIN CAPITAL LETTER I WITH DOT
    ABOVE, which becomes two code units).  Every other non-ASCII code
    unit maps to non-ASCII code units and is left as it is: the program
    only ever searches the lowered text for an ASCII literal. *)
Definition lower1 (c : N) : jsstring :=
  if isUpper c then [(c + 32)%N]
  else if (c =? 8490)%N then [107%N]
  else if (c =? 304)%N then [105%N; 775%N]
  else [c].

Definition toLowerCase (s : jsstring) : jsstring := flat_map lower1 s.

Fixpoint startsWith (p s : jsstring) : bool :=
  match p, s with
  | [], _ => true
  | _ :: _, [] => false
  | a :: p', b :: s' => (a =? b)%N && startsWith p' s'
  end.

(** [s.endsWith(p)] *)
Definition endsWith (p s : jsstring) : bool := startsWith (rev p) (rev s).

(** [s.includes(p)] *)
Fixpoint includes (s p : jsstring) : bool :=
  startsWith p s ||
  match s with
  | [] => false
  | _ :: s' => includes s' p
  end.

(** [s.substring(0, n)] *)
Definition substring0 (n : nat) (s : jsstring) : jsstring := firstn n s.

Fixpoint dropSpaces (s : jsstring) : jsstring :=
  match s with
  | [] => []
  | c :: s' => if isSpace c then dropSpaces s' else s
  end.

(** [s.trim()] *)
Definition trim (s : jsstring) : jsstring :=
  rev (dropSpaces (rev (dropSpaces s))).

(** Splitting at the code units that satisfy [p]; the result is never
    empty, as with [String.prototype.split]. *)
Fixpoint splitOn (p : N -> bool) (s : jsstring) : list jsstring :=
  match s with
  | [] => [[]]
  | c :: s' =>
      if p c then [] :: splitOn p s'
      else match splitOn p s' with
           | seg :: segs => (c :: seg) :: segs
           | [] => [[c]]
           end
  end.

End JsString.
Import JsString.

(** ** Failures and completions *)

Module Failures.

(** What a library call can fail on.  These exceptions are raised by
    node-fetch, [fs] and Puppeteer, not by the program's own [throw]. *)
Inductive External :=
| MkdirFailed          (* fs.mkdirSync *)
| FetchFailed          (* fetch(): network error, timeout *)
| BodyFailed           (* response.buffer() *)
| WriteFailed          (* fs.writeFileSync *)
| NewPageFailed        (* browser.newPage() *)
| NavigationFailed     (* page.goto, page.evaluate on the paper page *)
| WaitTimeout          (* page.waitForSelector *)
| CloseFailed          (* page.close() *)
| SessionFailed        (* launchBrowser, createPage, searchScholar *)
| BrowserCloseFailed   (* browser.close() *)
| EvaluationFailed.    (* page.evaluate: the page function throws *)

(** The values thrown: one constructor for each [throw new Error(...)] of
    the program, one for the exceptions of the libraries. *)
Inductive Error :=
| HttpError (status : Z)              (* `HTTP ${status}: ${statusText}` *)
| NotAPdf (contentType : jsstring)    (* `Not a PDF (content-type: ...)` *)
| InvalidPdf                          (* 'Downloaded file is not a valid PDF' *)
| CaptchaDetected                     (* 'CAPTCHA detected! Google is ...' *)
| NoResults                           (* 'No results found. Scholar may ...' *)
| Library (e : External).

Inductive Completion (A : Type) :=
| Normal (a : A)
| Throw (e : Error).
Arguments Normal {A} a.
Arguments Throw {A} e.

End Failures.
Import Failures.

(** ** browser.js and scholar.js: typing and searching *)

Module Ui.

(** What the search does on the page, in order. *)
Inductive UiEvent :=
| UiGoto (url : jsstring)
| UiDelay (min max : Z)                      (* randomDelay(min, max) *)
| UiWaitForSelector (selector : jsstring)
| UiFocus (selector : jsstring)
| UiClick (selector : jsstring) (clickCount : Z)
| UiType (selector char : jsstring) (delay : Z)
| UiSubmit.     (* Promise.all([waitForNavigation(), keyboard.press('Enter')]) *)

(** What the page answers during one search.  [typeDelay i] is the value
    of [Math.floor(Math.random() * (MAX - MIN) + MIN)] at the keystroke
    [i]. *)
Record SearchEnv := {
  gotoOk : bool;
  inputFound : bool;
  focusOk : bool;
  clickOk : bool;
  typeOk : nat -> bool;
  typeDelay : nat -> Z;
  submitOk : bool
}.

Definition UM (A : Type) : Type := Completion A * list UiEvent.

Definition step (ev : UiEvent) (ok : bool) (e : External) (k : UM unit) : UM unit :=
  if ok then let (c, t) := k in (c, ev :: t)
  else (Throw (Library e), [ev]).

Definition isHighSurrogate (c : N) : bool := in_range 55296 56319 c.
Definition isLowSurrogate (c : N) : bool := in_range 56320 57343 c.

(** [for (const char of text)]: a string is iterated by code points, a
    surrogate pair being one element. *)
Fixpoint chars (s : jsstring) : list jsstring :=
  match s with
  | [] => []
  | a :: s1 =>
      match s1 with
      | [] => [[a]]
      | b :: s2 =>
          if isHighSurrogate a && isLowSurrogate b
          then [a; b] :: chars s2
          else [a] :: chars s1
      end
  end.

(** The loop of [humanType], from the keystroke [i] on. *)
Fixpoint typeChars (env : SearchEnv) (selector : jsstring) (i : nat)
  (cs : list jsstring) : UM unit :=
  match cs with
  | [] => (Normal tt, [])
  | c :: cs' =>
      step (UiType selector c (typeDelay env i)) (typeOk env i) SessionFailed
        (typeChars env selector (S i) cs')
  end.

Definition humanType (env : SearchEnv) (selector text : jsstring) : UM unit :=
  step (UiFocus selector) (focusOk env) SessionFailed
    (step (UiClick selector 3) (clickOk env) SessionFailed
       (typeChars env selector 0 (chars text))).

Definition SCHOLAR_URL : jsstring := js "https://scholar.google.com".
(** The selector [input[name=q]] with the value [q] in double quotes, as
    the source writes it. *)
Definition queryInput : jsstring :=
  js "input[name=" ++ 34%N :: js "q" ++ 34%N :: js "]".

(** [randomDelay] only waits. *)
Definition randomDelay (min max : Z) (k : UM unit) : UM unit :=
  let (c, t) := k in (c, UiDelay min max :: t).

(** [m] and then, when [m] completed normally, [k]. *)
Definition andThen (m k : UM unit) : UM unit :=
  match m with
  | (Normal _, t) => let (c, t') := k in (c, t ++ t')
  | (Throw e, t) => (Throw e, t)
  end.

Definition searchScholar (env : SearchEnv) (query : jsstring) : UM unit :=
  step (UiGoto SCHOLAR_URL) (gotoOk env) SessionFailed
    (randomDelay 300 500
       (step (UiWaitForSelector queryInput) (inputFound env) WaitTimeout
          (andThen (humanType env queryInput query)
             (randomDelay 100 200
                (step UiSubmit (submitOk env) SessionFailed
                   (randomDelay 200 400 (Normal tt, []))))))).

(** The text the keystrokes of a trace have typed. *)
Fixpoint typed (t : list UiEvent) : jsstring :=
  match t with
  | [] => []
  | UiType _ c _ :: t' => c ++ typed t'
  | _ :: t' => typed t'
  end.

End Ui.

(** ** Traces of effects *)

Module Effects.

(** The lines the program prints about the records and about the end of
    the run: those of the per-record code, the fatal line of the [catch]
    block of [main], and what [main] prints once the browser is closed.
    The progress lines of [main] and of [searchScholar] before that (the
    banner, the echo of the settings, the step headings, the number of
    papers found, the tip that follows the fatal line of a CAPTCHA) are
    left out. *)
Inductive LogLine :=
| LogDownloadFailed (err : Error)     (* Download failed: ... *)
| LogPaper (num : nat) (title meta : jsstring)
| LogStrategyA (num : nat)            (* Strategy A: Direct PDF link *)
| LogStrategyB (num : nat)            (* Strategy B: Scanning paper page... *)
| LogDownloaded (num : nat) (saved : jsstring)  (* Downloaded! -> ... *)
| LogNoPdfOnPage (num : nat)          (* No PDF found on paper page *)
| LogNotAvailable (num : nat)         (* PDF not available *)
| LogFatal (err : Error)              (* Fatal Error: ... *)
| LogBrowserClosed                    (* Browser closed. *)
| LogSummary (found downloaded failed : nat).   (* the box of printSummary *)

(** The effects a run performs, in order. *)
Inductive Event :=
| EvMkdir (dir : jsstring)
| EvFetch (url : jsstring)
| EvWriteFile (path : jsstring) (data : list N)
| EvLaunch                            (* puppeteer.launch *)
| EvNewPage
| EvPageSetup                         (* the settings of createPage *)
| EvSearch (step : Ui.UiEvent)        (* a step of searchScholar *)
| EvGoto (url : jsstring)
| EvEvaluate
| EvWaitForSelector
| EvClosePage
| EvCloseBrowser
| EvLog (line : LogLine).

(** A computation: its completion and the trace of its effects. *)
Definition M (A : Type) : Type := Completion A * list Event.

Definition ret {A} (a : A) : M A := (Normal a, []).

Definition throw {A} (e : Error) : M A := (Throw e, []).

Definition emit (ev : Event) : M unit := (Normal tt, [ev]).

Definition bind {A B} (m : M A) (k : A -> M B) : M B :=
  match m with
  | (Normal a, t) => let (c, t') := k a in (c, t ++ t')
  | (Throw e, t) => (Throw e, t)
  end.

(** [try { m } catch (err) { h err }] *)
Definition try_catch {A} (m : M A) (h : Error -> M A) : M A :=
  match m with
  | (Normal a, t) => (Normal a, t)
  | (Throw e, t) => let (c, t') := h e in (c, t ++ t')
  end.

(** [try { m } finally { f }]: [f] runs whatever [m] did, and an
    exception of [f] replaces the completion of [m]. *)
Definition try_finally {A} (m : M A) (f : M unit) : M A :=
  let (c, t) := m in
  match f with
  | (Normal _, t') => (c, t ++ t')
  | (Throw e, t') => (Throw e, t ++ t')
  end.

Definition completion {A} (m : M A) : Completion A := fst m.
Definition trace {A} (m : M A) : list Event := snd m.

End Effects.
Import Effects.

Declare Scope js_scope.
Delimit Scope js_scope with js.
Notation "x <- m ;; k" := (bind m (fun x => k))
  (at level 61, m at next level, right associativity) : js_scope.
Notation "m ;; k" := (bind m (fun _ => k))
  (at level 61, right associativity) : js_scope.
Open Scope js_scope.

(** ** config.js *)

Module Config.

Definition OUTPUT_DIR : jsstring := js "./output/pdfs".

End Config.

(** ** Node's [path.join]

    The program calls [path.join(config.OUTPUT_DIR, `${safeName}.pdf`)].
    [path] is a Node library; the model follows lib/path.js
    ([join], [normalize], [normalizeString]) for paths without a drive
    letter or UNC prefix, on both flavours: [posix] separates at [/],
    [win32] at [/] and [\] and writes [\]. *)

Module Path.

Record Platform := {
  isPathSeparator : N -> bool;
  sep : N
}.

Definition posix : Platform :=
  {| isPathSeparator := fun c => (c =? 47)%N; sep := 47%N |}.

Definition win32 : Platform :=
  {| isPathSeparator := fun c => (c =? 47)%N || (c =? 92)%N; sep := 92%N |}.

Definition dot : jsstring := js ".".
Definition dotdot : jsstring := js "..".

(** [normalizeString]: [res] holds the segments kept so far, last one
    first.  An empty segment and [.] are dropped; [..] removes the last
    segment kept unless there is none or it is [..] itself, in which case
    [..] is kept when the path is relative. *)
Fixpoint normalizeSegments (allowAboveRoot : bool) (res segs : list jsstring)
  : list jsstring :=
  match segs with
  | [] => rev res
  | seg :: segs' =>
      if eqb seg [] || eqb seg dot then
        normalizeSegments allowAboveRoot res segs'
      else if eqb seg dotdot then
        match res with
        | top :: res' =>
            if eqb top dotdot then
              normalizeSegments allowAboveRoot
                (if allowAboveRoot then dotdot :: res else res) segs'
            else normalizeSegments allowAboveRoot res' segs'
        | [] =>
            normalizeSegments allowAboveRoot
              (if allowAboveRoot then [dotdot] else []) segs'
        end
      else normalizeSegments allowAboveRoot (seg :: res) segs'
  end.

Fixpoint joinWith (s : N) (segs : list jsstring) : jsstring :=
  match segs with
  | [] => []
  | [seg] => seg
  | seg :: segs' => seg ++ s :: joinWith s segs'
  end.

Definition normalize (p : Platform) (path : jsstring) : jsstring :=
  match path with
  | [] => dot
  | c0 :: _ =>
      let isAbsolute := isPathSeparator p c0 in
      let trailingSeparator := isPathSeparator p (last path 0%N) in
      let tail :=
        joinWith (sep p)
          (normalizeSegments (negb isAbsolute) []
             (splitOn (isPathSeparator p) path)) in
      match tail with
      | [] =>
          if isAbsolute then [sep p]
          else if trailingSeparator then dot ++ [sep p] else dot
      | _ :: _ =>
          (if isAbsolute then [sep p] else [])
          ++ tail ++ (if trailingSeparator then [sep p] else [])
      end
  end.

(** [path.join(...paths)]: the non-empty arguments, joined by the
    separator and normalized; ['.'] when there is none. *)
Definition join (p : Platform) (paths : list jsstring) : jsstring :=
  match filter truthy paths with
  | [] => dot
  | parts => normalize p (joinWith (sep p) parts)
  end.

End Path.

(** ** The rendered document *)

Module Dom.

Definition Attrs := list (jsstring * jsstring).

(** A node of the rendered tree.  [tag] is the element's local name (lower
    case in an HTML document); [href] is the [href] IDL property the
    browser computes for an HTML anchor: the resolved URL, or the empty
    string when the anchor has no [href] attribute.  The anchors of the
    tree are HTML anchors: the [href] of an SVG anchor is an object, not
    a string, and such an anchor has no place in it. *)
Inductive Node :=
| Text (data : jsstring)
| Element (tag : jsstring) (attrs : Attrs) (href : jsstring)
    (children : list Node).

Record Document := {
  title : jsstring;
  documentElement : Node
}.

(** What a selector can see of an element. *)
Definition Info : Type := jsstring * Attrs.

(** An element together with its ancestors, nearest first. *)
Record Located := {
  ancestors : list Info;
  tagName : jsstring;
  attributes : Attrs;
  hrefProp : jsstring;
  childNodes : list Node
}.

Definition toNode (e : Located) : Node :=
  Element (tagName e) (attributes e) (hrefProp e) (childNodes e).

Definition self (ctx : list Info) (n : Node) : list Located :=
  match n with
  | Text _ => []
  | Element t a h cs =>
      [{| ancestors := ctx; tagName := t; attributes := a;
          hrefProp := h; childNodes := cs |}]
  end.

(** The element descendants of [n] in tree order (a parent before its
    children, a child before its next sibling). *)
Fixpoint descendants (ctx : list Info) (n : Node) : list Located :=
  match n with
  | Text _ => []
  | Element t a _ cs =>
      let ctx' := (t, a) :: ctx in
      (fix each (l : list Node) : list Located :=
         match l with
         | [] => []
         | c :: l' => self ctx' c ++ descendants ctx' c ++ each l'
         end) cs
  end.

(** [node.textContent] *)
Fixpoint textContent (n : Node) : jsstring :=
  match n with
  | Text d => d
  | Element _ _ _ cs =>
      (fix each (l : list Node) : jsstring :=
         match l with
         | [] => []
         | c :: l' => textContent c ++ each l'
         end) cs
  end.

Fixpoint getAttribute (name : jsstring) (a : Attrs) : option jsstring :=
  match a with
  | [] => None
  | (k, v) :: a' => if eqb k name then Some v else getAttribute name a'
  end.

(** ASCII whitespace, which separates the tokens of a [class] attribute. *)
Definition isAsciiWhitespace (c : N) : bool :=
  (c =? 9)%N || (c =? 10)%N || (c =? 12)%N || (c =? 13)%N || (c =? 32)%N.

Definition classList (a : Attrs) : list jsstring :=
  filter truthy (splitOn isAsciiWhitespace (or_empty (getAttribute (js "class") a))).

(** The attribute selectors the program writes. *)
Inductive AttrTest :=
| HasAttr (name : jsstring)                 (* [name] *)
| AttrSuffix (name value : jsstring)        (* [name$="value"] *)
| AttrSubstring (name value : jsstring).    (* [name*="value"] *)

(** A compound selector: [tag#id.class1.class2[attr...]]. *)
Record Compound := {
  selTag : option jsstring;
  selId : option jsstring;
  selClasses : list jsstring;
  selAttrs : list AttrTest
}.

(** A complex selector built with the descendant combinator: the compound
    the element itself must match, and those its ancestors must match,
    going up. *)
Record Selector := {
  subject : Compound;
  context : list Compound
}.

Definition attrTest (a : Attrs) (t : AttrTest) : bool :=
  match t with
  | HasAttr n => match getAttribute n a with Some _ => true | None => false end
  | AttrSuffix n v =>
      match getAttribute n a with
      | Some x => truthy v && endsWith v x
      | None => false
      end
  | AttrSubstring n v =>
      match getAttribute n a with
      | Some x => truthy v && includes x v
      | None => false
      end
  end.

Definition matchesCompound (c : Compound) (i : Info) : bool :=
  let (t, a) := i in
  match selTag c with Some x => eqb x t | None => true end
  && match selId c with
     | Some x => match getAttribute (js "id") a with
                 | Some y => eqb x y
                 | None => false
                 end
     | None => true
     end
  && forallb (fun cl => existsb (eqb cl) (classList a)) (selClasses c)
  && forallb (attrTest a) (selAttrs c).

(** The ancestors above the nearest one that satisfies [f]. *)
Fixpoint aboveFirst (f : Info -> bool) (ctx : list Info) : option (list Info) :=
  match ctx with
  | [] => None
  | i :: ctx' => if f i then Some ctx' else aboveFirst f ctx'
  end.

Fixpoint matchesContext (cs : list Compound) (ctx : list Info) : bool :=
  match cs with
  | [] => true
  | c :: cs' =>
      match aboveFirst (matchesCompound c) ctx with
      | Some ctx' => matchesContext cs' ctx'
      | None => false
      end
  end.

(** [element.matches(selector)]: the ancestors are those of the whole
    document, also for a query scoped to an element. *)
Definition matches (s : Selector) (e : Located) : bool :=
  matchesCompound (subject s) (tagName e, attributes e)
  && matchesContext (context s) (ancestors e).

(** [element.querySelectorAll(selector)] *)
Definition querySelectorAll (s : Selector) (e : Located) : list Located :=
  filter (matches s) (descendants (ancestors e) (toNode e)).

(** [element.querySelector(selector)] *)
Definition querySelector (s : Selector) (e : Located) : option Located :=
  hd_error (querySelectorAll s e).

(** The elements of a document in tree order, its root first. *)
Definition elements (d : Document) : list Located :=
  self [] (documentElement d) ++ descendants [] (documentElement d).

(** [document.querySelectorAll(selector)] *)
Definition docQuerySelectorAll (s : Selector) (d : Document) : list Located :=
  filter (matches s) (elements d).

(** [document.querySelector(selector)] *)
Definition docQuerySelector (s : Selector) (d : Document) : option Located :=
  hd_error (docQuerySelectorAll s d).

(** Selector literals. *)
Definition anyElement : Compound :=
  {| selTag := None; selId := None; selClasses := []; selAttrs := [] |}.
Definition byTag (t : string) : Compound :=
  {| selTag := Some (js t); selId := None; selClasses := []; selAttrs := [] |}.
Definition byId (i : string) : Compound :=
  {| selTag := None; selId := Some (js i); selClasses := []; selAttrs := [] |}.
Definition byClasses (cs : list string) : Compound :=
  {| selTag := None; selId := None; selClasses := map js cs; selAttrs := [] |}.
Definition simple (c : Compound) : Selector :=
  {| subject := c; context := [] |}.
Definition inside (outer inner : Compound) : Selector :=
  {| subject := inner; context := [outer] |}.

End Dom.

(** ** downloader.js *)

Module Downloader.

(** The characters [/[^a-z0-9\s\-_]/gi] does not match, that is those the
    first [replace] keeps.  The [i] flag without the [u] flag folds case
    through [toUpperCase] and never lets a non-ASCII code unit match an
    ASCII one, so the letters are exactly A..Z and a..z. *)
Definition keptChar (c : N) : bool :=
  isLower c || isUpper c || isDigit c || isSpace c
  || (c =? 45)%N || (c =? 95)%N.

(** [s.replace(/\s+/g, '_')]: every maximal run of [\s] characters
    becomes one underscore.  [inRun] tells that the previous character
    belonged to the run being replaced. *)
Fixpoint replaceSpaceRuns (inRun : bool) (s : jsstring) : jsstring :=
  match s with
  | [] => []
  | c :: s' =>
      if isSpace c then
        if inRun then replaceSpaceRuns true s'
        else 95%N :: replaceSpaceRuns true s'
      else c :: replaceSpaceRuns false s'
  end.

Definition sanitizeFilename (name : jsstring) : jsstring :=
  substring0 80 (replaceSpaceRuns false (filter keptChar name)).

(** The response node-fetch resolves with. *)
Record Response := {
  status : Z;
  contentTypeHeader : option jsstring;   (* headers.get('content-type') *)
  body : option (list N)                 (* buffer(): the bytes, or a rejection *)
}.

(** [response.ok] *)
Definition ok (r : Response) : bool :=
  (200 <=? status r)%Z && (status r <=? 299)%Z.

(** What the world answers to one call of [downloadPDF]. *)
Record DownloadEnv := {
  platform : Path.Platform;
  dirExists : bool;                      (* fs.existsSync(OUTPUT_DIR) *)
  mkdirOk : bool;                        (* fs.mkdirSync returns *)
  fetchResult : jsstring -> option Response;  (* None: fetch rejects *)
  writeOk : bool                         (* fs.writeFileSync returns *)
}.

Definition ensureOutputDir (env : DownloadEnv) : M unit :=
  if negb (dirExists env) then
    emit (EvMkdir Config.OUTPUT_DIR) ;;
    if mkdirOk env then ret tt else throw (Library MkdirFailed)
  else ret tt.

Definition fetch (env : DownloadEnv) (url : jsstring) : M Response :=
  emit (EvFetch url) ;;
  match fetchResult env url with
  | Some r => ret r
  | None => throw (Library FetchFailed)
  end.

Definition buffer (r : Response) : M (list N) :=
  match body r with
  | Some b => ret b
  | None => throw (Library BodyFailed)
  end.

(** [buffer.toString('ascii', 0, n)].  Node decodes ['ascii'] as
    ['latin1'] after clearing the highest bit of each byte (Buffer
    documentation, "Buffers and character encodings"). *)
Definition toStringAscii0 (n : nat) (buf : list N) : jsstring :=
  map (fun b => N.land b 127) (firstn n buf).

Definition writeFileSync (env : DownloadEnv) (path : jsstring) (data : list N)
  : M unit :=
  if writeOk env then emit (EvWriteFile path data)
  else throw (Library WriteFailed).

Definition outputPathOf (p : Path.Platform) (filename : jsstring) : jsstring :=
  Path.join p [Config.OUTPUT_DIR; sanitizeFilename filename ++ js ".pdf"].

Definition downloadPDF (env : DownloadEnv) (url filename : jsstring)
  : M (option jsstring) :=
  ensureOutputDir env ;;
  let outputPath := outputPathOf (platform env) filename in
  try_catch
    (response <- fetch env url ;;
     if negb (ok response) then throw (HttpError (status response))
     else
       let contentType := or_empty (contentTypeHeader response) in
       if negb (includes contentType (js "pdf"))
          && negb (includes contentType (js "octet-stream"))
       then throw (NotAPdf contentType)
       else
         buf <- buffer response ;;
         if (length buf <? 5)%nat
            || negb (eqb (toStringAscii0 5 buf) (js "%PDF-"))
         then throw InvalidPdf
         else
           writeFileSync env outputPath buf ;;
           ret (Some outputPath))
    (fun err =>
       emit (EvLog (LogDownloadFailed err)) ;;
       ret None).

(** What the browser answers on the tab opened for one paper page. *)
Record TabEnv := {
  gotoResult : jsstring -> option Dom.Document;   (* None: page.goto rejects *)
  evaluateOk : bool                               (* page.evaluate returns *)
}.

Definition anchorWith (tests : list Dom.AttrTest) : Dom.Selector :=
  Dom.simple {| Dom.selTag := Some (js "a"); Dom.selId := None;
                Dom.selClasses := []; Dom.selAttrs := tests |}.

(** The [selectors] array of [findPDFOnPage]. *)
Definition pdfSelectors : list Dom.Selector :=
  [ anchorWith [Dom.AttrSuffix (js "href") (js ".pdf")];
    anchorWith [Dom.AttrSubstring (js "href") (js "/pdf/")];
    anchorWith [Dom.AttrSubstring (js "href") (js "=pdf")];
    anchorWith [Dom.AttrSubstring (js "href") (js "filetype=pdf")];
    Dom.simple {| Dom.selTag := Some (js "a"); Dom.selId := None;
                  Dom.selClasses := [js "pdf-link"]; Dom.selAttrs := [] |};
    anchorWith [Dom.HasAttr (js "data-clk-atid")] ].

(** [for (const sel of selectors) { ...; if (el && el.href) return el.href }] *)
Fixpoint firstSelected (sels : list Dom.Selector) (d : Dom.Document)
  : option jsstring :=
  match sels with
  | [] => None
  | sel :: sels' =>
      match Dom.docQuerySelector sel d with
      | Some el =>
          if truthy (Dom.hrefProp el) then Some (Dom.hrefProp el)
          else firstSelected sels' d
      | None => firstSelected sels' d
      end
  end.

(** [for (const link of links) { if (link.href && ...) return link.href }] *)
Fixpoint firstPdfLink (links : list Dom.Located) : option jsstring :=
  match links with
  | [] => None
  | link :: links' =>
      if truthy (Dom.hrefProp link)
         && includes (toLowerCase (Dom.hrefProp link)) (js ".pdf")
      then Some (Dom.hrefProp link)
      else firstPdfLink links'
  end.

(** The function [findPDFOnPage] evaluates in the paper page. *)
Definition scanForPdf (d : Dom.Document) : option jsstring :=
  match firstSelected pdfSelectors d with
  | Some u => Some u
  | None =>
      firstPdfLink
        (Dom.docQuerySelectorAll (anchorWith [Dom.HasAttr (js "href")]) d)
  end.

Definition findPDFOnPage (tab : TabEnv) (paperUrl : jsstring)
  : M (option jsstring) :=
  try_catch
    (emit (EvGoto paperUrl) ;;
     match gotoResult tab paperUrl with
     | None => throw (Library NavigationFailed)
     | Some d =>
         emit EvEvaluate ;;
         if evaluateOk tab then ret (scanForPdf d)
         else throw (Library NavigationFailed)
     end)
    (fun _ => ret None).

End Downloader.

(** ** scholar.js *)

Module Scholar.

(** One entry of the array [extractResults] returns. *)
Record Paper := {
  title : jsstring;
  paperUrl : option jsstring;
  directPdfUrl : option jsstring;
  meta : jsstring
}.

(** The results page, taken as it stands when [extractResults] is called:
    both evaluations read the same rendered document, and
    [waitForSelector] finds its element exactly when the document has it.
    [extractionOk] tells that the second page function runs to its end:
    it throws a [TypeError] on [href.toLowerCase()] when the side slot of
    a block holds an SVG anchor, whose [href] is no string. *)
Record Page := {
  document : Dom.Document;
  extractionOk : bool
}.

Definition isSome {A} (o : option A) : bool :=
  match o with Some _ => true | None => false end.

Definition captchaForm : Dom.Selector :=      (* 'form#captcha-form' *)
  Dom.simple {| Dom.selTag := Some (js "form");
                Dom.selId := Some (js "captcha-form");
                Dom.selClasses := []; Dom.selAttrs := [] |}.
Definition recaptcha : Dom.Selector :=        (* '#recaptcha' *)
  Dom.simple (Dom.byId "recaptcha").
Definition resultsContainer : Dom.Selector := (* '#gs_res_ccl_mid' *)
  Dom.simple (Dom.byId "gs_res_ccl_mid").
Definition resultItem : Dom.Selector :=       (* '.gs_r.gs_or.gs_scl' *)
  Dom.simple (Dom.byClasses ["gs_r"; "gs_or"; "gs_scl"]%string).
Definition titleAnchor : Dom.Selector :=      (* '.gs_rt a' *)
  Dom.inside (Dom.byClasses ["gs_rt"%string]) (Dom.byTag "a").
Definition metaLine : Dom.Selector :=         (* '.gs_a' *)
  Dom.simple (Dom.byClasses ["gs_a"%string]).
Definition pdfSlotAnchor : Dom.Selector :=    (* '.gs_or_ggsm a' *)
  Dom.inside (Dom.byClasses ["gs_or_ggsm"%string]) (Dom.byTag "a").
Definition anyAnchor : Dom.Selector :=        (* 'a' *)
  Dom.simple (Dom.byTag "a").

(** The first function [extractResults] evaluates in the page. *)
Definition isCaptcha (d : Dom.Document) : bool :=
  includes (toLowerCase (Dom.title d)) (js "captcha")
  || isSome (Dom.docQuerySelector captchaForm d)
  || isSome (Dom.docQuerySelector recaptcha d).

Definition text (e : Dom.Located) : jsstring :=
  Dom.textContent (Dom.toNode e).

(** The body of [items.forEach((item) => { ... })]. *)
Definition extractItem (item : Dom.Located) : Paper :=
  let titleEl := Dom.querySelector titleAnchor item in
  let title :=
    match titleEl with
    | Some el => trim (text el)
    | None => js "Unknown Title"
    end in
  let paperUrl := option_map Dom.hrefProp titleEl in
  let metaEl := Dom.querySelector metaLine item in
  let meta :=
    match metaEl with
    | Some el => trim (text el)
    | None => []
    end in
  let pdfLinkEl := Dom.querySelector pdfSlotAnchor item in
  let directPdfUrl :=
    match pdfLinkEl with
    | Some el =>
        let href := Dom.hrefProp el in
        if includes (toLowerCase href) (js ".pdf")
           || includes (text el) (js "PDF")
        then Some href else None
    | None => None
    end in
  let allLinks := Dom.querySelectorAll anyAnchor item in
  let directPdfUrl :=
    fold_left
      (fun acc link =>
         if negb (truthy_opt acc) && eqb (trim (text link)) (js "[PDF]")
         then Some (Dom.hrefProp link) else acc)
      allLinks directPdfUrl in
  {| title := title; paperUrl := paperUrl;
     directPdfUrl := directPdfUrl; meta := meta |}.

(** The second function [extractResults] evaluates in the page. *)
Definition extractPapers (d : Dom.Document) : list Paper :=
  map extractItem (Dom.docQuerySelectorAll resultItem d).

Definition evaluate {A} (page : Page) (f : Dom.Document -> A) : M A :=
  emit EvEvaluate ;; ret (f (document page)).

Definition waitForSelector (page : Page) (s : Dom.Selector) : M unit :=
  emit EvWaitForSelector ;;
  if isSome (Dom.docQuerySelector s (document page)) then ret tt
  else throw (Library WaitTimeout).

(** The second evaluation: the records, or the exception of the page
    function. *)
Definition evaluateExtraction (page : Page) : M (list Paper) :=
  emit EvEvaluate ;;
  if extractionOk page then ret (extractPapers (document page))
  else throw (Library EvaluationFailed).

Definition extractResults (page : Page) : M (list Paper) :=
  captcha <- evaluate page isCaptcha ;;
  if captcha then throw CaptchaDetected
  else
    waitForSelector page resultsContainer ;;
    papers <- evaluateExtraction page ;;
    ret papers.

End Scholar.

(** ** index.js *)

Module Index.

(** The [result] object of the per-record closure. *)
Record Result := {
  title : jsstring;
  downloaded : bool;
  savedPath : option jsstring;
  method : option jsstring
}.

Definition DIRECT_LINK : jsstring := js "Direct [PDF] link".
Definition PAPER_PAGE : jsstring := js "Found on paper page".

(** The three assignments made after a successful download. *)
Definition markDownloaded (r : Result) (saved : option jsstring)
  (how : jsstring) : Result :=
  {| title := title r; downloaded := true;
     savedPath := saved; method := Some how |}.

(** What the world answers to the closure run for one record. *)
Record UnitEnv := {
  directEnv : Downloader.DownloadEnv;   (* the download of strategy A *)
  newPageOk : bool;                     (* browser.newPage() resolves *)
  tabEnv : Downloader.TabEnv;           (* the tab of strategy B *)
  scanEnv : Downloader.DownloadEnv;     (* the download of strategy B *)
  closeOk : bool                        (* pdfTab.close() resolves *)
}.

Definition newPage (env : UnitEnv) : M unit :=
  emit EvNewPage ;;
  if newPageOk env then ret tt else throw (Library NewPageFailed).

Definition closePage (env : UnitEnv) : M unit :=
  emit EvClosePage ;;
  if closeOk env then ret tt else throw (Library CloseFailed).

(** The closure [async (paper, i) => { ... }] mapped over [targets]. *)
Definition downloadTask (env : UnitEnv) (i : nat) (paper : Scholar.Paper)
  : M Result :=
  let num := S i in
  emit (EvLog (LogPaper num (substring0 70 (Scholar.title paper))
                 (substring0 60 (Scholar.meta paper)))) ;;
  let result :=
    {| title := Scholar.title paper; downloaded := false;
       savedPath := None; method := None |} in
  (* Strategy A: Direct [PDF] link from Scholar results *)
  returned <-
    (if truthy_opt (Scholar.directPdfUrl paper) then
       emit (EvLog (LogStrategyA num)) ;;
       saved <- Downloader.downloadPDF (directEnv env)
                  (or_empty (Scholar.directPdfUrl paper))
                  (Scholar.title paper) ;;
       if truthy_opt saved then
         emit (EvLog (LogDownloaded num (or_empty saved))) ;;
         ret (Some (markDownloaded result saved DIRECT_LINK))
       else ret None
     else ret None) ;;
  match returned with
  | Some r => ret r
  | None =>
      (* Strategy B: Visit paper page and search for PDF *)
      result <-
        (if truthy_opt (Scholar.paperUrl paper) then
           emit (EvLog (LogStrategyB num)) ;;
           newPage env ;;
           try_finally
             (pdfUrl <- Downloader.findPDFOnPage (tabEnv env)
                          (or_empty (Scholar.paperUrl paper)) ;;
              if truthy_opt pdfUrl then
                saved <- Downloader.downloadPDF (scanEnv env)
                           (or_empty pdfUrl) (Scholar.title paper) ;;
                if truthy_opt saved then
                  emit (EvLog (LogDownloaded num (or_empty saved))) ;;
                  ret (markDownloaded result saved PAPER_PAGE)
                else ret result
              else
                emit (EvLog (LogNoPdfOnPage num)) ;;
                ret result)
             (closePage env)
         else ret result) ;;
      (if negb (downloaded result) then emit (EvLog (LogNotAvailable num))
       else ret tt) ;;
      ret result
  end.

(** The value of [parseInt(..., 10)]: [NaN], a double that is an
    integer, or an infinity. *)
Inductive JsInt :=
| NaN
| Int (z : Z)
| Infinity (negative : bool).

(** [array.slice(0, end)].  [relativeEnd] is [ToIntegerOrInfinity(end)];
    of an infinity only the side matters, and it is kept within the
    length: [+Infinity] gives the whole array, [-Infinity] none of it. *)
Definition slice0 {A} (l : list A) (e : JsInt) : list A :=
  let len := Z.of_nat (length l) in
  let relativeEnd :=
    match e with
    | NaN => 0%Z
    | Int z => z
    | Infinity negative => if negative then (- len)%Z else len
    end in
  let final :=
    if (relativeEnd <? 0)%Z then Z.max (len + relativeEnd) 0
    else Z.min relativeEnd len in
  firstn (Z.to_nat (Z.max final 0)) l.

(** [array.map((x, i) => f(x, i))], counting from [i]. *)
Fixpoint mapi {A B} (f : nat -> A -> B) (i : nat) (l : list A) : list B :=
  match l with
  | [] => []
  | x :: l' => f i x :: mapi f (S i) l'
  end.

(** An entry of the array [Promise.allSettled] resolves with. *)
Inductive Settled (A : Type) :=
| Fulfilled (value : A)
| Rejected (reason : Error).
Arguments Fulfilled {A} value.
Arguments Rejected {A} reason.

Definition settle {A} (m : M A) : Settled A :=
  match completion m with
  | Normal v => Fulfilled v
  | Throw e => Rejected e
  end.

(** [await Promise.allSettled(promises)]: it never rejects.  The units
    run concurrently; the trace lists the events of each unit together,
    in the order of the units. *)
Definition allSettled {A} (promises : list (M A)) : M (list (Settled A)) :=
  (Normal (map settle promises), concat (map (@trace A) promises)).

(** [results.forEach((r) => { if (r.status === 'fulfilled')
    downloadResults.push(r.value) })] *)
Definition fulfilledValues {A} (results : list (Settled A)) : list A :=
  flat_map (fun r => match r with
                     | Fulfilled v => [v]
                     | Rejected _ => []
                     end) results.

(** The asynchronous closures started by [targets.map(...)]. *)
Definition downloadPromises (envs : nat -> UnitEnv)
  (targets : list Scholar.Paper) : list (M Result) :=
  mapi (fun i paper => downloadTask (envs i) i paper) 0 targets.

(** What [printSummary] prints of the outcome list. *)
Record Summary := {
  papersFound : nat;                 (* results.length *)
  pdfsDownloaded : nat;              (* successful.length *)
  failedSkipped : nat;               (* failed.length *)
  successful : list Result
}.

Definition printSummary (results : list Result) : Summary :=
  let successful := filter downloaded results in
  let failed := filter (fun r => negb (downloaded r)) results in
  {| papersFound := length results;
     pdfsDownloaded := length successful;
     failedSkipped := length failed;
     successful := successful |}.

(** One run of [main]: the query it was started with and what the world
    answers. *)
Record MainEnv := {
  launchOk : bool;                   (* puppeteer.launch() resolves *)
  pageOk : bool;                     (* browser.newPage() of createPage resolves *)
  setupOk : bool;                    (* the page accepts its settings *)
  query : jsstring;                  (* args.query || config.SEARCH_QUERY *)
  search : Ui.SearchEnv;             (* what the search tab answers *)
  resultsPage : Scholar.Page;
  units : nat -> UnitEnv;
  browserCloseOk : bool              (* browser.close() resolves *)
}.

(** [launchBrowser] (browser.js) *)
Definition launchBrowser (env : MainEnv) : M unit :=
  emit EvLaunch ;;
  if launchOk env then ret tt else throw (Library SessionFailed).

(** [createPage] (browser.js): the search tab is opened, then given its
    user agent, headers, timeouts and init script. *)
Definition createPage (env : MainEnv) : M unit :=
  emit EvNewPage ;;
  if pageOk env then
    emit EvPageSetup ;;
    if setupOk env then ret tt else throw (Library SessionFailed)
  else throw (Library NewPageFailed).

(** [searchScholar(page, query)] (scholar.js), its steps as events of
    the run. *)
Definition searchScholar (env : MainEnv) : M unit :=
  let s := Ui.searchScholar (search env) (query env) in
  (fst s, map EvSearch (snd s)).

(** Steps 3 and 4 of [main], from the extracted papers on. *)
Definition processPapers (envs : nat -> UnitEnv) (maxResults : JsInt)
  (papers : list Scholar.Paper) : M (list Result) :=
  if (length papers =? 0)%nat then throw NoResults
  else
    let targets := slice0 papers maxResults in
    results <- allSettled (downloadPromises envs targets) ;;
    ret (fulfilledValues results).

(** [main], from the launch of the browser to the summary.
    [downloadResults] is filled only by the last statement of the [try]
    block, so it is empty whenever that block throws; [browser] is set
    only when the launch resolves. *)
Definition main (env : MainEnv) (maxResults : JsInt) : M Summary :=
  downloadResults <-
    try_finally
      (try_catch
         (launchBrowser env ;;
          createPage env ;;
          searchScholar env ;;
          papers <- Scholar.extractResults (resultsPage env) ;;
          processPapers (units env) maxResults papers)
         (fun err => emit (EvLog (LogFatal err)) ;; ret []))
      (if launchOk env then
         emit EvCloseBrowser ;;
         if browserCloseOk env then emit (EvLog LogBrowserClosed)
         else throw (Library BrowserCloseFailed)
       else ret tt) ;;
  let summary := printSummary downloadResults in
  emit (EvLog (LogSummary (papersFound summary) (pdfsDownloaded summary)
                 (failedSkipped summary))) ;;
  ret summary.

End Index.

(** ** The vocabulary of the specification

    Definitions that follow the wording of the specification rather than
    the source; the theorems below compare the program with them. *)

Module SpecWords.

(** The class [[A-Za-z0-9_-]]. *)
Definition safeChar (c : N) : bool :=
  isLower c || isUpper c || isDigit c || (c =? 45)%N || (c =? 95)%N.

(** "output matches [[A-Za-z0-9_-]{0,80}]" *)
Definition matchesSafeName (s : jsstring) : Prop :=
  Forall (fun c => safeChar c = true) s /\ (length s <= 80)%nat.

(** The class [[A-Za-z0-9 _-]], with its literal space. *)
Definition wordedClass (c : N) : bool := safeChar c || (c =? 32)%N.

(** "collapse runs of whitespace to a single underscore": the underscore
    is written when the run ends. *)
Fixpoint collapseRuns (s : jsstring) : jsstring :=
  match s with
  | [] => []
  | c :: s' =>
      if isSpace c then
        match s' with
        | [] => [95%N]
        | c' :: _ => if isSpace c' then collapseRuns s' else 95%N :: collapseRuns s'
        end
      else c :: collapseRuns s'
  end.

(** "strip every character outside [[A-Za-z0-9 _-]], collapse runs of
    whitespace to a single underscore, truncate to 80 characters" *)
Definition sanitizeAsWorded (x : jsstring) : jsstring :=
  firstn 80 (collapseRuns (filter wordedClass x)).

(** The same with the class the program keeps: [[A-Za-z0-9_-]] and every
    [\s] character. *)
Definition sanitizeAmended (x : jsstring) : jsstring :=
  firstn 80 (collapseRuns (filter (fun c => safeChar c || isSpace c) x)).

(** "the first k records (or all of them when fewer than k exist)" *)
Definition firstRecords {A} (k : Z) (records : list A) : list A :=
  firstn (Z.to_nat k) records.

(** [w] spells the ASCII-lowercase word [lit] in some mix of cases. *)
Definition sameLetter (c l : N) : Prop := c = l \/ (c + 32)%N = l /\ isUpper c = true.
Definition caseVariant (w lit : jsstring) : Prop := Forall2 sameLetter w lit.

(** "the title contains a case-insensitive [lit] substring" *)
Definition containsIgnoringCase (s lit : jsstring) : Prop :=
  exists pre w post, s = pre ++ w ++ post /\ caseVariant w lit.

(** [l] lists some elements of [m] in the order [m] has them. *)
Inductive Subseq {A} : list A -> list A -> Prop :=
| Subseq_nil : Subseq [] []
| Subseq_skip x l m : Subseq l m -> Subseq l (x :: m)
| Subseq_keep x l m : Subseq l m -> Subseq (x :: l) (x :: m).

(** "the document contains a CAPTCHA-form element" *)
Definition hasCaptchaForm (d : Dom.Document) : Prop :=
  exists e, In e (Dom.elements d)
            /\ Dom.tagName e = js "form"
            /\ Dom.getAttribute (js "id") (Dom.attributes e) = Some (js "captcha-form").

(** "the document contains a reCAPTCHA widget" *)
Definition hasRecaptcha (d : Dom.Document) : Prop :=
  exists e, In e (Dom.elements d)
            /\ Dom.getAttribute (js "id") (Dom.attributes e) = Some (js "recaptcha").

(** "HTTP status is success" *)
Definition statusIsSuccess (r : Downloader.Response) : Prop :=
  (200 <= Downloader.status r <= 299)%Z.

(** "response content-type contains 'pdf' or 'octet-stream'" *)
Definition typeIsPdf (r : Downloader.Response) : Prop :=
  includes (or_empty (Downloader.contentTypeHeader r)) (js "pdf") = true
  \/ includes (or_empty (Downloader.contentTypeHeader r)) (js "octet-stream") = true.

(** "the first 5 bytes of the body are the literal signature [%PDF-]" *)
Definition signatureIsPdf (buf : list N) : Prop :=
  firstn 5 buf = js "%PDF-".

(** What the program tests instead: the first five bytes spell [%PDF-]
    once the highest bit of each is cleared. *)
Definition maskedSignatureIsPdf (buf : list N) : Prop :=
  (5 <= length buf)%nat /\ Downloader.toStringAscii0 5 buf = js "%PDF-".

(** The events of [ensureOutputDir]. *)
Definition mkdirEvents (env : Downloader.DownloadEnv) : list Event :=
  if Downloader.dirExists env then [] else [EvMkdir Config.OUTPUT_DIR].

(** The output directory exists or can be created. *)
Definition dirReady (env : Downloader.DownloadEnv) : Prop :=
  Downloader.dirExists env = true \/ Downloader.mkdirOk env = true.

(** An event that writes no file other than [out]. *)
Definition writesOnly (out : jsstring) (ev : Event) : Prop :=
  match ev with
  | EvWriteFile path _ => path = out
  | _ => True
  end.

(** The events of the page-scan strategy. *)
Definition pageEvent (ev : Event) : bool :=
  match ev with
  | EvNewPage | EvGoto _ | EvEvaluate | EvClosePage => true
  | _ => false
  end.

(** The lines printed with [console.log]. *)
Definition logEvent (ev : Event) : bool :=
  match ev with
  | EvLog _ => true
  | _ => false
  end.

(** The events that save a file. *)
Definition writeEvent (ev : Event) : bool :=
  match ev with
  | EvWriteFile _ _ => true
  | _ => false
  end.

(** The [result] object as the closure creates it. *)
Definition notDownloaded (paper : Scholar.Paper) : Index.Result :=
  {| Index.title := Scholar.title paper; Index.downloaded := false;
     Index.savedPath := None; Index.method := None |}.

(** The outcome of a download saved at [p] by the method [how]. *)
Definition downloadedBy (paper : Scholar.Paper) (p how : jsstring) : Index.Result :=
  {| Index.title := Scholar.title paper; Index.downloaded := true;
     Index.savedPath := Some p; Index.method := Some how |}.


(** Requests of a browsing context, and releases. *)
Definition isOpen (ev : Event) : bool :=
  match ev with EvNewPage => true | _ => false end.
Definition isClose (ev : Event) : bool :=
  match ev with EvClosePage => true | _ => false end.

(** How many events of a trace satisfy [f]. *)
Definition count (f : Event -> bool) (t : list Event) : nat :=
  length (filter f t).

(** The last event of a trace. *)
Definition lastEvent (t : list Event) : option Event := hd_error (rev t).






(** The unit saved a document. *)
Definition yieldsDocument (env : Index.UnitEnv) (i : nat) (paper : Scholar.Paper)
  : bool :=
  existsb writeEvent (trace (Index.downloadTask env i paper)).

(** Where the browser draws an element: the distance of its box from the
    top of the page. *)
Definition Layout : Type := Dom.Located -> Z.

(** [x] put at its height in [l], before the elements drawn at the same
    height or lower. *)
Fixpoint insertByTop (top : Layout) (x : Dom.Located) (l : list Dom.Located)
  : list Dom.Located :=
  match l with
  | [] => [x]
  | y :: l' =>
      if (top x <=? top y)%Z then x :: l else y :: insertByTop top x l'
  end.

(** "visual top-to-bottom order": the elements of [l] as the eye meets
    them going down the page, those drawn at the same height in the order
    of [l]. *)
Definition topToBottom (top : Layout) (l : list Dom.Located) : list Dom.Located :=
  fold_right (insertByTop top) [] l.

(** No element of [l] is drawn above an element that precedes it in
    [l]. *)
Fixpoint drawnInOrder (top : Layout) (l : list Dom.Located) : Prop :=
  match l with
  | [] => True
  | x :: l' => Forall (fun y => (top x <= top y)%Z) l' /\ drawnInOrder top l'
  end.

End SpecWords.

(** ** Sample inputs

    Concrete titles, responses, pages and environments on which the
    program is evaluated below. *)

Module Samples.

(** A title with a TAB between two letters: [a\tb]. *)
Definition tabTitle : jsstring := [97; 9; 98]%N.

(** A body whose first five bytes are A5 D0 C4 C6 AD: the bytes of
    [%PDF-] with their highest bit set. *)
Definition maskedBody : list N := [165; 208; 196; 198; 173; 49; 46; 52]%N.

(** A genuine PDF body, [%PDF-1.4]. *)
Definition pdfBody : list N := js "%PDF-1.4".

(** A server that answers every request with status 200, content type
    [application/pdf] and the body [b]; the output directory exists and
    can be written to. *)
Definition servingEnv (b : list N) : Downloader.DownloadEnv :=
  {| Downloader.platform := Path.posix;
     Downloader.dirExists := true;
     Downloader.mkdirOk := true;
     Downloader.fetchResult := fun _ =>
       Some {| Downloader.status := 200;
               Downloader.contentTypeHeader := Some (js "application/pdf");
               Downloader.body := Some b |};
     Downloader.writeOk := true |}.

(** A paper landing page with one link to a PDF. *)
Definition paperPage : Dom.Document :=
  {| Dom.title := js "A paper";
     Dom.documentElement :=
       Dom.Element (js "html") [] []
         [Dom.Element (js "body") [] []
            [Dom.Element (js "a") [(js "href", js "/files/p.pdf")]
               (js "http://host/files/p.pdf") [Dom.Text (js "Download")]]] |}.

(** A landing page without any link. *)
Definition emptyPage : Dom.Document :=
  {| Dom.title := js "A paper";
     Dom.documentElement := Dom.Element (js "html") [] [] [] |}.

(** A tab on which every navigation loads [d]. *)
Definition tabShowing (d : Dom.Document) : Downloader.TabEnv :=
  {| Downloader.gotoResult := fun _ => Some d;
     Downloader.evaluateOk := true |}.

(** A record with a paper page and no direct link. *)
Definition scanPaper : Scholar.Paper :=
  {| Scholar.title := js "T";
     Scholar.paperUrl := Some (js "http://host/paper");
     Scholar.directPdfUrl := None;
     Scholar.meta := js "A Author - 2020" |}.

(** A record with a direct link and a paper page. *)
Definition directPaper : Scholar.Paper :=
  {| Scholar.title := js "T";
     Scholar.paperUrl := Some (js "http://host/paper");
     Scholar.directPdfUrl := Some (js "http://host/p.pdf");
     Scholar.meta := js "A Author - 2020" |}.

(** A unit in which everything works: both downloads are served a genuine
    PDF and the paper page has a PDF link. *)
Definition goodUnit : Index.UnitEnv :=
  {| Index.directEnv := servingEnv pdfBody;
     Index.newPageOk := true;
     Index.tabEnv := tabShowing paperPage;
     Index.scanEnv := servingEnv pdfBody;
     Index.closeOk := true |}.

(** The same unit, except that [pdfTab.close()] rejects. *)
Definition closeFailsUnit : Index.UnitEnv :=
  {| Index.directEnv := servingEnv pdfBody;
     Index.newPageOk := true;
     Index.tabEnv := tabShowing paperPage;
     Index.scanEnv := servingEnv pdfBody;
     Index.closeOk := false |}.

(** A unit whose direct link serves an HTML page and whose paper page has
    no link. *)
Definition paywalledUnit : Index.UnitEnv :=
  {| Index.directEnv := servingEnv (js "<html>Access denied</html>");
     Index.newPageOk := true;
     Index.tabEnv := tabShowing emptyPage;
     Index.scanEnv := servingEnv pdfBody;
     Index.closeOk := true |}.

(** A unit in which the output directory is missing and cannot be
    created when the page-scan strategy downloads. *)
Definition noDirUnit : Index.UnitEnv :=
  {| Index.directEnv := servingEnv pdfBody;
     Index.newPageOk := true;
     Index.tabEnv := tabShowing paperPage;
     Index.scanEnv :=
       {| Downloader.platform := Path.posix;
          Downloader.dirExists := false;
          Downloader.mkdirOk := false;
          Downloader.fetchResult := fun _ => None;
          Downloader.writeOk := false |};
     Index.closeOk := true |}.

(** A page that shows Google's CAPTCHA form. *)
Definition captchaPage : Scholar.Page :=
  {| Scholar.document :=
       {| Dom.title := js "Sorry...";
          Dom.documentElement :=
            Dom.Element (js "html") [] []
              [Dom.Element (js "body") [] []
                 [Dom.Element (js "form") [(js "id", js "captcha-form")] [] []]] |};
     Scholar.extractionOk := true |}.

(** A page whose title mentions the challenge in capitals. *)
Definition captchaTitlePage : Scholar.Page :=
  {| Scholar.document :=
       {| Dom.title := js "reCAPTCHA check";
          Dom.documentElement := Dom.Element (js "html") [] [] [] |};
     Scholar.extractionOk := true |}.

Definition anchor (url label : string) : Dom.Node :=
  Dom.Element (js "a") [(js "href", js url)] (js url) [Dom.Text (js label)].

Definition block (tag class : string) (children : list Dom.Node) : Dom.Node :=
  Dom.Element (js tag) [(js "class", js class)] [] children.

(** A results page with two result blocks: the first has a [PDF] link in
    its side slot, the second has none. *)
Definition resultsPage : Scholar.Page :=
  {| Scholar.document :=
       {| Dom.title := js "machine learning - Google Scholar";
          Dom.documentElement :=
            Dom.Element (js "html") [] []
              [Dom.Element (js "div") [(js "id", js "gs_res_ccl_mid")] []
                 [block "div" "gs_r gs_or gs_scl"
                    [block "div" "gs_or_ggsm"
                       [anchor "http://host/one.pdf" "[PDF] host"];
                     block "div" "gs_ri"
                       [block "h3" "gs_rt" [anchor "http://host/one" " Paper One "];
                        block "div" "gs_a" [Dom.Text (js "A Author - 2020")]]];
                  block "div" "gs_r gs_or gs_scl"
                    [block "div" "gs_ri"
                       [block "h3" "gs_rt" [anchor "http://host/two" "Paper Two"]]]]] |};
     Scholar.extractionOk := true |}.

Definition paperOne : Scholar.Paper :=
  {| Scholar.title := js "Paper One";
     Scholar.paperUrl := Some (js "http://host/one");
     Scholar.directPdfUrl := Some (js "http://host/one.pdf");
     Scholar.meta := js "A Author - 2020" |}.

Definition paperTwo : Scholar.Paper :=
  {| Scholar.title := js "Paper Two";
     Scholar.paperUrl := Some (js "http://host/two");
     Scholar.directPdfUrl := None;
     Scholar.meta := [] |}.

(** A unit in which [browser.newPage()] rejects. *)
Definition noTabUnit : Index.UnitEnv :=
  {| Index.directEnv := servingEnv pdfBody;
     Index.newPageOk := false;
     Index.tabEnv := tabShowing paperPage;
     Index.scanEnv := servingEnv pdfBody;
     Index.closeOk := true |}.

(** A file system on which the output directory is missing and cannot be
    created. *)
Definition noDirEnv : Downloader.DownloadEnv :=
  {| Downloader.platform := Path.posix;
     Downloader.dirExists := false;
     Downloader.mkdirOk := false;
     Downloader.fetchResult := fun _ => None;
     Downloader.writeOk := false |}.

(** A unit in which the output directory is missing and cannot be
    created when the direct link is downloaded. *)
Definition noDirectDirUnit : Index.UnitEnv :=
  {| Index.directEnv := noDirEnv;
     Index.newPageOk := true;
     Index.tabEnv := tabShowing paperPage;
     Index.scanEnv := servingEnv pdfBody;
     Index.closeOk := true |}.

(** A unit whose paper page has no link and whose tab cannot be closed. *)
Definition lostTabUnit : Index.UnitEnv :=
  {| Index.directEnv := servingEnv pdfBody;
     Index.newPageOk := true;
     Index.tabEnv := tabShowing emptyPage;
     Index.scanEnv := servingEnv pdfBody;
     Index.closeOk := false |}.






(** A result block whose title is a link and whose only [[PDF]] badge is
    an anchor without [href]. *)
Definition deadBadgeBlock : Dom.Located :=
  {| Dom.ancestors := [(js "div", [(js "id", js "gs_res_ccl_mid")]); (js "html", [])];
     Dom.tagName := js "div";
     Dom.attributes := [(js "class", js "gs_r gs_or gs_scl")];
     Dom.hrefProp := [];
     Dom.childNodes :=
       [block "h3" "gs_rt" [anchor "http://host/paper" "T"];
        Dom.Element (js "a") [] [] [Dom.Text (js "[PDF]")]] |}.

(** The record of that block: its direct link is the empty string. *)
Definition deadBadgePaper : Scholar.Paper :=
  {| Scholar.title := js "T";
     Scholar.paperUrl := Some (js "http://host/paper");
     Scholar.directPdfUrl := Some [];
     Scholar.meta := [] |}.

(** A result block whose title is an anchor without [href]. *)
Definition deadTitleBlock : Dom.Located :=
  {| Dom.ancestors := [(js "div", [(js "id", js "gs_res_ccl_mid")]); (js "html", [])];
     Dom.tagName := js "div";
     Dom.attributes := [(js "class", js "gs_r gs_or gs_scl")];
     Dom.hrefProp := [];
     Dom.childNodes :=
       [block "h3" "gs_rt" [Dom.Element (js "a") [] [] [Dom.Text (js "T")]]] |}.

(** The record of that block: its paper page is the empty string. *)
Definition deadTitlePaper : Scholar.Paper :=
  {| Scholar.title := js "T";
     Scholar.paperUrl := Some [];
     Scholar.directPdfUrl := None;
     Scholar.meta := [] |}.

(** A rendering of the sample results page that draws its second block
    above the first, as a style sheet that reverses the column does: the
    block with a side slot is drawn 200 pixels down, everything else at
    the top. *)
Definition reversedLayout : SpecWords.Layout :=
  fun e =>
    if Scholar.isSome (Dom.querySelector Scholar.pdfSlotAnchor e)
    then 200%Z else 0%Z.

End Samples.

(** ** config.js, the remaining settings *)

Module Defaults.

Definition SEARCH_QUERY : jsstring := js "machine learning".
Definition MAX_RESULTS : Z := 5.
Definition HEADLESS : bool := true.
Definition TYPE_DELAY_MIN : Z := 20.
Definition TYPE_DELAY_MAX : Z := 50.

(** [ToString(MAX_RESULTS)], which [parseInt] applies to a number. *)
Definition MAX_RESULTS_text : jsstring := js "5".

End Defaults.

(** ** index.js: the command line *)

Module Args.

(** [arg.replace('--', '')]: a string pattern replaces its first
    occurrence only, wherever it is. *)
Fixpoint removeFirstDashes (s : jsstring) : jsstring :=
  match s with
  | [] => []
  | a :: s1 =>
      match s1 with
      | [] => s
      | b :: s2 =>
          if (a =? 45)%N && (b =? 45)%N then s2
          else a :: removeFirstDashes s1
      end
  end.

Definition isEquals (c : N) : bool := (c =? 61)%N.

(** [const [key, value] = arg.replace('--', '').split('=')]: the first
    piece, and the second or [undefined]. *)
Definition parseArg (arg : jsstring) : jsstring * option jsstring :=
  let pieces := splitOn isEquals (removeFirstDashes arg) in
  (hd [] pieces, nth_error pieces 1).

(** The object [result]: its own properties, the last one set first.  A
    value is a string or [undefined]. *)
Definition Obj : Type := list (jsstring * option jsstring).

(** [result[key] = value].  On a plain object the key [__proto__] is an
    accessor that ignores a string and [undefined]. *)
Definition set (key : jsstring) (value : option jsstring) (o : Obj) : Obj :=
  if eqb key (js "__proto__") then o else (key, value) :: o.

(** [result[key]] for an own property, [undefined] when there is none.
    [main] reads [query], [max] and [headless], which no plain object
    inherits. *)
Fixpoint get (key : jsstring) (o : Obj) : option jsstring :=
  match o with
  | [] => None
  | (k, v) :: o' => if eqb k key then v else get key o'
  end.

Definition parseArgs (argv : list jsstring) : Obj :=
  fold_left (fun result arg => let (key, value) := parseArg arg in
                               set key value result)
    argv [].

(** The digits [parseInt] reads: the longest prefix of decimal digits,
    [None] when there is none. *)
Fixpoint digits (acc : option Z) (s : jsstring) : option Z :=
  match s with
  | [] => acc
  | c :: s' =>
      if isDigit c
      then digits (Some (10 * match acc with Some a => a | None => 0 end
                         + Z.of_N (c - 48))%Z) s'
      else acc
  end.

(** The double nearest to the integer [a >= 0], ties going to the even
    significand: [a] itself up to 2^53; beyond, [a] has [53 + e] bits,
    its top 53 bits [q] are kept and rounded by the [e] bits dropped.
    [None] when the result leaves the doubles (it reaches 2^1024). *)
Definition nearestDouble (a : Z) : option Z :=
  if (a <=? 2 ^ 53)%Z then Some a
  else
    let e := (Z.log2 a - 52)%Z in
    let q := Z.shiftr a e in
    let r := (a - Z.shiftl q e)%Z in
    let half := Z.shiftl 1 (e - 1) in
    let q' := if (half <? r)%Z || ((r =? half)%Z && Z.odd q)
              then (q + 1)%Z else q in
    let v := Z.shiftl q' e in
    if (v <? 2 ^ 1024)%Z then Some v else None.

(** [parseInt(string, 10)]: leading white space is skipped, one sign is
    read, then the longest prefix of decimal digits; [NaN] without a
    digit.  The result is a Number: the double nearest to the integer
    read, an infinity beyond the doubles. *)
Definition parseInt (s : jsstring) : Index.JsInt :=
  let s1 := dropSpaces s in
  let signed :=
    match s1 with
    | c :: r => if (c =? 45)%N then (true, r)
                else if (c =? 43)%N then (false, r)
                else (false, s1)
    | [] => (false, s1)
    end in
  match digits None (snd signed) with
  | None => Index.NaN
  | Some n =>
      match nearestDouble n with
      | Some v => Index.Int (if fst signed then - v else v)
      | None => Index.Infinity (fst signed)
      end
  end.

(** What [main] takes from the command line. *)
Record Settings := {
  query : jsstring;
  maxResults : Index.JsInt;
  headless : bool
}.

(** The first statements of [main]:
    [args.query || config.SEARCH_QUERY],
    [parseInt(args.max || config.MAX_RESULTS, 10)] and the assignment of
    [config.HEADLESS] when [args.headless !== undefined]. *)
Definition settings (argv : list jsstring) : Settings :=
  let args := parseArgs argv in
  {| query := if truthy_opt (get (js "query") args)
              then or_empty (get (js "query") args)
              else Defaults.SEARCH_QUERY;
     maxResults := parseInt (if truthy_opt (get (js "max") args)
                             then or_empty (get (js "max") args)
                             else Defaults.MAX_RESULTS_text);
     headless := match get (js "headless") args with
                 | Some h => eqb h (js "true")
                 | None => Defaults.HEADLESS
                 end |}.

End Args.

(** ** scholar.js: [hasCaptcha] *)

Module Liveness.

(** What [hasCaptcha] resolves with; reading [document.body.innerText]
    throws when the document has no body. *)
Inductive Checked :=
| Flag (blocked : bool)
| NoBody.

(** The function [hasCaptcha] evaluates in the page.  [innerText] is the
    rendered text of the body, as the browser computes it, or [None] when
    [document.body] is [null]. *)
Definition hasCaptcha (d : Dom.Document) (innerText : option jsstring) : Checked :=
  if includes (toLowerCase (Dom.title d)) (js "captcha")
     || Scholar.isSome (Dom.docQuerySelector Scholar.captchaForm d)
     || Scholar.isSome (Dom.docQuerySelector Scholar.recaptcha d)
  then Flag true
  else match innerText with
       | Some text => Flag (includes (toLowerCase text) (js "unusual traffic"))
       | None => NoBody
       end.

End Liveness.

(** ** More vocabulary *)

Module MoreWords.

Definition isMkdir (ev : Event) : bool :=
  match ev with EvMkdir _ => true | _ => false end.
Definition isFetch (ev : Event) : bool :=
  match ev with EvFetch _ => true | _ => false end.
Definition isGoto (ev : Event) : bool :=
  match ev with EvGoto _ => true | _ => false end.
Definition isBrowserClose (ev : Event) : bool :=
  match ev with EvCloseBrowser => true | _ => false end.

(** An event that only an acquisition unit performs: a download request,
    the creation of the output directory, the writing of a file, the
    visit of a paper page, the closing of a tab. *)
Definition unitEvent (ev : Event) : bool :=
  match ev with
  | EvFetch _ | EvWriteFile _ _ | EvMkdir _ | EvGoto _ | EvClosePage => true
  | _ => false
  end.

(** An anchor of the document whose resolved [href] is [u]. *)
Definition anchorWithHref (d : Dom.Document) (u : jsstring) : Prop :=
  exists e, In e (Dom.elements d)
            /\ Dom.tagName e = js "a" /\ Dom.hrefProp e = u.

(** An anchor whose [href] attribute ends with [.pdf]: what the first
    selector of [findPDFOnPage], [a[href$=".pdf"]], selects. *)
Definition pdfSuffixAnchor (e : Dom.Located) : bool :=
  eqb (js "a") (Dom.tagName e)
  && match Dom.getAttribute (js "href") (Dom.attributes e) with
     | Some v => endsWith (js ".pdf") v
     | None => false
     end.

(** An anchor. *)
Definition isAnchor (e : Dom.Located) : bool := eqb (js "a") (Dom.tagName e).

(** The visible label of a link is exactly [[PDF]]. *)
Definition pdfBadge (e : Dom.Located) : bool :=
  eqb (trim (Scholar.text e)) (js "[PDF]").

(** The loop of [extractResults] over [allLinks]: what it leaves in
    [directPdfUrl], starting from [start]. *)
Definition badgeScan (links : list Dom.Located) (start : option jsstring)
  : option jsstring :=
  fold_left
    (fun acc link =>
       if negb (truthy_opt acc) && eqb (trim (Scholar.text link)) (js "[PDF]")
       then Some (Dom.hrefProp link) else acc)
    links start.

(** The first statements of the [try] block of [main]: the launch, the
    search tab, the search. *)
Definition opening (env : Index.MainEnv) : M unit :=
  Index.launchBrowser env ;; Index.createPage env ;; Index.searchScholar env.

(** The search of a run completes. *)
Definition searched (env : Index.MainEnv) : Prop :=
  fst (Ui.searchScholar (Index.search env) (Index.query env)) = Normal tt.

(** The statements of the [try] block of [main] once the search has
    succeeded: extraction, then the batch. *)
Definition session (env : Index.MainEnv) (maxResults : Index.JsInt)
  : M (list Index.Result) :=
  bind (Scholar.extractResults (Index.resultsPage env))
    (Index.processPapers (Index.units env) maxResults).

(** The outcomes of the units run for [targets]. *)
Definition outcomesOf (envs : nat -> Index.UnitEnv) (targets : list Scholar.Paper)
  : list Index.Result :=
  Index.fulfilledValues (map Index.settle (Index.downloadPromises envs targets)).

(** [s] has no [=]. *)
Definition noEquals (s : jsstring) : Prop :=
  Forall (fun c => Args.isEquals c = false) s.

(** The decimal digits of a [Decimal.uint], as character codes. *)
Fixpoint codes (d : Decimal.uint) : jsstring :=
  match d with
  | Decimal.Nil => []
  | Decimal.D0 l => 48%N :: codes l
  | Decimal.D1 l => 49%N :: codes l
  | Decimal.D2 l => 50%N :: codes l
  | Decimal.D3 l => 51%N :: codes l
  | Decimal.D4 l => 52%N :: codes l
  | Decimal.D5 l => 53%N :: codes l
  | Decimal.D6 l => 54%N :: codes l
  | Decimal.D7 l => 55%N :: codes l
  | Decimal.D8 l => 56%N :: codes l
  | Decimal.D9 l => 57%N :: codes l
  end.

(** The decimal notation of a natural number. *)
Definition decimal (n : N) : jsstring := codes (N.to_uint n).

End MoreWords.

(** ** More sample inputs *)

Module MoreSamples.

(** A landing page with an ordinary link followed by a link to a PDF. *)
Definition mixedPage : Dom.Document :=
  {| Dom.title := js "A paper";
     Dom.documentElement :=
       Dom.Element (js "html") [] []
         [Dom.Element (js "body") [] []
            [Samples.anchor "http://host/about" "About";
             Dom.Element (js "a") [(js "href", js "/files/p.pdf")]
               (js "http://host/files/p.pdf") [Dom.Text (js "Full text")]]] |}.

(** A result block with a title that is no link, and no link at all. *)
Definition bareBlock : Dom.Located :=
  {| Dom.ancestors := [(js "div", [(js "id", js "gs_res_ccl_mid")]); (js "html", [])];
     Dom.tagName := js "div";
     Dom.attributes := [(js "class", js "gs_r gs_or gs_scl")];
     Dom.hrefProp := [];
     Dom.childNodes :=
       [Samples.block "h3" "gs_rt" [Dom.Text (js "[CITATION] A cited work")];
        Samples.block "div" "gs_a" [Dom.Text (js " B Author - 1999 ")]] |}.

(** A result block with two [[PDF]] anchors, the first without [href]. *)
Definition twoBadgeBlock : Dom.Located :=
  {| Dom.ancestors := [(js "div", [(js "id", js "gs_res_ccl_mid")]); (js "html", [])];
     Dom.tagName := js "div";
     Dom.attributes := [(js "class", js "gs_r gs_or gs_scl")];
     Dom.hrefProp := [];
     Dom.childNodes :=
       [Dom.Element (js "a") [] [] [Dom.Text (js "[PDF]")];
        Samples.anchor "http://host/b.pdf" "[PDF]"] |}.

(** The first result block of the sample results page. *)
Definition firstBlock : Dom.Located :=
  hd bareBlock
    (Dom.docQuerySelectorAll Scholar.resultItem
       (Scholar.document Samples.resultsPage)).

(** A server that is down. *)
Definition downEnv : Downloader.DownloadEnv :=
  {| Downloader.platform := Path.posix;
     Downloader.dirExists := true;
     Downloader.mkdirOk := true;
     Downloader.fetchResult := fun _ => None;
     Downloader.writeOk := true |}.

(** A tab on which every navigation fails. *)
Definition deadTab : Downloader.TabEnv :=
  {| Downloader.gotoResult := fun _ => None; Downloader.evaluateOk := true |}.

(** A search in which every step succeeds. *)
Definition smoothSearch : Ui.SearchEnv :=
  {| Ui.gotoOk := true; Ui.inputFound := true; Ui.focusOk := true;
     Ui.clickOk := true; Ui.typeOk := fun _ => true;
     Ui.typeDelay := fun _ => 20%Z; Ui.submitOk := true |}.

(** A search on a page that never shows the query input. *)
Definition noInputSearch : Ui.SearchEnv :=
  {| Ui.gotoOk := true; Ui.inputFound := false; Ui.focusOk := true;
     Ui.clickOk := true; Ui.typeOk := fun _ => true;
     Ui.typeDelay := fun _ => 20%Z; Ui.submitOk := true |}.

(** A run in which the browser starts, the search succeeds, the sample
    results page is shown and every unit works. *)
Definition smoothRun : Index.MainEnv :=
  {| Index.launchOk := true; Index.pageOk := true; Index.setupOk := true;
     Index.query := js "deep learning";
     Index.search := smoothSearch;
     Index.resultsPage := Samples.resultsPage;
     Index.units := fun _ => Samples.goodUnit;
     Index.browserCloseOk := true |}.

(** A run that meets the CAPTCHA page. *)
Definition blockedRun : Index.MainEnv :=
  {| Index.launchOk := true; Index.pageOk := true; Index.setupOk := true;
     Index.query := js "deep learning";
     Index.search := smoothSearch;
     Index.resultsPage := Samples.captchaPage;
     Index.units := fun _ => Samples.goodUnit;
     Index.browserCloseOk := true |}.

End MoreSamples.

(* ================================================================== *)
(** * Part II: the properties *)
(* ================================================================== *)

Import SpecWords.

(** ** Strings *)

Section StringFacts.

Lemma eqb_eq (a b : jsstring) : eqb a b = true <-> a = b.
Proof.
  unfold eqb. destruct (list_eq_dec N.eq_dec a b); split; congruence.
Qed.

Lemma eqb_refl (a : jsstring) : eqb a a = true.
Proof. now apply eqb_eq. Qed.

Lemma eqb_neq (a b : jsstring) : a <> b -> eqb a b = false.
Proof.
  intros H. destruct (eqb a b) eqn:E; [|reflexivity].
  apply eqb_eq in E. contradiction.
Qed.

Lemma startsWith_app p s : startsWith p (p ++ s) = true.
Proof.
  induction p as [|a p IH]; simpl; [reflexivity|].
  now rewrite N.eqb_refl, IH.
Qed.

Lemma includes_here s p : startsWith p s = true -> includes s p = true.
Proof. intros H. destruct s; simpl; rewrite H; reflexivity. Qed.

Lemma includes_app pre p post : includes (pre ++ p ++ post) p = true.
Proof.
  induction pre as [|c pre IH]; simpl.
  - apply includes_here, startsWith_app.
  - rewrite IH. apply orb_true_r.
Qed.

Lemma toLowerCase_app a b : toLowerCase (a ++ b) = toLowerCase a ++ toLowerCase b.
Proof. unfold toLowerCase. apply flat_map_app. Qed.

Lemma lower1_lower c : isUpper c = false -> (c <? 128)%N = true -> lower1 c = [c].
Proof.
  intros U A. unfold lower1. rewrite U.
  apply N.ltb_lt in A.
  destruct (N.eqb_spec c 8490); [lia|].
  destruct (N.eqb_spec c 304); [lia|]. reflexivity.
Qed.

Lemma splitOn_nonempty p s : splitOn p s <> [].
Proof.
  destruct s as [|c s]; simpl; [discriminate|].
  destruct (p c); [discriminate|].
  destruct (splitOn p s); discriminate.
Qed.

Lemma splitOn_app_sep p a c b :
  p c = true -> splitOn p (a ++ c :: b) = splitOn p a ++ splitOn p b.
Proof.
  intros Hc. induction a as [|x a IH]; simpl.
  - rewrite Hc. reflexivity.
  - destruct (p x); rewrite IH; [reflexivity|].
    pose proof (splitOn_nonempty p a) as Hne.
    destruct (splitOn p a); [contradiction | reflexivity].
Qed.

Lemma splitOn_none p s :
  Forall (fun c => p c = false) s -> splitOn p s = [s].
Proof.
  induction 1 as [|c s Hc _ IH]; simpl; [reflexivity|].
  rewrite Hc, IH. reflexivity.
Qed.

End StringFacts.

(** ** [sanitizeFilename] *)

Section Sanitize.

Ltac bool_to_prop :=
  unfold safeChar, Downloader.keptChar, wordedClass, isSpace, isLower,
    isUpper, isDigit, in_range in *;
  repeat rewrite ?orb_true_iff, ?andb_true_iff, ?N.leb_le, ?N.eqb_eq in *.

Lemma safeChar_not_space c : safeChar c = true -> isSpace c = false.
Proof.
  intros Hs. destruct (isSpace c) eqn:Hw; [|reflexivity].
  exfalso. bool_to_prop. lia.
Qed.

Lemma keptChar_split c : Downloader.keptChar c = safeChar c || isSpace c.
Proof.
  unfold Downloader.keptChar, safeChar.
  destruct (isLower c), (isUpper c), (isDigit c), (isSpace c),
    (c =? 45)%N, (c =? 95)%N; reflexivity.
Qed.

Lemma keptChar_safe c :
  Downloader.keptChar c = true -> isSpace c = false -> safeChar c = true.
Proof.
  rewrite keptChar_split. intros H Hw. rewrite Hw, orb_false_r in H. exact H.
Qed.

Lemma safeChar_kept c : safeChar c = true -> Downloader.keptChar c = true.
Proof. rewrite keptChar_split. intros ->. reflexivity. Qed.

(** A safe character is none of [/], [\], [.] and [:]. *)
Lemma safeChar_plain c :
  safeChar c = true -> c <> 47%N /\ c <> 92%N /\ c <> 46%N /\ c <> 58%N.
Proof. intros Hs. bool_to_prop. lia. Qed.

Lemma replaceSpaceRuns_safe b s :
  Forall (fun c => Downloader.keptChar c = true) s ->
  Forall (fun c => safeChar c = true) (Downloader.replaceSpaceRuns b s).
Proof.
  intros H. revert b. induction H as [|c s Hc _ IH]; intros b; simpl.
  - constructor.
  - destruct (isSpace c) eqn:Hw.
    + destruct b; [apply IH | constructor; [reflexivity | apply IH]].
    + constructor; [now apply keptChar_safe | apply IH].
Qed.

Lemma replaceSpaceRuns_fixed b s :
  Forall (fun c => safeChar c = true) s -> Downloader.replaceSpaceRuns b s = s.
Proof.
  intros H. revert b. induction H as [|c s Hc _ IH]; intros b; simpl.
  - reflexivity.
  - rewrite (safeChar_not_space _ Hc), IH. reflexivity.
Qed.

Lemma filter_kept_fixed s :
  Forall (fun c => safeChar c = true) s -> filter Downloader.keptChar s = s.
Proof.
  induction 1 as [|c s Hc _ IH]; simpl; [reflexivity|].
  rewrite (safeChar_kept _ Hc), IH. reflexivity.
Qed.

Lemma filter_Forall {A} (f : A -> bool) l : Forall (fun x => f x = true) (filter f l).
Proof.
  induction l as [|x l IH]; simpl; [constructor|].
  destruct (f x) eqn:E; [constructor; assumption | assumption].
Qed.

Lemma Forall_firstn {A} (P : A -> Prop) n l : Forall P l -> Forall P (firstn n l).
Proof.
  intros H. revert n. induction H as [|x l Hx _ IH]; intros [|n]; simpl;
    constructor; auto.
Qed.

Lemma sanitizeFilename_safe x :
  Forall (fun c => safeChar c = true) (Downloader.sanitizeFilename x).
Proof.
  unfold Downloader.sanitizeFilename, substring0.
  apply Forall_firstn, replaceSpaceRuns_safe, filter_Forall.
Qed.

Lemma sanitizeFilename_length x : (length (Downloader.sanitizeFilename x) <= 80)%nat.
Proof.
  unfold Downloader.sanitizeFilename, substring0. apply firstn_le_length.
Qed.

Lemma collapseRuns_space c s :
  isSpace c = true -> collapseRuns (c :: s) = 95%N :: collapseRuns (dropSpaces s).
Proof.
  revert c. induction s as [|c' s IH]; intros c Hc.
  - simpl. rewrite Hc. reflexivity.
  - change (collapseRuns (c :: c' :: s))
      with (if isSpace c
            then if isSpace c' then collapseRuns (c' :: s)
                 else 95%N :: collapseRuns (c' :: s)
            else c :: collapseRuns (c' :: s)).
    rewrite Hc. simpl dropSpaces.
    destruct (isSpace c') eqn:Hc'; [apply IH; exact Hc' | reflexivity].
Qed.

Lemma collapseRuns_other c s :
  isSpace c = false -> collapseRuns (c :: s) = c :: collapseRuns s.
Proof. intros Hc. simpl. rewrite Hc. reflexivity. Qed.

(** The regular-expression replacement and the worded collapse agree. *)
Lemma replaceSpaceRuns_collapse s :
  Downloader.replaceSpaceRuns false s = collapseRuns s
  /\ Downloader.replaceSpaceRuns true s = collapseRuns (dropSpaces s).
Proof.
  induction s as [|c s [IHf IHt]]; [split; reflexivity|].
  simpl Downloader.replaceSpaceRuns. simpl dropSpaces.
  destruct (isSpace c) eqn:Hc.
  - rewrite (collapseRuns_space c s Hc), IHt. split; reflexivity.
  - rewrite (collapseRuns_other c s Hc), IHf. split; reflexivity.
Qed.

(** [sanitizeFilename] leaves a name it produced unchanged. *)
Lemma sanitizeFilename_fixed s :
  matchesSafeName s -> Downloader.sanitizeFilename s = s.
Proof.
  intros [Hs Hl]. unfold Downloader.sanitizeFilename, substring0.
  rewrite (filter_kept_fixed s Hs), (replaceSpaceRuns_fixed false s Hs).
  apply firstn_all2. exact Hl.
Qed.

End Sanitize.

(** C7, as worded, fails on a title with a TAB: TAB is outside
    [[A-Za-z0-9 _-]], yet the program does not strip it; it keeps it as
    whitespace and turns it into an underscore, where stripping first
    leaves nothing to collapse. *)
Lemma sanitizeFilename_keeps_tab :
  wordedClass 9 = false
  /\ Downloader.sanitizeFilename Samples.tabTitle = js "a_b"
  /\ sanitizeAsWorded Samples.tabTitle = js "ab".
Proof. repeat split. Qed.

(** C7 (amended): sanitization is idempotent, its output matches
    [[A-Za-z0-9_-]{0,80}], and it is: strip every character that is neither
    in [[A-Za-z0-9_-]] nor whitespace ([\s]), collapse runs of whitespace to
    a single underscore, truncate to 80 characters. *)
Theorem sanitizeFilename_idempotent_safe (x : jsstring) :
  Downloader.sanitizeFilename (Downloader.sanitizeFilename x)
    = Downloader.sanitizeFilename x
  /\ matchesSafeName (Downloader.sanitizeFilename x)
  /\ Downloader.sanitizeFilename x = sanitizeAmended x.
Proof.
  assert (Hm : matchesSafeName (Downloader.sanitizeFilename x))
    by (split; [apply sanitizeFilename_safe | apply sanitizeFilename_length]).
  split; [apply sanitizeFilename_fixed; exact Hm | split; [exact Hm|]].
  unfold Downloader.sanitizeFilename, sanitizeAmended, substring0.
  rewrite (proj1 (replaceSpaceRuns_collapse _)).
  f_equal. f_equal. apply filter_ext. intros c. apply keptChar_split.
Qed.

(** ** The path [downloadPDF] writes to *)

Section OutputPath.

Lemma last_after {A} (a : list A) c f d : last (a ++ c :: f) d = last (c :: f) d.
Proof.
  induction a as [|x a IH]; [reflexivity|].
  change ((x :: a) ++ c :: f) with (x :: (a ++ c :: f)).
  destruct (a ++ c :: f) eqn:E; [destruct a; discriminate|].
  rewrite <- IH. reflexivity.
Qed.

Lemma last_In {A} (x : A) l d : In (last (x :: l) d) (x :: l).
Proof.
  revert x. induction l as [|y l IH]; intros x; [left; reflexivity|].
  right. apply IH.
Qed.

Lemma longer_neq (f g : jsstring) : (length g < length f)%nat -> f <> g.
Proof. intros H E. subst. lia. Qed.

(** Normalizing the output directory followed by a separator and a file
    name that has no separator and at least three characters. *)
Lemma normalize_output_dir (p : Path.Platform) (f : jsstring) :
  p = Path.posix \/ p = Path.win32 ->
  Forall (fun c => Path.isPathSeparator p c = false) f ->
  (3 <= length f)%nat ->
  Path.normalize p (Config.OUTPUT_DIR ++ Path.sep p :: f)
    = js "output" ++ Path.sep p :: js "pdfs" ++ Path.sep p :: f.
Proof.
  intros Hp Hf Hlen.
  assert (Hsep : Path.isPathSeparator p (Path.sep p) = true)
    by (destruct Hp as [-> | ->]; reflexivity).
  assert (Hdot : Path.isPathSeparator p 46%N = false)
    by (destruct Hp as [-> | ->]; reflexivity).
  assert (Hsplit : splitOn (Path.isPathSeparator p) Config.OUTPUT_DIR
                   = [js "."; js "output"; js "pdfs"])
    by (destruct Hp as [-> | ->]; reflexivity).
  destruct f as [|c f']; [simpl in Hlen; lia|].
  remember (Config.OUTPUT_DIR ++ Path.sep p :: c :: f') as path eqn:Epath.
  unfold Path.normalize.
  destruct path as [|c0 tl]; [discriminate Epath|].
  assert (Hc0 : c0 = 46%N) by (injection Epath; auto).
  subst c0. cbv beta iota zeta. rewrite Hdot. rewrite Epath.
  rewrite (last_after Config.OUTPUT_DIR (Path.sep p) (c :: f') 0%N).
  assert (Hlast : Path.isPathSeparator p (last (Path.sep p :: c :: f') 0%N) = false).
  { change (last (Path.sep p :: c :: f') 0%N) with (last (c :: f') 0%N).
    rewrite Forall_forall in Hf. apply Hf, last_In. }
  rewrite Hlast.
  rewrite (splitOn_app_sep _ Config.OUTPUT_DIR (Path.sep p) (c :: f') Hsep).
  rewrite Hsplit, (splitOn_none _ (c :: f') Hf).
  assert (N1 : eqb (c :: f') [] = false) by (apply eqb_neq; discriminate).
  assert (N2 : eqb (c :: f') Path.dot = false)
    by (apply eqb_neq, longer_neq; simpl in *; lia).
  assert (N3 : eqb (c :: f') Path.dotdot = false)
    by (apply eqb_neq, longer_neq; simpl in *; lia).
  cbn [app Path.normalizeSegments negb].
  change (eqb (js ".") []) with false.
  change (eqb (js ".") Path.dot) with true.
  change (eqb (js "output") []) with false.
  change (eqb (js "output") Path.dot) with false.
  change (eqb (js "output") Path.dotdot) with false.
  change (eqb (js "pdfs") []) with false.
  change (eqb (js "pdfs") Path.dot) with false.
  change (eqb (js "pdfs") Path.dotdot) with false.
  rewrite N1, N2, N3.
  cbn [orb rev app Path.joinWith].
  change (js "output") with [111; 117; 116; 112; 117; 116]%N.
  cbn [app]. rewrite app_nil_r. reflexivity.
Qed.

(** [path.join(OUTPUT_DIR, f)] for such a file name. *)
Lemma join_output_dir (p : Path.Platform) (f : jsstring) :
  p = Path.posix \/ p = Path.win32 ->
  Forall (fun c => Path.isPathSeparator p c = false) f ->
  (3 <= length f)%nat ->
  Path.join p [Config.OUTPUT_DIR; f]
    = js "output" ++ Path.sep p :: js "pdfs" ++ Path.sep p :: f.
Proof.
  intros Hp Hf Hlen.
  rewrite <- (normalize_output_dir p f Hp Hf Hlen).
  destruct f as [|c f']; [simpl in Hlen; lia | reflexivity].
Qed.

Lemma safe_name_no_separator (p : Path.Platform) (s : jsstring) :
  p = Path.posix \/ p = Path.win32 ->
  Forall (fun c => safeChar c = true) s ->
  Forall (fun c => Path.isPathSeparator p c = false) (s ++ js ".pdf").
Proof.
  intros Hp Hs. apply Forall_app. split.
  - eapply Forall_impl; [|exact Hs]. intros c Hc.
    destruct (safeChar_plain c Hc) as (H1 & H2 & _).
    destruct Hp as [-> | ->]; simpl.
    + now apply N.eqb_neq.
    + apply orb_false_iff. split; now apply N.eqb_neq.
  - destruct Hp as [-> | ->]; repeat constructor.
Qed.

Lemma outputPathOf_normal (p : Path.Platform) (title : jsstring) :
  p = Path.posix \/ p = Path.win32 ->
  Downloader.outputPathOf p title
    = js "output" ++ Path.sep p :: js "pdfs" ++ Path.sep p
        :: Downloader.sanitizeFilename title ++ js ".pdf".
Proof.
  intros Hp. unfold Downloader.outputPathOf.
  apply join_output_dir; [exact Hp | |].
  - apply safe_name_no_separator; [exact Hp | apply sanitizeFilename_safe].
  - rewrite length_app. simpl. lia.
Qed.

End OutputPath.

(** ** [downloadPDF] *)

Section DownloadPDF.

Variable env : Downloader.DownloadEnv.
Variables url filename : jsstring.

Let out := Downloader.outputPathOf (Downloader.platform env) filename.

Ltac run_download :=
  unfold Downloader.downloadPDF, Downloader.ensureOutputDir, Downloader.fetch,
    Downloader.buffer, Downloader.writeFileSync, mkdirEvents, dirReady;
  fold out;
  cbv [bind try_catch emit ret throw].

(** The three ways a call of [downloadPDF] ends. *)
Lemma downloadPDF_cases :
  (Downloader.dirExists env = false /\ Downloader.mkdirOk env = false
   /\ Downloader.downloadPDF env url filename
      = (Throw (Library MkdirFailed), mkdirEvents env))
  \/ (dirReady env
      /\ exists r buf,
           Downloader.fetchResult env url = Some r
           /\ statusIsSuccess r /\ typeIsPdf r
           /\ Downloader.body r = Some buf /\ maskedSignatureIsPdf buf
           /\ Downloader.writeOk env = true
           /\ Downloader.downloadPDF env url filename
              = (Normal (Some out),
                 mkdirEvents env ++ [EvFetch url; EvWriteFile out buf]))
  \/ (dirReady env
      /\ exists err,
           Downloader.downloadPDF env url filename
           = (Normal None,
              mkdirEvents env ++ [EvFetch url; EvLog (LogDownloadFailed err)])).
Proof.
  run_download.
  destruct (Downloader.dirExists env) eqn:Hdir; cbn [negb];
    [|destruct (Downloader.mkdirOk env) eqn:Hmk;
      [|left; repeat split; reflexivity]].
  all: right.
  all: destruct (Downloader.fetchResult env url) as [r|] eqn:Hf;
    [|right; split; [auto|eexists; reflexivity]].
  all: destruct (Downloader.ok r) eqn:Hok; cbn [negb];
    [|right; split; [auto|eexists; reflexivity]].
  all: destruct (includes (or_empty (Downloader.contentTypeHeader r)) (js "pdf")
                 || includes (or_empty (Downloader.contentTypeHeader r))
                      (js "octet-stream")) eqn:Hct;
    [apply orb_prop in Hct | apply orb_false_elim in Hct as [H1 H2]; rewrite H1, H2;
     cbn [negb andb]; right; split; [auto|eexists; reflexivity]].
  all: assert (Hneg : negb (includes (or_empty (Downloader.contentTypeHeader r)) (js "pdf"))
                 && negb (includes (or_empty (Downloader.contentTypeHeader r))
                            (js "octet-stream")) = false)
    by (destruct Hct as [-> | ->]; cbn [negb andb];
        [reflexivity | apply andb_false_r]).
  all: rewrite Hneg.
  all: destruct (Downloader.body r) as [buf|] eqn:Hb;
    [|right; split; [auto|eexists; reflexivity]].
  all: destruct (length buf <? 5)%nat eqn:Hlen; cbn [orb];
    [right; split; [auto|eexists; reflexivity]|].
  all: destruct (eqb (Downloader.toStringAscii0 5 buf) (js "%PDF-")) eqn:Hsig;
    cbn [negb]; [|right; split; [auto|eexists; reflexivity]].
  all: destruct (Downloader.writeOk env) eqn:Hw;
    [|right; split; [auto|eexists; reflexivity]].
  all: left; split; [auto|]; exists r, buf.
  all: apply Nat.ltb_ge in Hlen; apply eqb_eq in Hsig.
  all: unfold Downloader.ok in Hok; apply andb_prop in Hok as [Ha Hb'];
    apply Z.leb_le in Ha, Hb'.
  all: repeat split; auto.
Qed.

End DownloadPDF.

Section DownloadFacts.

Variable env : Downloader.DownloadEnv.
Variables url filename : jsstring.

(** A saved path is the output path, and every check the program makes
    has passed. *)
Lemma downloadPDF_saved p :
  completion (Downloader.downloadPDF env url filename) = Normal (Some p) ->
  p = Downloader.outputPathOf (Downloader.platform env) filename
  /\ exists r buf,
       Downloader.fetchResult env url = Some r
       /\ statusIsSuccess r /\ typeIsPdf r
       /\ Downloader.body r = Some buf /\ maskedSignatureIsPdf buf
       /\ Downloader.writeOk env = true
       /\ trace (Downloader.downloadPDF env url filename)
          = mkdirEvents env
              ++ [EvFetch url;
                  EvWriteFile
                    (Downloader.outputPathOf (Downloader.platform env) filename)
                    buf].
Proof.
  destruct (downloadPDF_cases env url filename)
    as [(_ & _ & E) | [(_ & r & buf & Hf & Hs & Ht & Hb & Hm & Hw & E)
                      | (_ & err & E)]];
    rewrite E; cbn [completion trace fst snd]; intros H;
    try discriminate.
  injection H as <-. split; [reflexivity|].
  exists r, buf. repeat (split; [assumption|]). reflexivity.
Qed.

(** [downloadPDF] throws only when the output directory cannot be
    created. *)
Lemma downloadPDF_throws e :
  completion (Downloader.downloadPDF env url filename) = Throw e ->
  e = Library MkdirFailed
  /\ Downloader.dirExists env = false /\ Downloader.mkdirOk env = false
  /\ trace (Downloader.downloadPDF env url filename) = mkdirEvents env.
Proof.
  destruct (downloadPDF_cases env url filename)
    as [(Hd & Hm & E) | [(_ & r & buf & _ & _ & _ & _ & _ & _ & E)
                       | (_ & err & E)]];
    rewrite E; cbn [completion trace fst snd]; intros H;
    try discriminate.
  injection H as <-. auto.
Qed.

Lemma downloadPDF_returns :
  dirReady env ->
  exists v, completion (Downloader.downloadPDF env url filename) = Normal v.
Proof.
  intros Hr.
  destruct (completion (Downloader.downloadPDF env url filename)) as [v|e] eqn:E;
    [exists v; reflexivity|].
  apply downloadPDF_throws in E as (_ & Hd & Hm & _).
  destruct Hr; congruence.
Qed.

(** The only file a call writes is the output path, and it writes it
    only when it returns that path. *)
Lemma downloadPDF_writes path data :
  In (EvWriteFile path data) (trace (Downloader.downloadPDF env url filename)) ->
  path = Downloader.outputPathOf (Downloader.platform env) filename
  /\ completion (Downloader.downloadPDF env url filename) = Normal (Some path).
Proof.
  assert (Hmk : ~ In (EvWriteFile path data) (mkdirEvents env)).
  { unfold mkdirEvents. destruct (Downloader.dirExists env); simpl;
      [tauto | intros [H|[]]; discriminate]. }
  destruct (downloadPDF_cases env url filename)
    as [(_ & _ & E) | [(_ & r & buf & _ & _ & _ & _ & _ & _ & E)
                      | (_ & err & E)]];
    rewrite E; cbn [completion trace fst snd]; intros H.
  - contradiction.
  - apply in_app_or in H as [H|H]; [contradiction|].
    destruct H as [H|[H|[]]]; [discriminate|].
    injection H as <- _. split; reflexivity.
  - apply in_app_or in H as [H|H]; [contradiction|].
    destruct H as [H|[H|[]]]; discriminate.
Qed.

End DownloadFacts.

Lemma joinWith_nonempty s seg segs : truthy seg = true -> Path.joinWith s (seg :: segs) <> [].
Proof.
  destruct seg as [|c seg]; [discriminate|]. intros _.
  destruct segs; simpl; discriminate.
Qed.

Lemma normalize_truthy p path : truthy (Path.normalize p path) = true.
Proof.
  unfold Path.normalize. destruct path as [|c0 tl]; [reflexivity|].
  cbv zeta.
  destruct (Path.joinWith _ _) as [|t ts].
  - destruct (Path.isPathSeparator p c0); [reflexivity|].
    destruct (Path.isPathSeparator p _); reflexivity.
  - destruct (Path.isPathSeparator p c0); reflexivity.
Qed.

Lemma join_truthy p paths : truthy (Path.join p paths) = true.
Proof.
  unfold Path.join. destruct (filter truthy paths); [reflexivity|].
  apply normalize_truthy.
Qed.

Lemma outputPathOf_truthy p filename : truthy (Downloader.outputPathOf p filename) = true.
Proof. apply join_truthy. Qed.

(** C10: a sanitized name has no path separator ([/] or [\]) and no
    ['.'], so the path [downloadPDF] writes to is the normalized output
    directory, one separator, the sanitized name and [.pdf], on POSIX and
    on Windows alike; whatever the title, no run of [downloadPDF] writes
    any other file. *)
Theorem sanitized_name_stays_in_output_dir (title : jsstring) :
  Forall (fun c => c <> 47%N /\ c <> 92%N /\ c <> 46%N)
    (Downloader.sanitizeFilename title)
  /\ Downloader.outputPathOf Path.posix title
     = js "output/pdfs/" ++ Downloader.sanitizeFilename title ++ js ".pdf"
  /\ Downloader.outputPathOf Path.win32 title
     = js "output\pdfs\" ++ Downloader.sanitizeFilename title ++ js ".pdf"
  /\ forall env url,
       Forall
         (writesOnly
            (Path.join (Downloader.platform env)
               [Config.OUTPUT_DIR; Downloader.sanitizeFilename title ++ js ".pdf"]))
         (trace (Downloader.downloadPDF env url title)).
Proof.
  split; [|split; [|split]].
  - eapply Forall_impl; [|apply sanitizeFilename_safe].
    intros c Hc. destruct (safeChar_plain c Hc) as (H1 & H2 & H3 & _). auto.
  - rewrite outputPathOf_normal by (left; reflexivity). reflexivity.
  - rewrite outputPathOf_normal by (right; reflexivity). reflexivity.
  - intros env url. apply Forall_forall. intros ev Hev.
    destruct ev; simpl; auto.
    apply downloadPDF_writes in Hev as [-> _]. reflexivity.
Qed.

(** C2 (the program departs from it): a response with status 200 and
    content type [application/pdf] whose body starts with the bytes
    A5 D0 C4 C6 AD is saved and its path returned, although its first five
    bytes are not [%PDF-]: decoding with ['ascii'] clears the highest bit
    of each byte before the comparison. *)
Theorem downloadPDF_accepts_masked_signature :
  statusIsSuccess {| Downloader.status := 200;
                     Downloader.contentTypeHeader := Some (js "application/pdf");
                     Downloader.body := Some Samples.maskedBody |}
  /\ ~ signatureIsPdf Samples.maskedBody
  /\ Downloader.downloadPDF (Samples.servingEnv Samples.maskedBody)
       (js "http://host/paper") (js "T")
     = (Normal (Some (js "output/pdfs/T.pdf")),
        [EvFetch (js "http://host/paper");
         EvWriteFile (js "output/pdfs/T.pdf") Samples.maskedBody]).
Proof.
  split; [|split].
  - unfold statusIsSuccess. simpl. lia.
  - unfold signatureIsPdf. intros H. discriminate H.
  - reflexivity.
Qed.

(** ** [findPDFOnPage] *)

(** [findPDFOnPage] never throws: it navigates, evaluates when the
    navigation succeeded, and returns a URL or [null]. *)
Lemma findPDFOnPage_cases tab u :
  exists v,
    Downloader.findPDFOnPage tab u = (Normal v, [EvGoto u])
    \/ Downloader.findPDFOnPage tab u = (Normal v, [EvGoto u; EvEvaluate]).
Proof.
  unfold Downloader.findPDFOnPage. cbv [bind try_catch emit ret throw].
  destruct (Downloader.gotoResult tab u) as [d|].
  - destruct (Downloader.evaluateOk tab); eexists; right; reflexivity.
  - eexists; left; reflexivity.
Qed.

(** ** The summary *)

Lemma filter_partition_length {A} (f : A -> bool) l :
  (length (filter f l) + length (filter (fun x => negb (f x)) l) = length l)%nat.
Proof.
  induction l as [|x l IH]; simpl; [reflexivity|].
  destruct (f x); simpl; lia.
Qed.

(** C9: the counts [printSummary] prints are functions of the outcome
    list alone; downloaded plus failed is the length of the list, and
    downloaded is at most the number found. *)
Theorem printSummary_counts (results : list Index.Result) :
  (Index.pdfsDownloaded (Index.printSummary results)
   + Index.failedSkipped (Index.printSummary results)
   = length results)%nat
  /\ (Index.pdfsDownloaded (Index.printSummary results)
      <= Index.papersFound (Index.printSummary results))%nat
  /\ Index.papersFound (Index.printSummary results) = length results.
Proof.
  unfold Index.printSummary. cbn [Index.pdfsDownloaded Index.failedSkipped Index.papersFound].
  pose proof (filter_partition_length Index.downloaded results).
  repeat split; lia.
Qed.

(** ** The per-record closure *)

Ltac task_simpl :=
  cbn [bind try_finally try_catch emit ret throw truthy_opt or_empty negb
       Index.downloaded Index.savedPath Index.method Index.title
       Index.markDownloaded completion trace fst snd] in *.

Ltac task_step :=
  match goal with
  | |- context [truthy_opt ?x] => destruct (truthy_opt x) eqn:?
  | |- context [truthy ?x] => destruct (truthy x) eqn:?
  | |- context [Downloader.downloadPDF ?e ?u ?f] =>
      destruct (Downloader.downloadPDF e u f) as [[[?|]|?] ?] eqn:?
  | |- context [Downloader.findPDFOnPage ?e ?u] =>
      destruct (Downloader.findPDFOnPage e u) as [[[?|]|?] ?] eqn:?
  | |- context [Index.newPageOk ?e] => destruct (Index.newPageOk e) eqn:?
  | |- context [Index.closeOk ?e] => destruct (Index.closeOk e) eqn:?
  end;
  task_simpl.

(** Runs the closure symbolically: one goal for each path through it. *)
Ltac run_task :=
  unfold Index.downloadTask, Index.newPage, Index.closePage;
  task_simpl;
  repeat task_step.

(** C6: in every outcome the closure returns, [downloaded] is true
    exactly when [savedPath] is present and [method] is not [null]. *)
Theorem outcome_invariant (env : Index.UnitEnv) (i : nat) (paper : Scholar.Paper)
  (r : Index.Result) :
  completion (Index.downloadTask env i paper) = Normal r ->
  (Index.downloaded r = true
   <-> Index.savedPath r <> None /\ Index.method r <> None).
Proof.
  run_task; intros H; try discriminate H;
    injection H as <-; cbn; split;
    try (intros [? ?]; congruence); try discriminate;
    intros _; split; discriminate.
Qed.

(** C6 on the outcome of a direct download that succeeds. *)
Lemma outcome_invariant_witness :
  Index.downloaded
    (downloadedBy Samples.directPaper (js "output/pdfs/T.pdf") Index.DIRECT_LINK)
  = true
  <-> Index.savedPath
        (downloadedBy Samples.directPaper (js "output/pdfs/T.pdf") Index.DIRECT_LINK)
      <> None
      /\ Index.method
           (downloadedBy Samples.directPaper (js "output/pdfs/T.pdf")
              Index.DIRECT_LINK)
         <> None.
Proof.
  exact (outcome_invariant Samples.goodUnit 0 Samples.directPaper
           (downloadedBy Samples.directPaper (js "output/pdfs/T.pdf")
              Index.DIRECT_LINK)
           eq_refl).
Defined.

Section TaskFacts.

Lemma downloadPDF_saved_truthy env url f p t :
  Downloader.downloadPDF env url f = (Normal (Some p), t) -> truthy p = true.
Proof.
  intros E.
  destruct (downloadPDF_saved env url f p) as [-> _];
    [rewrite E; reflexivity | apply outputPathOf_truthy].
Qed.

Lemma findPDFOnPage_no_throw tab u e t :
  Downloader.findPDFOnPage tab u = (Throw e, t) -> False.
Proof.
  intros E. destruct (findPDFOnPage_cases tab u) as [v [E'|E']];
    rewrite E' in E; discriminate.
Qed.

Lemma findPDFOnPage_trace tab u :
  exists rest,
    trace (Downloader.findPDFOnPage tab u) = EvGoto u :: rest
    /\ Forall (fun ev => writeEvent ev = false) rest.
Proof.
  destruct (findPDFOnPage_cases tab u) as [v [E|E]]; rewrite E;
    eexists; (split; [reflexivity | repeat constructor]).
Qed.

Lemma mkdirEvents_plain env :
  Forall (fun ev => pageEvent ev = false /\ writeEvent ev = false) (mkdirEvents env).
Proof.
  unfold mkdirEvents. destruct (Downloader.dirExists env); repeat constructor.
Qed.

(** [downloadPDF] does nothing on the browser. *)
Lemma downloadPDF_no_page_event env url f :
  Forall (fun ev => pageEvent ev = false) (trace (Downloader.downloadPDF env url f)).
Proof.
  assert (Hmk : Forall (fun ev => pageEvent ev = false) (mkdirEvents env))
    by (eapply Forall_impl; [|apply mkdirEvents_plain]; intros ev [H _]; exact H).
  destruct (downloadPDF_cases env url f)
    as [(_ & _ & E) | [(_ & r & buf & _ & _ & _ & _ & _ & _ & E)
                      | (_ & err & E)]];
    rewrite E; cbn [trace snd]; try exact Hmk;
    apply Forall_app; (split; [exact Hmk | repeat constructor]).
Qed.

(** A call that returns [null] or throws has written no file. *)
Lemma downloadPDF_unsaved_no_write env url f :
  completion (Downloader.downloadPDF env url f) <> Normal (Some (Downloader.outputPathOf (Downloader.platform env) f)) ->
  Forall (fun ev => writeEvent ev = false) (trace (Downloader.downloadPDF env url f)).
Proof.
  intros Hc. apply Forall_forall. intros ev Hev.
  destruct ev; try reflexivity.
  apply downloadPDF_writes in Hev as [-> Hev]. contradiction.
Qed.

End TaskFacts.

(** Brings a trace to the form [e1 :: ... :: l1 ++ e2 :: ... ++ []]. *)
Ltac flatten_trace :=
  repeat first [rewrite app_nil_r | rewrite <- app_assoc | progress cbn [app]].

(** Finds an event in a trace that shows it. *)
Ltac in_trace :=
  repeat first [rewrite in_app_iff | progress cbn [In]]; intuition auto.

Section Resolution.

Variable env : Index.UnitEnv.
Variable i : nat.
Variable paper : Scholar.Paper.

Let task := Index.downloadTask env i paper.
Let direct := Downloader.downloadPDF (Index.directEnv env)
                (or_empty (Scholar.directPdfUrl paper)) (Scholar.title paper).
Let scan := Downloader.findPDFOnPage (Index.tabEnv env)
              (or_empty (Scholar.paperUrl paper)).

Lemma strategyA_first :
  truthy_opt (Scholar.directPdfUrl paper) = true ->
  exists before rest,
    trace task = before ++ trace direct ++ rest
    /\ Forall (fun ev => logEvent ev = true) before.
Proof.
  intros Hd. subst task direct. revert Hd. run_task; intros Hd; try discriminate Hd.
  all: flatten_trace.
  all: match goal with
       | |- exists b r, ?x :: ?y :: ?l ++ ?t = _ /\ _ =>
           exists [x; y], t; split; [reflexivity | repeat constructor]
       | |- exists b r, ?x :: ?y :: ?l = _ /\ _ =>
           exists [x; y], []; split; [rewrite app_nil_r; reflexivity | repeat constructor]
       end.
Qed.


(** Uses the facts collected on a path to close its goal. *)
Ltac path_facts :=
  intros;
  repeat match goal with
         | H : _ /\ _ |- _ => destruct H
         | H : _ \/ _ |- _ => destruct H
         | H : exists _, _ |- _ => destruct H
         | H : Normal _ = Normal _ |- _ => injection H as H
         | H : Some _ = Some _ |- _ => injection H as H
         | H : Downloader.findPDFOnPage _ _ = (Throw _, _) |- _ =>
             exfalso; exact (findPDFOnPage_no_throw _ _ _ _ H)
         | H : Downloader.downloadPDF _ _ _ = (Normal (Some ?p), _),
           H' : truthy ?p = false |- _ =>
             rewrite (downloadPDF_saved_truthy _ _ _ _ _ H) in H'; discriminate H'
         end;
  subst; unfold downloadedBy, notDownloaded, Index.markDownloaded in *;
  task_simpl;
  repeat match goal with
         | E : Downloader.downloadPDF ?e ?u ?f = _,
           H : context [Downloader.downloadPDF ?e ?u ?f] |- _ =>
             lazymatch type of H with
             | Downloader.downloadPDF _ _ _ = _ => fail
             | _ => rewrite E in H; task_simpl
             end
         end;
  try discriminate; try congruence.

Lemma strategyA_success p :
  truthy_opt (Scholar.directPdfUrl paper) = true ->
  completion direct = Normal (Some p) ->
  completion task = Normal (downloadedBy paper p Index.DIRECT_LINK)
  /\ Forall (fun ev => pageEvent ev = false) (trace task).
Proof.
  subst task direct.
  pose proof (downloadPDF_no_page_event (Index.directEnv env)
                (or_empty (Scholar.directPdfUrl paper)) (Scholar.title paper)) as Hnp.
  revert Hnp. run_task; path_facts.
  all: split; [reflexivity|]; flatten_trace.
  all: repeat constructor; apply Forall_app; split; [assumption | repeat constructor].
Qed.

Lemma strategyB_attempted :
  truthy_opt (Scholar.directPdfUrl paper) = false
  \/ completion direct = Normal None ->
  truthy_opt (Scholar.paperUrl paper) = true ->
  In EvNewPage (trace task)
  /\ (Index.newPageOk env = true ->
      In (EvGoto (or_empty (Scholar.paperUrl paper))) (trace task)).
Proof.
  subst task direct.
  destruct (findPDFOnPage_trace (Index.tabEnv env) (or_empty (Scholar.paperUrl paper)))
    as (rest & Hscan & _).
  revert Hscan. run_task; path_facts.
  all: flatten_trace; split; [|intros Hopen; try discriminate Hopen]; in_trace.
Qed.

Lemma strategyB_success v p :
  truthy_opt (Scholar.directPdfUrl paper) = false
  \/ completion direct = Normal None ->
  truthy_opt (Scholar.paperUrl paper) = true ->
  Index.newPageOk env = true ->
  completion scan = Normal v ->
  truthy_opt v = true ->
  completion (Downloader.downloadPDF (Index.scanEnv env) (or_empty v)
                (Scholar.title paper)) = Normal (Some p) ->
  Index.closeOk env = true ->
  completion task = Normal (downloadedBy paper p Index.PAPER_PAGE).
Proof.
  subst task direct scan. run_task; path_facts.
Qed.


End Resolution.

(** ** Failures inside a unit *)

Section LocalFailures.



(** Whether a call wrote a file, by its completion. *)
Lemma downloadPDF_write_trace env url f :
  match completion (Downloader.downloadPDF env url f) with
  | Normal (Some _) =>
      existsb writeEvent (trace (Downloader.downloadPDF env url f)) = true
  | Normal None =>
      existsb writeEvent (trace (Downloader.downloadPDF env url f)) = false
  | Throw _ =>
      existsb writeEvent (trace (Downloader.downloadPDF env url f)) = false
      /\ ~ dirReady env
  end.
Proof.
  assert (Hmk : existsb writeEvent (mkdirEvents env) = false)
    by (unfold mkdirEvents; destruct (Downloader.dirExists env); reflexivity).
  destruct (downloadPDF_cases env url f)
    as [(Hd & Hm & E) | [(_ & r & buf & _ & _ & _ & _ & _ & _ & E)
                        | (_ & err & E)]];
    rewrite E; cbn [completion trace fst snd];
    rewrite ?existsb_app, ?Hmk; try reflexivity.
  split; [reflexivity|]. intros [H|H]; congruence.
Qed.

Lemma findPDFOnPage_write_trace tab u :
  existsb writeEvent (trace (Downloader.findPDFOnPage tab u)) = false.
Proof.
  destruct (findPDFOnPage_cases tab u) as [v [E|E]]; rewrite E; reflexivity.
Qed.

(** Adds, for every call met on the path, what its trace contains. *)
Ltac call_facts :=
  repeat match goal with
         | E : Downloader.downloadPDF ?e ?u ?f = (?c, ?t) |- _ =>
             lazymatch goal with
             | _ : existsb writeEvent t = _ |- _ => fail
             | _ : existsb writeEvent t = _ /\ _ |- _ => fail
             | _ =>
                 let X := fresh "W" in
                 pose proof (downloadPDF_write_trace e u f) as X;
                 rewrite E in X; cbn [completion trace fst snd] in X
             end
         | E : Downloader.findPDFOnPage ?e ?u = (?c, ?t) |- _ =>
             lazymatch goal with
             | _ : existsb writeEvent t = _ |- _ => fail
             | _ =>
                 let X := fresh "W" in
                 pose proof (findPDFOnPage_write_trace e u) as X;
                 rewrite E in X; cbn [completion trace fst snd] in X
             end
         end.



(** Uses what a path wrote to settle whether the unit saved a document. *)
Ltac saved_or_not H :=
  repeat first
    [ rewrite existsb_app in H
    | progress cbn [existsb writeEvent orb app] in H
    | match goal with
      | W : existsb writeEvent _ = _ |- _ => rewrite W in H
      end ];
  rewrite ?orb_true_r, ?orb_false_r in H.

(** A unit that saves no document, whose output directory is available
    and whose browsing context, if it asks for one, opens and closes,
    returns the negative outcome of its record. *)
Lemma nothing_saved_outcome env i paper :
  yieldsDocument env i paper = false ->
  dirReady (Index.directEnv env) ->
  dirReady (Index.scanEnv env) ->
  (In EvNewPage (trace (Index.downloadTask env i paper)) ->
   Index.newPageOk env = true /\ Index.closeOk env = true) ->
  completion (Index.downloadTask env i paper) = Normal (notDownloaded paper).
Proof.
  unfold yieldsDocument.
  run_task; intros Hw Hd Hs Hctx; call_facts;
    repeat match goal with
           | H : _ /\ ~ dirReady _ |- _ => destruct H as [_ H]; contradiction
           | H : Downloader.findPDFOnPage _ _ = (Throw _, _) |- _ =>
               exfalso; exact (findPDFOnPage_no_throw _ _ _ _ H)
           | H : Downloader.downloadPDF _ _ _ = (Normal (Some ?p), _),
             H' : truthy ?p = false |- _ =>
               rewrite (downloadPDF_saved_truthy _ _ _ _ _ H) in H'; discriminate H'
           end;
    try reflexivity;
    try (saved_or_not Hw; discriminate Hw);
    try (exfalso; destruct Hctx as [Ho Hc]; [in_trace | discriminate]).
Qed.

End LocalFailures.

(** C1, as stated, fails in several ways.  (1) The tab cannot be closed:
    the record has no direct link, its paper page is scanned, a PDF is
    found there and fetched, and the closure ends with the exception of
    [pdfTab.close()], without outcome.  (2) Nothing is found on the page
    and the tab cannot be closed: no document, and no outcome either.
    (3) The output directory cannot be created when the link found on
    the page is downloaded: no document is saved, the tab opens and
    closes, and the closure throws.  (4) [browser.newPage()] rejects: the
    record has a paper page and no direct link, and the page is never
    visited.  (5) The directory cannot be created when the direct link is
    downloaded: that download fails by throwing, and the paper page is
    never scanned.  (6) The direct link is present but empty (the href of
    a [[PDF]] anchor without [href] attribute): no request is made for
    it.  (7) The paper page is present but empty (a title anchor without
    [href]): no tab is opened. *)
Lemma resolution_without_outcome :
  (Scholar.directPdfUrl Samples.scanPaper = None
   /\ completion (Downloader.findPDFOnPage (Index.tabEnv Samples.closeFailsUnit)
                    (js "http://host/paper"))
      = Normal (Some (js "http://host/files/p.pdf"))
   /\ completion (Downloader.downloadPDF (Index.scanEnv Samples.closeFailsUnit)
                    (js "http://host/files/p.pdf") (js "T"))
      = Normal (Some (js "output/pdfs/T.pdf"))
   /\ completion (Index.downloadTask Samples.closeFailsUnit 0 Samples.scanPaper)
      = Throw (Library CloseFailed))
  /\ (yieldsDocument Samples.lostTabUnit 0 Samples.scanPaper = false
      /\ completion (Index.downloadTask Samples.lostTabUnit 0 Samples.scanPaper)
         = Throw (Library CloseFailed))
  /\ (yieldsDocument Samples.noDirUnit 0 Samples.scanPaper = false
      /\ Index.newPageOk Samples.noDirUnit = true
      /\ Index.closeOk Samples.noDirUnit = true
      /\ completion (Index.downloadTask Samples.noDirUnit 0 Samples.scanPaper)
         = Throw (Library MkdirFailed))
  /\ (Scholar.directPdfUrl Samples.scanPaper = None
      /\ Scholar.paperUrl Samples.scanPaper = Some (js "http://host/paper")
      /\ completion (Index.downloadTask Samples.noTabUnit 0 Samples.scanPaper)
         = Throw (Library NewPageFailed)
      /\ count MoreWords.isGoto
           (trace (Index.downloadTask Samples.noTabUnit 0 Samples.scanPaper))
         = 0%nat)
  /\ (completion (Downloader.downloadPDF (Index.directEnv Samples.noDirectDirUnit)
                    (js "http://host/p.pdf") (js "T"))
      = Throw (Library MkdirFailed)
      /\ Scholar.paperUrl Samples.directPaper = Some (js "http://host/paper")
      /\ completion
           (Index.downloadTask Samples.noDirectDirUnit 0 Samples.directPaper)
         = Throw (Library MkdirFailed)
      /\ count isOpen
           (trace (Index.downloadTask Samples.noDirectDirUnit 0 Samples.directPaper))
         = 0%nat)
  /\ (Scholar.extractItem Samples.deadBadgeBlock = Samples.deadBadgePaper
      /\ Scholar.directPdfUrl Samples.deadBadgePaper = Some []
      /\ count MoreWords.isFetch
           (trace (Index.downloadTask Samples.paywalledUnit 0 Samples.deadBadgePaper))
         = 0%nat)
  /\ (Scholar.extractItem Samples.deadTitleBlock = Samples.deadTitlePaper
      /\ Scholar.paperUrl Samples.deadTitlePaper = Some []
      /\ count isOpen
           (trace (Index.downloadTask Samples.goodUnit 0 Samples.deadTitlePaper))
         = 0%nat).
Proof. repeat split. Qed.

(** C1 (amended): the closure follows strict precedence with
    short-circuit on first success.  (a) If [directPdfUrl] is present
    and not empty, [downloadPDF] is attempted on it first (only log lines
    precede it in the trace of the closure), and when it returns a path
    the outcome is that path with the method 'Direct [PDF] link', the
    page-scan strategy never being attempted.  (b) If the direct link is
    absent or empty, or its download fails by returning [null], and
    [paperUrl] is present and not empty, a browsing context is requested
    and, if it opens, the paper page is scanned; a PDF found there and
    fetched yields the method 'Found on paper page' if the context then
    closes without error.  (c) If the closure saves no document, the
    output directory exists or can be created, and the browsing context,
    if one is requested, opens and closes without error, the outcome is
    [downloaded = false] with no path and no method. *)
Theorem resolution_precedence (env : Index.UnitEnv) (i : nat)
  (paper : Scholar.Paper) :
  let task := Index.downloadTask env i paper in
  let direct := Downloader.downloadPDF (Index.directEnv env)
                  (or_empty (Scholar.directPdfUrl paper)) (Scholar.title paper) in
  let scan := Downloader.findPDFOnPage (Index.tabEnv env)
                (or_empty (Scholar.paperUrl paper)) in
  let fallsBack := truthy_opt (Scholar.directPdfUrl paper) = false
                   \/ completion direct = Normal None in
  (truthy_opt (Scholar.directPdfUrl paper) = true ->
   (exists before rest,
       trace task = before ++ trace direct ++ rest
       /\ Forall (fun ev => logEvent ev = true) before)
   /\ forall p,
       completion direct = Normal (Some p) ->
       completion task = Normal (downloadedBy paper p Index.DIRECT_LINK)
       /\ Forall (fun ev => pageEvent ev = false) (trace task))
  /\ (fallsBack ->
      truthy_opt (Scholar.paperUrl paper) = true ->
      In EvNewPage (trace task)
      /\ (Index.newPageOk env = true ->
          In (EvGoto (or_empty (Scholar.paperUrl paper))) (trace task)
          /\ forall v p,
              completion scan = Normal v ->
              truthy_opt v = true ->
              completion (Downloader.downloadPDF (Index.scanEnv env) (or_empty v)
                            (Scholar.title paper)) = Normal (Some p) ->
              Index.closeOk env = true ->
              completion task = Normal (downloadedBy paper p Index.PAPER_PAGE)))
  /\ (yieldsDocument env i paper = false ->
      dirReady (Index.directEnv env) ->
      dirReady (Index.scanEnv env) ->
      (In EvNewPage (trace task) ->
       Index.newPageOk env = true /\ Index.closeOk env = true) ->
      completion task = Normal (notDownloaded paper)).
Proof.
  intros task direct scan fallsBack. split; [|split].
  - intros Hd. split; [apply strategyA_first; exact Hd|].
    intros p Hp. apply strategyA_success; assumption.
  - intros Hf Hu.
    destruct (strategyB_attempted env i paper Hf Hu) as [Hnew Hgoto].
    split; [exact Hnew|]. intros Hopen. split; [apply Hgoto; exact Hopen|].
    intros v p Hv Htv Hdl Hclose.
    apply (strategyB_success env i paper v p); assumption.
  - apply nothing_saved_outcome.
Qed.

(** The three clauses of C1 on concrete runs: a direct link that serves a
    PDF; a record without direct link whose paper page links to a PDF; a
    direct link that serves HTML and a paper page without any link. *)
Lemma resolution_precedence_witness :
  completion (Index.downloadTask Samples.goodUnit 0 Samples.directPaper)
    = Normal (downloadedBy Samples.directPaper (js "output/pdfs/T.pdf")
                Index.DIRECT_LINK)
  /\ completion (Index.downloadTask Samples.goodUnit 0 Samples.scanPaper)
     = Normal (downloadedBy Samples.scanPaper (js "output/pdfs/T.pdf")
                 Index.PAPER_PAGE)
  /\ completion (Index.downloadTask Samples.paywalledUnit 0 Samples.directPaper)
     = Normal (notDownloaded Samples.directPaper).
Proof.
  split; [|split].
  - destruct (resolution_precedence Samples.goodUnit 0 Samples.directPaper)
      as (HA & _ & _).
    destruct (HA eq_refl) as [_ HA'].
    exact (proj1 (HA' (js "output/pdfs/T.pdf") eq_refl)).
  - destruct (resolution_precedence Samples.goodUnit 0 Samples.scanPaper)
      as (_ & HB & _).
    destruct (HB (or_introl eq_refl) eq_refl) as [_ HB'].
    destruct (HB' eq_refl) as [_ HB''].
    exact (HB'' (Some (js "http://host/files/p.pdf")) (js "output/pdfs/T.pdf")
             eq_refl eq_refl eq_refl eq_refl).
  - destruct (resolution_precedence Samples.paywalledUnit 0 Samples.directPaper)
      as (_ & _ & HC).
    apply HC.
    + reflexivity.
    + left. reflexivity.
    + left. reflexivity.
    + intros _. split; reflexivity.
Defined.

(** ** The batch *)

Section Batch.

Variable envs : nat -> Index.UnitEnv.

Lemma processPapers_settles maxResults papers :
  papers <> [] ->
  Index.processPapers envs maxResults papers
  = (Normal (Index.fulfilledValues
               (map Index.settle
                  (Index.downloadPromises envs (Index.slice0 papers maxResults)))),
     concat (map (@trace Index.Result)
               (Index.downloadPromises envs (Index.slice0 papers maxResults)))).
Proof.
  intros Hne. unfold Index.processPapers.
  destruct papers as [|p ps]; [contradiction|].
  cbn [length Nat.eqb]. unfold Index.allSettled. cbv [bind ret].
  rewrite app_nil_r. reflexivity.
Qed.

Lemma fulfilledValues_length {A} (rs : list (Index.Settled A)) :
  (length (Index.fulfilledValues rs) <= length rs)%nat.
Proof.
  induction rs as [|[v|e] rs IH]; simpl; lia.
Qed.

Lemma mapi_length {A B} (f : nat -> A -> B) k l :
  length (Index.mapi f k l) = length l.
Proof.
  revert k. induction l as [|x l IH]; intros k; simpl; [reflexivity|].
  now rewrite IH.
Qed.

Lemma outcomes_at_most_targets targets :
  (length (Index.fulfilledValues
             (map Index.settle (Index.downloadPromises envs targets)))
   <= length targets)%nat.
Proof.
  etransitivity; [apply fulfilledValues_length|].
  unfold Index.downloadPromises. rewrite length_map, mapi_length. lia.
Qed.




End Batch.




(** ** The tab of the page-scan strategy *)

Section Tab.

Lemma downloadPDF_tab_counts env url f :
  count isOpen (trace (Downloader.downloadPDF env url f)) = 0%nat
  /\ count isClose (trace (Downloader.downloadPDF env url f)) = 0%nat.
Proof.
  pose proof (downloadPDF_no_page_event env url f) as H.
  unfold count.
  induction H as [|ev t Hev _ [IHo IHc]]; [split; reflexivity|].
  destruct ev; try discriminate Hev; simpl; auto.
Qed.

Lemma findPDFOnPage_tab_counts tab u :
  count isOpen (trace (Downloader.findPDFOnPage tab u)) = 0%nat
  /\ count isClose (trace (Downloader.findPDFOnPage tab u)) = 0%nat.
Proof.
  destruct (findPDFOnPage_cases tab u) as [v [E|E]]; rewrite E; split; reflexivity.
Qed.

Lemma count_app f a b : count f (a ++ b) = (count f a + count f b)%nat.
Proof. unfold count. rewrite filter_app, length_app. reflexivity. Qed.

Lemma count_cons f ev t :
  count f (ev :: t) = ((if f ev then 1 else 0) + count f t)%nat.
Proof. unfold count. simpl. destruct (f ev); reflexivity. Qed.

(** Adds, for every call met on the path, that it neither opens nor
    closes a tab. *)
Ltac tab_facts :=
  repeat match goal with
         | E : Downloader.downloadPDF ?e ?u ?f = (?c, ?t) |- _ =>
             lazymatch goal with
             | _ : count isOpen t = _ |- _ => fail
             | _ =>
                 let X := fresh "T" in
                 let Y := fresh "T" in
                 destruct (downloadPDF_tab_counts e u f) as [X Y];
                 rewrite E in X, Y; cbn [trace snd] in X, Y
             end
         | E : Downloader.findPDFOnPage ?e ?u = (?c, ?t) |- _ =>
             lazymatch goal with
             | _ : count isOpen t = _ |- _ => fail
             | _ =>
                 let X := fresh "T" in
                 let Y := fresh "T" in
                 destruct (findPDFOnPage_tab_counts e u) as [X Y];
                 rewrite E in X, Y; cbn [trace snd] in X, Y
             end
         end.

(** Counts the openings and closings of a flattened trace. *)
Ltac count_trace :=
  flatten_trace;
  repeat first
    [ rewrite count_app
    | rewrite count_cons
    | match goal with
      | H : count _ _ = _ |- _ => rewrite H
      end ];
  cbn [isOpen isClose count filter length Nat.add].

Lemma tab_counts env i paper :
  (count isOpen (trace (Index.downloadTask env i paper)) <= 1)%nat
  /\ count isClose (trace (Index.downloadTask env i paper))
     = if Index.newPageOk env
       then count isOpen (trace (Index.downloadTask env i paper))
       else 0%nat.
Proof.
  run_task; tab_facts; count_trace; split; auto.
Qed.

Lemma close_failure env i paper :
  Index.closeOk env = false ->
  count isClose (trace (Index.downloadTask env i paper)) = 1%nat ->
  completion (Index.downloadTask env i paper) = Throw (Library CloseFailed)
  /\ lastEvent (trace (Index.downloadTask env i paper)) = Some EvClosePage.
Proof.
  run_task; tab_facts; intros Hc; try discriminate Hc; count_trace;
    intros Hn; try discriminate Hn.
  all: split; [reflexivity|].
  all: unfold lastEvent;
    repeat first [rewrite rev_app_distr | progress cbn [rev app hd_error]];
    reflexivity.
Qed.

End Tab.

(** C8, as stated, fails on its second half: when [pdfTab.close()]
    rejects, the closure ends with that exception although the PDF was
    saved and reported, and its last effect is the close itself: nothing
    is logged about it. *)
Lemma close_failure_propagates :
  Index.downloadTask Samples.closeFailsUnit 0 Samples.scanPaper
  = (Throw (Library CloseFailed),
     [EvLog (LogPaper 1 (js "T") (js "A Author - 2020"));
      EvLog (LogStrategyB 1);
      EvNewPage;
      EvGoto (js "http://host/paper");
      EvEvaluate;
      EvFetch (js "http://host/files/p.pdf");
      EvWriteFile (js "output/pdfs/T.pdf") Samples.pdfBody;
      EvLog (LogDownloaded 1 (js "output/pdfs/T.pdf"));
      EvClosePage]).
Proof. reflexivity. Qed.

(** C8 (amended): the tab opened for the page-scan strategy is closed on
    every path of the closure: at most one tab is requested, and
    [pdfTab.close()] is called once exactly when the request succeeded,
    also when the scan or the download ends with an exception.  A failure
    of the close itself is neither caught nor logged: the closure ends
    with that exception, its last effect being the close, so the unit is
    rejected; the batch is not aborted. *)
Theorem tab_closed_on_every_path (envs : nat -> Index.UnitEnv)
  (maxResults : Index.JsInt) (papers : list Scholar.Paper) (i : nat)
  (paper : Scholar.Paper) :
  let task := Index.downloadTask (envs i) i paper in
  (count isOpen (trace task) <= 1)%nat
  /\ count isClose (trace task)
     = (if Index.newPageOk (envs i) then count isOpen (trace task) else 0%nat)
  /\ (Index.closeOk (envs i) = false ->
      count isClose (trace task) = 1%nat ->
      completion task = Throw (Library CloseFailed)
      /\ lastEvent (trace task) = Some EvClosePage)
  /\ (papers <> [] ->
      exists outcomes,
        completion (Index.processPapers envs maxResults papers) = Normal outcomes).
Proof.
  intros task. split; [apply tab_counts|]. split; [apply tab_counts|].
  split; [apply close_failure|].
  intros Hne. rewrite (processPapers_settles envs maxResults papers Hne).
  eexists. reflexivity.
Qed.

(** C8 on concrete runs: the download of the page-scan strategy throws
    (the output directory cannot be created) and the tab is closed all the
    same; the close fails and its exception ends the unit, not the
    batch. *)
Lemma tab_closed_on_every_path_witness :
  completion (Index.downloadTask Samples.noDirUnit 0 Samples.scanPaper)
    = Throw (Library MkdirFailed)
  /\ count isClose (trace (Index.downloadTask Samples.noDirUnit 0 Samples.scanPaper))
     = 1%nat
  /\ completion (Index.downloadTask Samples.closeFailsUnit 0 Samples.scanPaper)
     = Throw (Library CloseFailed)
  /\ exists outcomes,
       completion (Index.processPapers (fun _ => Samples.closeFailsUnit)
                     (Index.Int 5) [Samples.scanPaper])
       = Normal outcomes.
Proof.
  split; [reflexivity|]. split.
  - exact (proj1 (proj2 (tab_closed_on_every_path (fun _ => Samples.noDirUnit)
                           (Index.Int 5) [Samples.scanPaper] 0 Samples.scanPaper))).
  - destruct (tab_closed_on_every_path (fun _ => Samples.closeFailsUnit)
                (Index.Int 5) [Samples.scanPaper] 0 Samples.scanPaper)
      as (_ & _ & Hclose & Hbatch).
    split; [exact (proj1 (Hclose eq_refl eq_refl))|].
    apply Hbatch. discriminate.
Defined.

(** ** [extractResults] *)

Section Extraction.

Lemma filter_hit {A} (f : A -> bool) (l : list A) (x : A) :
  In x l -> f x = true -> Scholar.isSome (hd_error (filter f l)) = true.
Proof.
  induction l as [|y l IH]; intros Hin Hx; [contradiction|].
  simpl. destruct (f y) eqn:Hy; [reflexivity|].
  destruct Hin as [-> | Hin]; [congruence | auto].
Qed.

Lemma filter_Subseq {A} (f : A -> bool) (l : list A) : Subseq (filter f l) l.
Proof.
  induction l as [|x l IH]; simpl; [constructor|].
  destruct (f x); constructor; exact IH.
Qed.

Lemma captchaForm_found d :
  hasCaptchaForm d -> Scholar.isSome (Dom.docQuerySelector Scholar.captchaForm d) = true.
Proof.
  intros (e & Hin & Htag & Hid).
  unfold Dom.docQuerySelector, Dom.docQuerySelectorAll.
  apply (filter_hit _ _ e Hin).
  unfold Dom.matches, Scholar.captchaForm, Dom.simple, Dom.matchesCompound.
  cbn [Dom.subject Dom.context Dom.selTag Dom.selId Dom.selClasses Dom.selAttrs
       forallb Dom.matchesContext].
  rewrite Htag, Hid, !eqb_refl. reflexivity.
Qed.

Lemma recaptcha_found d :
  hasRecaptcha d -> Scholar.isSome (Dom.docQuerySelector Scholar.recaptcha d) = true.
Proof.
  intros (e & Hin & Hid).
  unfold Dom.docQuerySelector, Dom.docQuerySelectorAll.
  apply (filter_hit _ _ e Hin).
  unfold Dom.matches, Scholar.recaptcha, Dom.simple, Dom.byId, Dom.matchesCompound.
  cbn [Dom.subject Dom.context Dom.selTag Dom.selId Dom.selClasses Dom.selAttrs
       forallb Dom.matchesContext].
  rewrite Hid, eqb_refl. reflexivity.
Qed.

Lemma toLowerCase_variant w lit :
  Forall (fun c => isLower c = true) lit ->
  caseVariant w lit -> toLowerCase w = lit.
Proof.
  intros Hlit Hv. induction Hv as [|c l w lit Hcl _ IH]; [reflexivity|].
  inversion Hlit as [|? ? Hl Hlit']; subst.
  unfold toLowerCase in *. cbn [flat_map]. rewrite (IH Hlit').
  destruct Hcl as [-> | [<- Hup]].
  - rewrite lower1_lower; [reflexivity | |].
    + unfold isLower, isUpper, in_range in *.
      apply andb_prop in Hl as [H1 H2]. apply N.leb_le in H1, H2.
      apply andb_false_iff. right. apply N.leb_gt. lia.
    + unfold isLower, in_range in Hl.
      apply andb_prop in Hl as [H1 H2]. apply N.leb_le in H1, H2.
      apply N.ltb_lt. lia.
  - unfold lower1. rewrite Hup. reflexivity.
Qed.

Lemma includes_ignoring_case s lit :
  Forall (fun c => isLower c = true) lit ->
  containsIgnoringCase s lit -> includes (toLowerCase s) lit = true.
Proof.
  intros Hlit (pre & w & post & -> & Hv).
  rewrite !toLowerCase_app, (toLowerCase_variant w lit Hlit Hv).
  apply includes_app.
Qed.

Lemma isCaptcha_detects d :
  containsIgnoringCase (Dom.title d) (js "captcha")
  \/ hasCaptchaForm d \/ hasRecaptcha d ->
  Scholar.isCaptcha d = true.
Proof.
  unfold Scholar.isCaptcha. intros [H | [H | H]].
  - rewrite (includes_ignoring_case (Dom.title d) (js "captcha"));
      [reflexivity | repeat constructor | exact H].
  - rewrite (captchaForm_found d H). apply orb_true_iff. left. apply orb_true_r.
  - rewrite (recaptcha_found d H). apply orb_true_r.
Qed.

Lemma extractResults_cases page :
  let d := Scholar.document page in
  Scholar.extractResults page =
    if Scholar.isCaptcha d then (Throw CaptchaDetected, [EvEvaluate])
    else if Scholar.isSome (Dom.docQuerySelector Scholar.resultsContainer d)
         then if Scholar.extractionOk page
              then (Normal (Scholar.extractPapers d),
                    [EvEvaluate; EvWaitForSelector; EvEvaluate])
              else (Throw (Library EvaluationFailed),
                    [EvEvaluate; EvWaitForSelector; EvEvaluate])
         else (Throw (Library WaitTimeout), [EvEvaluate; EvWaitForSelector]).
Proof.
  unfold Scholar.extractResults, Scholar.evaluate, Scholar.waitForSelector,
    Scholar.evaluateExtraction.
  cbv [bind emit ret throw]. cbn [app].
  destruct (Scholar.isCaptcha (Scholar.document page)); [reflexivity|].
  destruct (Scholar.isSome _); [|reflexivity].
  destruct (Scholar.extractionOk page); reflexivity.
Qed.

Lemma insertByTop_first top x l :
  Forall (fun y => (top x <= top y)%Z) l -> insertByTop top x l = x :: l.
Proof.
  intros H. destruct H as [|y l Hy _]; [reflexivity|].
  cbn [insertByTop]. apply Z.leb_le in Hy. now rewrite Hy.
Qed.

(** A list drawn in its own order reads from top to bottom as it is. *)
Lemma topToBottom_drawnInOrder top l :
  drawnInOrder top l -> topToBottom top l = l.
Proof.
  induction l as [|x l IH]; [reflexivity|]. intros [Hx Hl].
  unfold topToBottom in *. cbn [fold_right]. rewrite (IH Hl).
  apply insertByTop_first. exact Hx.
Qed.

Lemma slice0_nonneg {A} (l : list A) (k : Z) :
  (0 <= k)%Z -> Index.slice0 l (Index.Int k) = firstn (Z.to_nat k) l.
Proof.
  intros Hk. unfold Index.slice0.
  destruct (Z.ltb_spec k 0); [lia|].
  destruct (Z.le_gt_cases k (Z.of_nat (length l))) as [Hle | Hgt].
  - rewrite Z.min_l, Z.max_l by lia. reflexivity.
  - rewrite Z.min_r, Z.max_l by lia. rewrite Nat2Z.id.
    rewrite firstn_all. symmetry. apply firstn_all2. lia.
Qed.

End Extraction.

(** C3: a rendered document whose title contains "captcha" in any mix of
    cases, or that contains a [form#captcha-form] element or an element
    with id [recaptcha], makes [extractResults] throw the CAPTCHA error
    after the first evaluation alone: it waits for no result and extracts
    no record. *)
Theorem captcha_blocks_extraction (page : Scholar.Page) :
  containsIgnoringCase (Dom.title (Scholar.document page)) (js "captcha")
  \/ hasCaptchaForm (Scholar.document page)
  \/ hasRecaptcha (Scholar.document page) ->
  Scholar.extractResults page = (Throw CaptchaDetected, [EvEvaluate]).
Proof.
  intros H. rewrite extractResults_cases. cbv zeta.
  rewrite (isCaptcha_detects _ H). reflexivity.
Qed.

(** C3 on the page with Google's CAPTCHA form and on a page whose title
    says "reCAPTCHA". *)
Lemma captcha_blocks_extraction_witness :
  Scholar.extractResults Samples.captchaPage = (Throw CaptchaDetected, [EvEvaluate])
  /\ Scholar.extractResults Samples.captchaTitlePage
     = (Throw CaptchaDetected, [EvEvaluate]).
Proof.
  split; apply captcha_blocks_extraction.
  - right. left.
    exists {| Dom.ancestors := [(js "body", []); (js "html", [])];
              Dom.tagName := js "form";
              Dom.attributes := [(js "id", js "captcha-form")];
              Dom.hrefProp := [];
              Dom.childNodes := [] |}.
    split; [|split; reflexivity].
    right. right. left. reflexivity.
  - left. exists (js "re"), (js "CAPTCHA"), (js " check").
    split; [reflexivity|].
    repeat constructor; right; split; reflexivity.
Defined.

(** C5, as stated, fails in two ways.  For a negative limit, which
    [--max=-1] gives: of three records the program selects the first
    two, where the first [k] records would be none.  And on a page that
    draws its result blocks in another order than the tree has them: the
    sample results page, drawn with its second block above the first,
    still yields the record of the first block first. *)
Lemma order_and_limit_exceptions :
  (Index.slice0 [Samples.paperOne; Samples.paperTwo; Samples.scanPaper]
     (Index.Int (-1))
   = [Samples.paperOne; Samples.paperTwo]
   /\ firstRecords (-1) [Samples.paperOne; Samples.paperTwo; Samples.scanPaper]
      = [])
  /\ (completion (Scholar.extractResults Samples.resultsPage)
      = Normal [Samples.paperOne; Samples.paperTwo]
      /\ map Scholar.extractItem
           (topToBottom Samples.reversedLayout
              (Dom.docQuerySelectorAll Scholar.resultItem
                 (Scholar.document Samples.resultsPage)))
         = [Samples.paperTwo; Samples.paperOne]).
Proof. repeat split. Qed.

(** C5 (amended): [extractResults] returns one record for each result
    block, in the order of the document (a block before the blocks that
    follow it in the tree), which is the visual order from top to bottom
    on every page that draws no result block above an earlier one; it
    returns them whenever the page shows no CAPTCHA marker, has the
    results container and lets the page function run to its end.  And
    for every record list and every non-negative limit [k], the
    orchestrator selects exactly the first [k] records of that order (all
    of them when fewer than [k] exist) and runs the acquisition closure
    for those and for no other. *)
Theorem extraction_order_and_selection (page : Scholar.Page) (top : Layout)
  (envs : nat -> Index.UnitEnv) (papers : list Scholar.Paper) (k : Z) :
  let d := Scholar.document page in
  let items := Dom.docQuerySelectorAll Scholar.resultItem d in
  let run := fun i paper => Index.downloadTask (envs i) i paper in
  Subseq items (Dom.elements d)
  /\ (Scholar.isCaptcha d = false ->
      Scholar.isSome (Dom.docQuerySelector Scholar.resultsContainer d) = true ->
      Scholar.extractionOk page = true ->
      Scholar.extractResults page
      = (Normal (map Scholar.extractItem items),
         [EvEvaluate; EvWaitForSelector; EvEvaluate]))
  /\ (forall ps,
         completion (Scholar.extractResults page) = Normal ps ->
         ps = map Scholar.extractItem items
         /\ (drawnInOrder top items ->
             ps = map Scholar.extractItem (topToBottom top items)))
  /\ ((0 <= k)%Z ->
      Index.slice0 papers (Index.Int k) = firstRecords k papers
      /\ length (Index.slice0 papers (Index.Int k))
         = Nat.min (Z.to_nat k) (length papers)
      /\ Index.downloadPromises envs (Index.slice0 papers (Index.Int k))
         = Index.mapi run 0 (firstRecords k papers)
      /\ (papers <> [] ->
          trace (Index.processPapers envs (Index.Int k) papers)
          = concat (map (@trace Index.Result)
                      (Index.mapi run 0 (firstRecords k papers))))).
Proof.
  intros d items run. split; [apply filter_Subseq|].
  pose proof (extractResults_cases page) as E. cbv zeta in E. fold d in E.
  split; [|split].
  - intros Hc Hw Hx. rewrite E, Hc, Hw, Hx. reflexivity.
  - intros ps. rewrite E.
    destruct (Scholar.isCaptcha d); [discriminate|].
    destruct (Scholar.isSome _); [|discriminate].
    destruct (Scholar.extractionOk page); [|discriminate].
    cbn [completion fst]. intros H. injection H as <-.
    split; [reflexivity|]. intros Hdrawn.
    rewrite (topToBottom_drawnInOrder top items Hdrawn). reflexivity.
  - intros Hk. pose proof (slice0_nonneg papers k Hk) as Hs.
    unfold firstRecords. rewrite Hs.
    split; [reflexivity|]. split; [apply length_firstn|].
    split; [reflexivity|].
    intros Hne. rewrite (processPapers_settles envs (Index.Int k) papers Hne).
    rewrite Hs. reflexivity.
Qed.

(** C5 on the sample results page, drawn as the tree has it, and the
    limit 1: two records are extracted, in the order of their blocks,
    which is the order in which they are drawn, and the first alone is
    selected. *)
Lemma extraction_order_and_selection_witness :
  Scholar.extractResults Samples.resultsPage
  = (Normal [Samples.paperOne; Samples.paperTwo],
     [EvEvaluate; EvWaitForSelector; EvEvaluate])
  /\ [Samples.paperOne; Samples.paperTwo]
     = map Scholar.extractItem
         (topToBottom (fun _ => 0%Z)
            (Dom.docQuerySelectorAll Scholar.resultItem
               (Scholar.document Samples.resultsPage)))
  /\ Index.slice0 [Samples.paperOne; Samples.paperTwo] (Index.Int 1)
     = [Samples.paperOne].
Proof.
  destruct (extraction_order_and_selection Samples.resultsPage (fun _ => 0%Z)
              (fun _ => Samples.goodUnit)
              [Samples.paperOne; Samples.paperTwo] 1)
    as (_ & Hextract & Horder & Hselect).
  split; [|split].
  - exact (Hextract eq_refl eq_refl eq_refl).
  - apply (Horder [Samples.paperOne; Samples.paperTwo] eq_refl).
    vm_compute. repeat split; repeat constructor; intros H; discriminate H.
  - exact (proj1 (Hselect Z.le_0_1)).
Defined.

(* ================================================================== *)
(** * Part III: further properties of the code *)
(* ================================================================== *)

Import MoreWords.

(** ** File names *)

Section MoreSanitize.

Lemma replaceSpaceRuns_after_safe b s x :
  Forall (fun c => safeChar c = true) s ->
  s <> [] ->
  Downloader.replaceSpaceRuns b (s ++ x)
  = s ++ Downloader.replaceSpaceRuns false x.
Proof.
  intros Hs. revert b. induction Hs as [|c s Hc Hs IH]; intros b Hne;
    [contradiction|].
  cbn [app Downloader.replaceSpaceRuns].
  rewrite (safeChar_not_space c Hc). f_equal.
  destruct s as [|c' s']; [reflexivity|].
  apply IH. discriminate.
Qed.

Lemma filter_none {A} (f : A -> bool) l :
  Forall (fun x => f x = false) l -> filter f l = [].
Proof.
  induction 1 as [|x l Hx _ IH]; simpl; [reflexivity|]. now rewrite Hx.
Qed.

End MoreSanitize.

(** Two titles that share their first 80 characters, all of them in
    [[A-Za-z0-9_-]], get the same file name, whatever follows. *)
Theorem long_titles_share_a_name (s a b : jsstring) (p : Path.Platform) :
  Forall (fun c => safeChar c = true) s ->
  length s = 80%nat ->
  Downloader.sanitizeFilename (s ++ a) = s
  /\ Downloader.outputPathOf p (s ++ a) = Downloader.outputPathOf p (s ++ b).
Proof.
  intros Hs Hl.
  assert (Hcut : forall x, Downloader.sanitizeFilename (s ++ x) = s).
  { intros x. unfold Downloader.sanitizeFilename, substring0.
    rewrite filter_app, (filter_kept_fixed s Hs).
    rewrite replaceSpaceRuns_after_safe;
      [|exact Hs | intros ->; discriminate Hl].
    rewrite firstn_app, Hl, Nat.sub_diag, firstn_O, app_nil_r.
    apply firstn_all2. lia. }
  split; [apply Hcut|].
  unfold Downloader.outputPathOf. rewrite !Hcut. reflexivity.
Qed.

Lemma long_titles_share_a_name_witness :
  Downloader.sanitizeFilename (repeat 97%N 80 ++ js ": part one")
  = repeat 97%N 80
  /\ Downloader.outputPathOf Path.posix (repeat 97%N 80 ++ js ": part one")
     = Downloader.outputPathOf Path.posix (repeat 97%N 80 ++ js ": part two").
Proof.
  apply long_titles_share_a_name.
  - apply Forall_forall. intros c Hc. apply repeat_spec in Hc. subst c.
    reflexivity.
  - apply repeat_length.
Defined.

(** A title without any letter, digit, space, hyphen or underscore of
    the kept class (a title in a non-Latin script, say) has the empty
    name: its file is [output/pdfs/.pdf]. *)
Theorem stripped_title_is_dot_pdf (title : jsstring) :
  Forall (fun c => Downloader.keptChar c = false) title ->
  Downloader.sanitizeFilename title = []
  /\ Downloader.outputPathOf Path.posix title = js "output/pdfs/.pdf"
  /\ Downloader.outputPathOf Path.win32 title = js "output\pdfs\.pdf".
Proof.
  intros H.
  assert (E : Downloader.sanitizeFilename title = []).
  { unfold Downloader.sanitizeFilename. rewrite (filter_none _ _ H). reflexivity. }
  split; [exact E|].
  split; rewrite outputPathOf_normal by auto; rewrite E; reflexivity.
Qed.

Lemma stripped_title_is_dot_pdf_witness :
  Downloader.sanitizeFilename [26426; 22120; 23398; 32722]%N = []
  /\ Downloader.outputPathOf Path.posix [26426; 22120; 23398; 32722]%N
     = js "output/pdfs/.pdf"
  /\ Downloader.outputPathOf Path.win32 [26426; 22120; 23398; 32722]%N
     = js "output\pdfs\.pdf".
Proof.
  apply stripped_title_is_dot_pdf. repeat constructor.
Defined.

(** ** [downloadPDF] and the world *)

Lemma passed_checks r :
  statusIsSuccess r -> typeIsPdf r ->
  negb (Downloader.ok r) = false
  /\ negb (includes (or_empty (Downloader.contentTypeHeader r)) (js "pdf"))
     && negb (includes (or_empty (Downloader.contentTypeHeader r))
                (js "octet-stream")) = false.
Proof.
  intros [H1 H2] Ht. split.
  - unfold Downloader.ok. apply Z.leb_le in H1, H2. rewrite H1, H2. reflexivity.
  - destruct Ht as [-> | ->]; [reflexivity | apply andb_false_r].
Qed.

(** A failure of the network or of the disk inside [downloadPDF] is
    caught: when [fetch] rejects, when the body cannot be read, or when
    the file cannot be written, the call logs the error, returns [null]
    and leaves no file. *)
Theorem io_failures_are_caught (env : Downloader.DownloadEnv)
  (url filename : jsstring) :
  dirReady env ->
  (Downloader.fetchResult env url = None ->
   Downloader.downloadPDF env url filename
   = (Normal None,
      mkdirEvents env
        ++ [EvFetch url; EvLog (LogDownloadFailed (Library FetchFailed))]))
  /\ (forall r,
         Downloader.fetchResult env url = Some r ->
         statusIsSuccess r -> typeIsPdf r ->
         Downloader.body r = None ->
         Downloader.downloadPDF env url filename
         = (Normal None,
            mkdirEvents env
              ++ [EvFetch url; EvLog (LogDownloadFailed (Library BodyFailed))]))
  /\ (forall r buf,
         Downloader.fetchResult env url = Some r ->
         statusIsSuccess r -> typeIsPdf r ->
         Downloader.body r = Some buf -> maskedSignatureIsPdf buf ->
         Downloader.writeOk env = false ->
         Downloader.downloadPDF env url filename
         = (Normal None,
            mkdirEvents env
              ++ [EvFetch url; EvLog (LogDownloadFailed (Library WriteFailed))])).
Proof.
  intros Hready.
  assert (Hdir : Downloader.ensureOutputDir env = (Normal tt, mkdirEvents env)).
  { unfold Downloader.ensureOutputDir, mkdirEvents.
    cbv [bind emit ret throw].
    destruct (Downloader.dirExists env) eqn:Hd; [reflexivity|].
    destruct Hready as [H|H]; [congruence|]. rewrite H. reflexivity. }
  unfold Downloader.downloadPDF. rewrite Hdir.
  unfold Downloader.fetch, Downloader.buffer, Downloader.writeFileSync.
  cbv [bind try_catch emit ret throw].
  split; [|split].
  - intros ->. reflexivity.
  - intros r -> Hs Ht Hb.
    destruct (passed_checks r Hs Ht) as [-> ->]. rewrite Hb. reflexivity.
  - intros r buf -> Hs Ht Hb [Hlen Hsig] Hw.
    destruct (passed_checks r Hs Ht) as [-> ->]. rewrite Hb.
    apply Nat.ltb_ge in Hlen. rewrite Hlen, Hsig, eqb_refl, Hw. reflexivity.
Qed.

(** On a server that is down: nothing is saved, nothing is thrown. *)
Lemma io_failures_are_caught_witness :
  Downloader.downloadPDF MoreSamples.downEnv (js "http://host/p.pdf") (js "T")
  = (Normal None,
     [EvFetch (js "http://host/p.pdf");
      EvLog (LogDownloadFailed (Library FetchFailed))]).
Proof.
  exact (proj1 (io_failures_are_caught MoreSamples.downEnv
                  (js "http://host/p.pdf") (js "T") (or_introl eq_refl))
           eq_refl).
Defined.

(** [ensureOutputDir] creates the directory only when it is missing, and
    when it cannot, the exception leaves [downloadPDF] before any request
    is made. *)
Theorem missing_directory_stops_the_download (env : Downloader.DownloadEnv)
  (url filename : jsstring) :
  (Downloader.dirExists env = true ->
   count isMkdir
     (trace (Downloader.downloadPDF env url filename)) = 0%nat)
  /\ (Downloader.dirExists env = false ->
      Downloader.mkdirOk env = false ->
      Downloader.downloadPDF env url filename
      = (Throw (Library MkdirFailed), [EvMkdir Config.OUTPUT_DIR])).
Proof.
  split.
  - intros Hd.
    destruct (downloadPDF_cases env url filename)
      as [(Hd' & _) | [(_ & r & buf & _ & _ & _ & _ & _ & _ & E)
                      | (_ & err & E)]];
      [congruence | |]; rewrite E; unfold mkdirEvents; rewrite Hd; reflexivity.
  - intros Hd Hm. unfold Downloader.downloadPDF, Downloader.ensureOutputDir.
    rewrite Hd, Hm. reflexivity.
Qed.

Lemma missing_directory_stops_the_download_witness :
  Downloader.downloadPDF (Index.scanEnv Samples.noDirUnit)
    (js "http://host/p.pdf") (js "T")
  = (Throw (Library MkdirFailed), [EvMkdir (js "./output/pdfs")]).
Proof.
  exact (proj2 (missing_directory_stops_the_download
                  (Index.scanEnv Samples.noDirUnit) (js "http://host/p.pdf") (js "T"))
           eq_refl eq_refl).
Defined.

(** When [downloadPDF] returns a path, it made one request, to the URL it
    was given, and wrote one file, at that path: the whole body of the
    response. *)
Theorem saved_file_is_the_fetched_body (env : Downloader.DownloadEnv)
  (url filename p : jsstring) :
  completion (Downloader.downloadPDF env url filename) = Normal (Some p) ->
  exists r buf,
    Downloader.fetchResult env url = Some r
    /\ Downloader.body r = Some buf
    /\ trace (Downloader.downloadPDF env url filename)
       = mkdirEvents env ++ [EvFetch url; EvWriteFile p buf].
Proof.
  intros H. destruct (downloadPDF_saved env url filename p H)
    as (-> & r & buf & Hf & _ & _ & Hb & _ & _ & Ht).
  exists r, buf. auto.
Qed.

Lemma saved_file_is_the_fetched_body_witness :
  exists r buf,
    Downloader.fetchResult (Samples.servingEnv Samples.pdfBody)
      (js "http://host/p.pdf") = Some r
    /\ Downloader.body r = Some buf
    /\ trace (Downloader.downloadPDF (Samples.servingEnv Samples.pdfBody)
                (js "http://host/p.pdf") (js "T"))
       = mkdirEvents (Samples.servingEnv Samples.pdfBody)
           ++ [EvFetch (js "http://host/p.pdf");
               EvWriteFile (js "output/pdfs/T.pdf") buf].
Proof.
  exact (saved_file_is_the_fetched_body (Samples.servingEnv Samples.pdfBody)
           (js "http://host/p.pdf") (js "T") (js "output/pdfs/T.pdf") eq_refl).
Defined.

(** ** [findPDFOnPage] *)

(** [findPDFOnPage] never throws: a navigation that fails, or an
    evaluation that fails, gives [null]; otherwise the result is what the
    scan of the loaded document finds.  It navigates once, to the URL it
    was given. *)
Theorem navigation_failures_give_null (tab : Downloader.TabEnv) (u : jsstring) :
  (exists v, completion (Downloader.findPDFOnPage tab u) = Normal v)
  /\ count isGoto (trace (Downloader.findPDFOnPage tab u)) = 1%nat
  /\ hd_error (trace (Downloader.findPDFOnPage tab u)) = Some (EvGoto u)
  /\ (Downloader.gotoResult tab u = None ->
      completion (Downloader.findPDFOnPage tab u) = Normal None)
  /\ (Downloader.evaluateOk tab = false ->
      completion (Downloader.findPDFOnPage tab u) = Normal None)
  /\ (forall d,
         Downloader.gotoResult tab u = Some d ->
         Downloader.evaluateOk tab = true ->
         completion (Downloader.findPDFOnPage tab u)
         = Normal (Downloader.scanForPdf d)).
Proof.
  unfold Downloader.findPDFOnPage. cbv [bind try_catch emit ret throw].
  destruct (Downloader.gotoResult tab u) as [d|];
    [destruct (Downloader.evaluateOk tab)|];
    cbn [completion trace fst snd app];
    repeat split; try (eexists; reflexivity); try reflexivity;
    try discriminate; try (intros; congruence).
Qed.

Lemma navigation_failures_give_null_witness :
  completion
    (Downloader.findPDFOnPage MoreSamples.deadTab (js "http://host/paper"))
  = Normal None.
Proof.
  exact (proj1 (proj2 (proj2 (proj2
           (navigation_failures_give_null MoreSamples.deadTab
              (js "http://host/paper"))))) eq_refl).
Defined.

Section Scan.

Lemma hd_filter_In {A} (f : A -> bool) (l : list A) (x : A) :
  hd_error (filter f l) = Some x -> In x l /\ f x = true.
Proof.
  intros H. assert (Hin : In x (filter f l)).
  { destruct (filter f l); [discriminate|]. injection H as ->. left. reflexivity. }
  apply filter_In in Hin. exact Hin.
Qed.

Lemma hd_filter_first {A} (f : A -> bool) (before after : list A) (x : A) :
  Forall (fun y => f y = false) before ->
  f x = true ->
  hd_error (filter f (before ++ x :: after)) = Some x.
Proof.
  intros Hb Hx. rewrite filter_app, (filter_none _ _ Hb). simpl.
  rewrite Hx. reflexivity.
Qed.

Lemma matches_tag s e t :
  Dom.matches s e = true ->
  Dom.selTag (Dom.subject s) = Some t ->
  Dom.tagName e = t.
Proof.
  unfold Dom.matches, Dom.matchesCompound. intros H Ht. rewrite Ht in H.
  repeat (apply andb_prop in H as [H _]).
  apply eqb_eq in H. symmetry. exact H.
Qed.

Lemma firstSelected_sound sels d u :
  Forall (fun s => Dom.selTag (Dom.subject s) = Some (js "a")) sels ->
  Downloader.firstSelected sels d = Some u ->
  truthy u = true /\ anchorWithHref d u.
Proof.
  induction 1 as [|s sels Hs _ IH]; [discriminate|].
  cbn [Downloader.firstSelected].
  destruct (Dom.docQuerySelector s d) as [el|] eqn:Hq; [|exact IH].
  destruct (truthy (Dom.hrefProp el)) eqn:Ht; [|exact IH].
  intros H. injection H as <-. split; [exact Ht|].
  apply hd_filter_In in Hq as [Hin Hm].
  exists el. split; [exact Hin|]. split; [|reflexivity].
  exact (matches_tag s el (js "a") Hm Hs).
Qed.

Lemma firstPdfLink_sound links u :
  Downloader.firstPdfLink links = Some u ->
  truthy u = true /\ exists link, In link links /\ Dom.hrefProp link = u.
Proof.
  induction links as [|link links IH]; [discriminate|].
  cbn [Downloader.firstPdfLink].
  destruct (truthy (Dom.hrefProp link)
            && includes (toLowerCase (Dom.hrefProp link)) (js ".pdf")) eqn:E.
  - intros H. injection H as <-. apply andb_prop in E as [E _].
    split; [exact E|]. exists link. split; [left|]; reflexivity.
  - intros H. destruct (IH H) as (Ht & l & Hin & Hl).
    split; [exact Ht|]. exists l. split; [right; exact Hin | exact Hl].
Qed.

Lemma pdfSuffix_selector e :
  Dom.matches (Downloader.anchorWith [Dom.AttrSuffix (js "href") (js ".pdf")]) e
  = pdfSuffixAnchor e.
Proof.
  unfold Dom.matches, Downloader.anchorWith, Dom.simple, Dom.matchesCompound,
    pdfSuffixAnchor.
  cbn [Dom.subject Dom.context Dom.selTag Dom.selId Dom.selClasses Dom.selAttrs
       forallb Dom.matchesContext Dom.attrTest].
  destruct (eqb (js "a") (Dom.tagName e)); [|reflexivity].
  destruct (Dom.getAttribute (js "href") (Dom.attributes e)); cbn;
    rewrite ?andb_true_r; reflexivity.
Qed.

End Scan.

(** Every URL string the scan of [findPDFOnPage] returns is the
    non-empty [href] of an anchor of the loaded page: the scan builds no
    URL of its own and never returns the empty string. *)
Theorem scan_returns_an_anchor_of_the_page (d : Dom.Document) (u : jsstring) :
  Downloader.scanForPdf d = Some u ->
  truthy u = true /\ anchorWithHref d u.
Proof.
  unfold Downloader.scanForPdf.
  destruct (Downloader.firstSelected Downloader.pdfSelectors d) as [v|] eqn:E.
  - intros H. injection H as <-.
    apply (firstSelected_sound Downloader.pdfSelectors); [|exact E].
    repeat constructor.
  - intros H. apply firstPdfLink_sound in H as (Ht & link & Hin & Hl).
    split; [exact Ht|]. exists link.
    unfold Dom.docQuerySelectorAll in Hin. apply filter_In in Hin as [Hin Hm].
    split; [exact Hin|]. split; [|exact Hl].
    exact (matches_tag _ link (js "a") Hm eq_refl).
Qed.

Lemma scan_returns_an_anchor_of_the_page_witness :
  truthy (js "http://host/files/p.pdf") = true
  /\ anchorWithHref Samples.paperPage (js "http://host/files/p.pdf").
Proof.
  exact (scan_returns_an_anchor_of_the_page Samples.paperPage
           (js "http://host/files/p.pdf") eq_refl).
Defined.

(** The first selector has priority: when the first anchor of the page,
    in document order, whose [href] attribute ends with [.pdf] has a
    non-empty resolved [href], that is the URL found, whatever other
    links the page has. *)
Theorem pdf_suffix_link_wins (d : Dom.Document) (before after : list Dom.Located)
  (e : Dom.Located) :
  Dom.elements d = before ++ e :: after ->
  Forall (fun x => pdfSuffixAnchor x = false) before ->
  pdfSuffixAnchor e = true ->
  truthy (Dom.hrefProp e) = true ->
  Downloader.scanForPdf d = Some (Dom.hrefProp e).
Proof.
  intros Hel Hb He Ht.
  unfold Downloader.scanForPdf, Downloader.pdfSelectors.
  cbn [Downloader.firstSelected].
  unfold Dom.docQuerySelector at 1, Dom.docQuerySelectorAll at 1.
  rewrite Hel, (hd_filter_first _ before after e).
  - rewrite Ht. reflexivity.
  - eapply Forall_impl; [|exact Hb]. intros x Hx.
    rewrite pdfSuffix_selector. exact Hx.
  - rewrite pdfSuffix_selector. exact He.
Qed.

Lemma pdf_suffix_link_wins_witness :
  Downloader.scanForPdf MoreSamples.mixedPage = Some (js "http://host/files/p.pdf").
Proof.
  change (js "http://host/files/p.pdf")
    with (Dom.hrefProp (nth 3 (Dom.elements MoreSamples.mixedPage)
                          MoreSamples.bareBlock)).
  apply (pdf_suffix_link_wins MoreSamples.mixedPage
           (firstn 3 (Dom.elements MoreSamples.mixedPage)) []);
    [reflexivity | repeat constructor | reflexivity | reflexivity].
Defined.

(** ** [extractResults]: one record per block *)

Section Blocks.

Lemma filter_nil_Forall {A} (f : A -> bool) l :
  filter f l = [] -> Forall (fun x => f x = false) l.
Proof.
  induction l as [|x l IH]; simpl; [constructor|].
  destruct (f x) eqn:E; [discriminate|]. intros H. constructor; auto.
Qed.

Lemma anchor_selected s e :
  Dom.subject s = Dom.byTag "a" ->
  Dom.matches s e = true -> Dom.matches Scholar.anyAnchor e = true.
Proof.
  unfold Dom.matches. intros Hs H. apply andb_prop in H as [H _].
  rewrite Hs in H. unfold Scholar.anyAnchor, Dom.simple.
  cbn [Dom.subject Dom.context Dom.matchesContext]. rewrite H. reflexivity.
Qed.

(** What a selector of anchors finds in a block is among its anchors. *)
Lemma selected_among_anchors s item e :
  Dom.subject s = Dom.byTag "a" ->
  In e (Dom.querySelectorAll s item) ->
  In e (Dom.querySelectorAll Scholar.anyAnchor item).
Proof.
  unfold Dom.querySelectorAll. intros Hs Hin.
  apply filter_In in Hin as [Hin Hm]. apply filter_In. split; [exact Hin|].
  exact (anchor_selected s e Hs Hm).
Qed.

Lemma no_anchor_no_selection s item :
  Dom.subject s = Dom.byTag "a" ->
  Dom.querySelectorAll Scholar.anyAnchor item = [] ->
  Dom.querySelector s item = None.
Proof.
  intros Hs Hnone. unfold Dom.querySelector.
  destruct (Dom.querySelectorAll s item) as [|e l] eqn:E; [reflexivity|].
  assert (Hin : In e (Dom.querySelectorAll Scholar.anyAnchor item)).
  { apply (selected_among_anchors s); [exact Hs|]. rewrite E. left. reflexivity. }
  rewrite Hnone in Hin. contradiction.
Qed.

Lemma querySelector_In s item e :
  Dom.querySelector s item = Some e -> In e (Dom.querySelectorAll s item).
Proof.
  unfold Dom.querySelector. destruct (Dom.querySelectorAll s item); [discriminate|].
  intros H. injection H as ->. left. reflexivity.
Qed.

Lemma badgeScan_keeps links u :
  truthy u = true -> badgeScan links (Some u) = Some u.
Proof.
  intros Hu. unfold badgeScan. induction links as [|l links IH]; [reflexivity|].
  cbn [fold_left truthy_opt]. rewrite Hu. exact IH.
Qed.

Lemma badgeScan_from links start u :
  badgeScan links start = Some u ->
  start = Some u \/ exists link, In link links /\ Dom.hrefProp link = u.
Proof.
  unfold badgeScan. revert start.
  induction links as [|l links IH]; intros start H; [left; exact H|].
  cbn [fold_left] in H. apply IH in H as [H | (link & Hin & Hl)].
  - destruct (negb (truthy_opt start) && eqb (trim (Scholar.text l)) (js "[PDF]")).
    + injection H as <-. right. exists l. split; [left|]; reflexivity.
    + left. exact H.
  - right. exists link. split; [right; exact Hin | exact Hl].
Qed.

(** A link that is no badge, or a badge without [href], leaves a scan
    that has found nothing usable where it was. *)
Lemma badgeScan_passes links start :
  truthy_opt start = false ->
  Forall (fun l => pdfBadge l && truthy (Dom.hrefProp l) = false) links ->
  truthy_opt (badgeScan links start) = false.
Proof.
  intros Hs Hb. revert start Hs. unfold badgeScan.
  induction Hb as [|l links Hl _ IH]; intros start Hs; [exact Hs|].
  cbn [fold_left]. apply IH. rewrite Hs. cbn [negb andb].
  unfold pdfBadge in Hl.
  destruct (eqb (trim (Scholar.text l)) (js "[PDF]")); [|exact Hs].
  exact Hl.
Qed.

Lemma badgeScan_app before after start :
  badgeScan (before ++ after) start = badgeScan after (badgeScan before start).
Proof. unfold badgeScan. apply fold_left_app. Qed.

Lemma badgeScan_first before link after start :
  truthy_opt start = false ->
  Forall (fun l => pdfBadge l && truthy (Dom.hrefProp l) = false) before ->
  pdfBadge link = true ->
  truthy (Dom.hrefProp link) = true ->
  badgeScan (before ++ link :: after) start = Some (Dom.hrefProp link).
Proof.
  intros Hs Hb Hl Ht. rewrite badgeScan_app.
  pose proof (badgeScan_passes before start Hs Hb) as Hp.
  unfold badgeScan at 1. cbn [fold_left]. fold (badgeScan before start).
  unfold pdfBadge in Hl. rewrite Hp, Hl. cbn [negb andb].
  apply (badgeScan_keeps after _ Ht).
Qed.

End Blocks.

(** A result block without any link still gives a record, with the title
    'Unknown Title' and no URL, and processing that record costs nothing:
    no request, no tab, no file, and a negative outcome. *)
Theorem block_without_links_costs_nothing (item : Dom.Located)
  (env : Index.UnitEnv) (i : nat) :
  Dom.querySelectorAll Scholar.anyAnchor item = [] ->
  Scholar.title (Scholar.extractItem item) = js "Unknown Title"
  /\ Scholar.paperUrl (Scholar.extractItem item) = None
  /\ Scholar.directPdfUrl (Scholar.extractItem item) = None
  /\ completion (Index.downloadTask env i (Scholar.extractItem item))
     = Normal (notDownloaded (Scholar.extractItem item))
  /\ Forall (fun ev => logEvent ev = true)
       (trace (Index.downloadTask env i (Scholar.extractItem item))).
Proof.
  intros Hnone.
  assert (Ht : Dom.querySelector Scholar.titleAnchor item = None)
    by (apply no_anchor_no_selection; [reflexivity | exact Hnone]).
  assert (Hp : Dom.querySelector Scholar.pdfSlotAnchor item = None)
    by (apply no_anchor_no_selection; [reflexivity | exact Hnone]).
  assert (Hrec : Scholar.paperUrl (Scholar.extractItem item) = None
                 /\ Scholar.directPdfUrl (Scholar.extractItem item) = None).
  { unfold Scholar.extractItem. rewrite Ht, Hp, Hnone. split; reflexivity. }
  destruct Hrec as [Hu Hd].
  split; [unfold Scholar.extractItem; rewrite Ht; reflexivity|].
  split; [exact Hu|]. split; [exact Hd|].
  unfold Index.downloadTask. rewrite Hu, Hd.
  split; [reflexivity | repeat constructor].
Qed.

Lemma block_without_links_costs_nothing_witness :
  Scholar.title (Scholar.extractItem MoreSamples.bareBlock) = js "Unknown Title"
  /\ Scholar.paperUrl (Scholar.extractItem MoreSamples.bareBlock) = None
  /\ Scholar.directPdfUrl (Scholar.extractItem MoreSamples.bareBlock) = None
  /\ completion (Index.downloadTask Samples.goodUnit 0
                   (Scholar.extractItem MoreSamples.bareBlock))
     = Normal (notDownloaded (Scholar.extractItem MoreSamples.bareBlock))
  /\ Forall (fun ev => logEvent ev = true)
       (trace (Index.downloadTask Samples.goodUnit 0
                 (Scholar.extractItem MoreSamples.bareBlock))).
Proof.
  exact (block_without_links_costs_nothing MoreSamples.bareBlock
           Samples.goodUnit 0 eq_refl).
Defined.

(** The direct PDF URL of a record is never invented: when present, it is
    the [href] of one of the anchors of its result block. *)
Theorem direct_url_comes_from_the_block (item : Dom.Located) (u : jsstring) :
  Scholar.directPdfUrl (Scholar.extractItem item) = Some u ->
  exists link,
    In link (Dom.querySelectorAll Scholar.anyAnchor item)
    /\ Dom.hrefProp link = u.
Proof.
  unfold Scholar.extractItem. cbn [Scholar.directPdfUrl].
  intros H. apply badgeScan_from in H as [H | H]; [|exact H].
  destruct (Dom.querySelector Scholar.pdfSlotAnchor item) as [el|] eqn:E;
    [|discriminate].
  destruct (includes (toLowerCase (Dom.hrefProp el)) (js ".pdf")
            || includes (Scholar.text el) (js "PDF")); [|discriminate].
  injection H as <-. exists el. split; [|reflexivity].
  apply (selected_among_anchors Scholar.pdfSlotAnchor); [reflexivity|].
  apply querySelector_In. exact E.
Qed.

Lemma direct_url_comes_from_the_block_witness :
  exists link,
    In link (Dom.querySelectorAll Scholar.anyAnchor MoreSamples.firstBlock)
    /\ Dom.hrefProp link = js "http://host/one.pdf".
Proof.
  exact (direct_url_comes_from_the_block MoreSamples.firstBlock
           (js "http://host/one.pdf") eq_refl).
Defined.

(** The two tiers of the detection of a direct link.  The link of the
    side slot, when it has a non-empty [href] and its URL contains
    [.pdf] in any case or its label contains [PDF], is taken, and no
    badge elsewhere replaces it.  When the block has no side-slot link,
    the first anchor of the block that is labelled exactly [[PDF]] and
    has a non-empty [href] is taken, the badges without [href] before
    it being passed over; and when no anchor of the block is such a
    badge, the record has no usable direct link. *)
Theorem slot_link_before_badge (item : Dom.Located) :
  (forall el,
      Dom.querySelector Scholar.pdfSlotAnchor item = Some el ->
      truthy (Dom.hrefProp el) = true ->
      includes (toLowerCase (Dom.hrefProp el)) (js ".pdf")
      || includes (Scholar.text el) (js "PDF") = true ->
      Scholar.directPdfUrl (Scholar.extractItem item) = Some (Dom.hrefProp el))
  /\ (forall before link after,
         Dom.querySelector Scholar.pdfSlotAnchor item = None ->
         Dom.querySelectorAll Scholar.anyAnchor item = before ++ link :: after ->
         Forall (fun l => pdfBadge l && truthy (Dom.hrefProp l) = false) before ->
         pdfBadge link = true ->
         truthy (Dom.hrefProp link) = true ->
         Scholar.directPdfUrl (Scholar.extractItem item)
         = Some (Dom.hrefProp link))
  /\ (Dom.querySelector Scholar.pdfSlotAnchor item = None ->
      Forall (fun l => pdfBadge l && truthy (Dom.hrefProp l) = false)
        (Dom.querySelectorAll Scholar.anyAnchor item) ->
      truthy_opt (Scholar.directPdfUrl (Scholar.extractItem item)) = false).
Proof.
  split; [|split].
  - intros el Hel Ht Hpdf. unfold Scholar.extractItem. cbn [Scholar.directPdfUrl].
    rewrite Hel, Hpdf. apply (badgeScan_keeps _ _ Ht).
  - intros before link after Hslot Hall Hb Hl Ht.
    unfold Scholar.extractItem. cbn [Scholar.directPdfUrl].
    rewrite Hslot, Hall. apply (badgeScan_first before link after None);
      [reflexivity | exact Hb | exact Hl | exact Ht].
  - intros Hslot Hb. unfold Scholar.extractItem. cbn [Scholar.directPdfUrl].
    rewrite Hslot. apply (badgeScan_passes _ None eq_refl Hb).
Qed.

(** On a block whose first [[PDF]] anchor has no [href] and whose second
    has one, the second is taken. *)
Lemma slot_link_before_badge_witness :
  Scholar.directPdfUrl (Scholar.extractItem MoreSamples.twoBadgeBlock)
  = Some (js "http://host/b.pdf").
Proof.
  change (js "http://host/b.pdf")
    with (Dom.hrefProp
            (nth 1 (Dom.querySelectorAll Scholar.anyAnchor MoreSamples.twoBadgeBlock)
               MoreSamples.bareBlock)).
  apply (proj1 (proj2 (slot_link_before_badge MoreSamples.twoBadgeBlock))
           (firstn 1 (Dom.querySelectorAll Scholar.anyAnchor
                        MoreSamples.twoBadgeBlock))
           _ []);
    [reflexivity | reflexivity | repeat constructor | reflexivity | reflexivity].
Defined.

(** ** [hasCaptcha] *)

Section LivenessCheck.

Lemma toLowerCase_variant_text w lit :
  Forall (fun c => isUpper c = false /\ (c <? 128)%N = true) lit ->
  caseVariant w lit -> toLowerCase w = lit.
Proof.
  intros Hlit Hv. induction Hv as [|c l w lit Hcl _ IH]; [reflexivity|].
  inversion Hlit as [|? ? [Hu Ha] Hlit']; subst.
  unfold toLowerCase in *. cbn [flat_map]. rewrite (IH Hlit').
  destruct Hcl as [-> | [<- Hup]].
  - rewrite (lower1_lower l Hu Ha). reflexivity.
  - unfold lower1. rewrite Hup. reflexivity.
Qed.

End LivenessCheck.

(** [hasCaptcha] flags every page [extractResults] refuses, without
    reading the body, and also a page whose text says "unusual traffic"
    in any mix of cases; on a page with none of the three markers and no
    body it throws. *)
Theorem hasCaptcha_covers_extraction (d : Dom.Document)
  (innerText : option jsstring) :
  (Scholar.isCaptcha d = true -> Liveness.hasCaptcha d innerText = Liveness.Flag true)
  /\ (forall text,
         innerText = Some text ->
         containsIgnoringCase text (js "unusual traffic") ->
         Liveness.hasCaptcha d innerText = Liveness.Flag true)
  /\ (Scholar.isCaptcha d = false -> innerText = None ->
      Liveness.hasCaptcha d innerText = Liveness.NoBody).
Proof.
  unfold Liveness.hasCaptcha, Scholar.isCaptcha.
  split; [intros ->; reflexivity|]. split.
  - intros text -> (pre & w & post & -> & Hv).
    destruct (_ || _ || _); [reflexivity|].
    rewrite !toLowerCase_app, (toLowerCase_variant_text w (js "unusual traffic")),
      includes_app; [reflexivity | | exact Hv].
    repeat constructor.
  - intros -> ->. reflexivity.
Qed.

Lemma hasCaptcha_covers_extraction_witness :
  Liveness.hasCaptcha (Scholar.document Samples.captchaPage) None
  = Liveness.Flag true
  /\ Liveness.hasCaptcha (Scholar.document Samples.resultsPage)
       (Some (js "Our systems have detected Unusual Traffic from your network"))
     = Liveness.Flag true.
Proof.
  split.
  - exact (proj1 (hasCaptcha_covers_extraction
                    (Scholar.document Samples.captchaPage) None) eq_refl).
  - apply (proj1 (proj2 (hasCaptcha_covers_extraction
                           (Scholar.document Samples.resultsPage) _)) _ eq_refl).
    exists (js "Our systems have detected "), (js "Unusual Traffic"),
      (js " from your network").
    split; [reflexivity|].
    repeat constructor; try (left; reflexivity); right; split; reflexivity.
Defined.

(** ** The selection *)

Lemma selection_bounds {A} (l : list A) :
  Index.slice0 l Index.NaN = []
  /\ Index.slice0 l (Index.Int 0) = []
  /\ (forall k, (k < 0)%Z ->
                Index.slice0 l (Index.Int k)
                = firstn (length l - Z.to_nat (- k)) l).
Proof.
  split; [|split].
  - unfold Index.slice0. cbn [Z.ltb Z.compare].
    rewrite Z.min_l by lia. reflexivity.
  - unfold Index.slice0. cbn [Z.ltb Z.compare].
    rewrite Z.min_l by lia. reflexivity.
  - intros k Hk. unfold Index.slice0.
    destruct (Z.ltb_spec k 0); [|lia]. f_equal. lia.
Qed.

(** Whatever the limit, the records selected are a prefix of the
    records extracted.  A limit that is [NaN] (a [--max] that is not a
    number) or 0 selects none; a negative limit [-n] selects all but the
    last [n]. *)
Theorem selection_is_a_prefix (papers : list Scholar.Paper) (e : Index.JsInt) :
  (exists rest, papers = Index.slice0 papers e ++ rest)
  /\ Index.slice0 papers Index.NaN = []
  /\ Index.slice0 papers (Index.Int 0) = []
  /\ (forall k, (k < 0)%Z ->
                Index.slice0 papers (Index.Int k)
                = firstn (length papers - Z.to_nat (- k)) papers).
Proof.
  split; [|apply selection_bounds].
  unfold Index.slice0. eexists. symmetry. apply firstn_skipn.
Qed.

Lemma selection_is_a_prefix_witness :
  Index.slice0 [Samples.paperOne; Samples.paperTwo; Samples.scanPaper]
    (Index.Int (-2))
  = [Samples.paperOne].
Proof.
  exact (proj2 (proj2 (proj2
           (selection_is_a_prefix
              [Samples.paperOne; Samples.paperTwo; Samples.scanPaper] Index.NaN)))
           (-2)%Z eq_refl).
Defined.

(** ** More on the per-record closure *)

Section MoreTask.

(** What a call of [downloadPDF] does, counted. *)
Lemma downloadPDF_counts env url f :
  count isFetch (trace (Downloader.downloadPDF env url f))
    = match completion (Downloader.downloadPDF env url f) with
      | Throw _ => 0%nat
      | Normal _ => 1%nat
      end
  /\ count writeEvent (trace (Downloader.downloadPDF env url f))
     = match completion (Downloader.downloadPDF env url f) with
       | Normal (Some _) => 1%nat
       | _ => 0%nat
       end
  /\ count isGoto (trace (Downloader.downloadPDF env url f)) = 0%nat
  /\ count isBrowserClose (trace (Downloader.downloadPDF env url f)) = 0%nat.
Proof.
  assert (Hmk : forall g, (forall d, g (EvMkdir d) = false) ->
                          count g (mkdirEvents env) = 0%nat).
  { intros g Hg. unfold mkdirEvents, count.
    destruct (Downloader.dirExists env); simpl; [reflexivity|].
    rewrite Hg. reflexivity. }
  destruct (downloadPDF_cases env url f)
    as [(_ & _ & E) | [(_ & r & buf & _ & _ & _ & _ & _ & _ & E)
                      | (_ & err & E)]];
    rewrite E; cbn [completion trace fst snd];
    rewrite ?count_app, !Hmk by reflexivity; repeat split; reflexivity.
Qed.

Lemma findPDFOnPage_counts tab u :
  count isFetch (trace (Downloader.findPDFOnPage tab u)) = 0%nat
  /\ count writeEvent (trace (Downloader.findPDFOnPage tab u)) = 0%nat
  /\ count isGoto (trace (Downloader.findPDFOnPage tab u)) = 1%nat
  /\ count isBrowserClose (trace (Downloader.findPDFOnPage tab u)) = 0%nat.
Proof.
  destruct (findPDFOnPage_cases tab u) as [v [E|E]]; rewrite E;
    repeat split; reflexivity.
Qed.

End MoreTask.

(** Adds, for every call met on a path, the counts of its trace. *)
Ltac count_facts :=
  repeat match goal with
         | E : Downloader.downloadPDF ?e ?u ?f = (?c, ?t) |- _ =>
             lazymatch goal with
             | _ : count isFetch t = _ |- _ => fail
             | _ =>
                 let X := fresh "K" in
                 pose proof (downloadPDF_counts e u f) as X;
                 rewrite E in X; cbn [completion trace fst snd] in X;
                 destruct X as (? & ? & ? & ?)
             end
         | E : Downloader.findPDFOnPage ?e ?u = (?c, ?t) |- _ =>
             lazymatch goal with
             | _ : count isFetch t = _ |- _ => fail
             | _ =>
                 let X := fresh "K" in
                 pose proof (findPDFOnPage_counts e u) as X;
                 rewrite E in X; cbn [completion trace fst snd] in X;
                 destruct X as (? & ? & ? & ?)
             end
         end.

(** Counts the events of a flattened trace with the facts at hand. *)
Ltac count_events :=
  flatten_trace;
  repeat first
    [ rewrite count_app
    | rewrite count_cons
    | match goal with
      | H : count _ _ = _ |- _ => rewrite H
      end ];
  cbn [isFetch isGoto isBrowserClose writeEvent count filter length Nat.add].

(** Refutes the paths no run takes. *)
Ltac no_such_path :=
  repeat match goal with
         | H : Downloader.findPDFOnPage _ _ = (Throw _, _) |- _ =>
             exfalso; exact (findPDFOnPage_no_throw _ _ _ _ H)
         | H : Downloader.downloadPDF _ _ _ = (Normal (Some ?p), _),
           H' : truthy ?p = false |- _ =>
             rewrite (downloadPDF_saved_truthy _ _ _ _ _ H) in H'; discriminate H'
         end.

Lemma unit_effects_bounds env i paper :
  (count isFetch (trace (Index.downloadTask env i paper)) <= 2)%nat
  /\ (count isGoto (trace (Index.downloadTask env i paper)) <= 1)%nat
  /\ (count writeEvent (trace (Index.downloadTask env i paper)) <= 1)%nat
  /\ count isBrowserClose (trace (Index.downloadTask env i paper)) = 0%nat.
Proof.
  run_task; no_such_path; count_facts; count_events; repeat split; lia.
Qed.

(** One unit makes at most two requests and one navigation, writes at
    most one file and never closes the browser. *)
Theorem unit_effects_are_bounded (env : Index.UnitEnv) (i : nat)
  (paper : Scholar.Paper) :
  (count isFetch (trace (Index.downloadTask env i paper)) <= 2)%nat
  /\ (count isGoto (trace (Index.downloadTask env i paper)) <= 1)%nat
  /\ (count writeEvent (trace (Index.downloadTask env i paper)) <= 1)%nat
  /\ count isBrowserClose (trace (Index.downloadTask env i paper)) = 0%nat.
Proof. exact (unit_effects_bounds env i paper). Qed.

Section Reported.

Lemma task_title env i paper r :
  completion (Index.downloadTask env i paper) = Normal r ->
  Index.title r = Scholar.title paper.
Proof.
  run_task; intros H; try discriminate H; injection H as <-; reflexivity.
Qed.

Lemma outcomes_in_order envs k targets :
  Subseq
    (map Index.title
       (Index.fulfilledValues
          (map Index.settle
             (Index.mapi (fun i paper => Index.downloadTask (envs i) i paper)
                k targets))))
    (map Scholar.title targets).
Proof.
  revert k. induction targets as [|p ts IH]; intros k; [constructor|].
  cbn [Index.mapi map Index.fulfilledValues flat_map].
  unfold Index.settle at 1.
  destruct (completion (Index.downloadTask (envs k) k p)) as [r|e] eqn:E.
  - cbn [app map]. rewrite (task_title _ _ _ _ E).
    apply Subseq_keep. exact (IH (S k)).
  - cbn [app]. apply Subseq_skip. exact (IH (S k)).
Qed.

End Reported.

(** Whatever happens in the units, the outcomes bear the titles of
    selected records, in the order of the selection: a rejected unit
    leaves a gap, never a reordering or a foreign title. *)
Theorem outcomes_keep_the_order (envs : nat -> Index.UnitEnv)
  (targets : list Scholar.Paper) :
  Subseq (map Index.title (outcomesOf envs targets)) (map Scholar.title targets).
Proof. apply outcomes_in_order. Qed.

(** An outcome that says [downloaded] names a file the unit really wrote:
    the path is the output path of the record's title, the bytes written
    passed the signature test, and the method tells which of the two
    downloads wrote it. *)
Theorem reported_download_was_written (env : Index.UnitEnv) (i : nat)
  (paper : Scholar.Paper) (r : Index.Result) :
  completion (Index.downloadTask env i paper) = Normal r ->
  Index.downloaded r = true ->
  exists p buf,
    Index.savedPath r = Some p
    /\ In (EvWriteFile p buf) (trace (Index.downloadTask env i paper))
    /\ maskedSignatureIsPdf buf
    /\ ((Index.method r = Some Index.DIRECT_LINK
         /\ p = Downloader.outputPathOf
                  (Downloader.platform (Index.directEnv env)) (Scholar.title paper))
        \/ (Index.method r = Some Index.PAPER_PAGE
            /\ p = Downloader.outputPathOf
                     (Downloader.platform (Index.scanEnv env)) (Scholar.title paper))).
Proof.
  run_task; intros H; try discriminate H; injection H as <-;
    cbn [Index.downloaded Index.markDownloaded]; intros Hd; try discriminate Hd.
  all: match goal with
       | E : Downloader.downloadPDF ?e ?u ?f = (Normal (Some ?j), ?l)
         |- exists p buf, Index.savedPath (Index.markDownloaded _ (Some ?j) _) = _ /\ _ =>
           let S := fresh "S" in
           pose proof (downloadPDF_saved e u f j) as S;
           rewrite E in S; cbn [completion trace fst snd] in S;
           destruct (S eq_refl) as (-> & r' & buf & _ & _ & _ & _ & Hsig & _ & ->);
           exists (Downloader.outputPathOf (Downloader.platform e) f), buf
       end.
  all: split; [reflexivity|]; split; [flatten_trace; in_trace|];
    split; [exact Hsig|]; cbn [Index.method Index.markDownloaded];
    first [left; split; reflexivity | right; split; reflexivity].
Qed.

Lemma reported_download_was_written_witness :
  exists p buf,
    Index.savedPath
      (downloadedBy Samples.scanPaper (js "output/pdfs/T.pdf") Index.PAPER_PAGE)
    = Some p
    /\ In (EvWriteFile p buf)
         (trace (Index.downloadTask Samples.goodUnit 0 Samples.scanPaper))
    /\ maskedSignatureIsPdf buf
    /\ ((Index.method
           (downloadedBy Samples.scanPaper (js "output/pdfs/T.pdf") Index.PAPER_PAGE)
         = Some Index.DIRECT_LINK
         /\ p = Downloader.outputPathOf
                  (Downloader.platform (Index.directEnv Samples.goodUnit))
                  (Scholar.title Samples.scanPaper))
        \/ (Index.method
              (downloadedBy Samples.scanPaper (js "output/pdfs/T.pdf")
                 Index.PAPER_PAGE)
            = Some Index.PAPER_PAGE
            /\ p = Downloader.outputPathOf
                     (Downloader.platform (Index.scanEnv Samples.goodUnit))
                     (Scholar.title Samples.scanPaper))).
Proof.
  exact (reported_download_was_written Samples.goodUnit 0 Samples.scanPaper
           (downloadedBy Samples.scanPaper (js "output/pdfs/T.pdf") Index.PAPER_PAGE)
           eq_refl eq_refl).
Defined.

(** ** The whole run *)

Section WholeRun.

Variable env : Index.MainEnv.
Variable maxResults : Index.JsInt.

(** The [try] block of [main]. *)
Let body : M (list Index.Result) :=
  bind (opening env) (fun _ => session env maxResults).

(** The line [printSummary] prints for the outcomes [rs]. *)
Let report (rs : list Index.Result) : Event :=
  EvLog (LogSummary (Index.papersFound (Index.printSummary rs))
           (Index.pdfsDownloaded (Index.printSummary rs))
           (Index.failedSkipped (Index.printSummary rs))).

(** [main] in one piece: what is caught, what is closed, what is
    printed and returned. *)
Lemma main_shape :
  Index.main env maxResults
  = let rs := match completion body with Normal rs => rs | Throw _ => [] end in
    let caught := trace body
                  ++ match completion body with
                     | Normal _ => []
                     | Throw err => [EvLog (LogFatal err)]
                     end in
    if Index.launchOk env then
      if Index.browserCloseOk env
      then (Normal (Index.printSummary rs),
            caught ++ [EvCloseBrowser; EvLog LogBrowserClosed; report rs])
      else (Throw (Library BrowserCloseFailed), caught ++ [EvCloseBrowser])
    else (Normal (Index.printSummary rs), caught ++ [report rs]).
Proof.
  subst body report. unfold Index.main, opening.
  change (bind (Scholar.extractResults (Index.resultsPage env))
            (fun papers => Index.processPapers (Index.units env) maxResults papers))
    with (session env maxResults).
  destruct (Index.launchBrowser env) as [[[]|e1] t1];
    [destruct (Index.createPage env) as [[[]|e2] t2];
     [destruct (Index.searchScholar env) as [[[]|e3] t3];
      [destruct (session env maxResults) as [[rs|e4] t4]|]|]|];
    destruct (Index.launchOk env); destruct (Index.browserCloseOk env);
    cbv [bind try_catch try_finally emit ret throw completion trace fst snd];
    repeat (rewrite app_nil_r || rewrite <- app_assoc || cbn [app]);
    reflexivity.
Qed.

Lemma count_search f l :
  (forall s, f (EvSearch s) = false) -> count f (map EvSearch l) = 0%nat.
Proof.
  intros Hf. unfold count. induction l as [|s l IH]; [reflexivity|].
  cbn [map filter]. rewrite Hf. exact IH.
Qed.

(** The opening of a run: what becomes of it, and that it leaves the
    units' business alone and opens one tab at most. *)
Lemma opening_cases :
  count isBrowserClose (trace (opening env)) = 0%nat
  /\ count unitEvent (trace (opening env)) = 0%nat
  /\ (count isOpen (trace (opening env)) <= 1)%nat
  /\ (Index.launchOk env = false ->
      opening env = (Throw (Library SessionFailed), [EvLaunch]))
  /\ (forall u, completion (opening env) = Normal u ->
                Index.launchOk env = true /\ Index.pageOk env = true
                /\ Index.setupOk env = true /\ searched env).
Proof.
  unfold opening, Index.launchBrowser, Index.createPage, Index.searchScholar,
    searched.
  destruct (Ui.searchScholar (Index.search env) (Index.query env))
    as [[[]|e] ts];
    destruct (Index.launchOk env), (Index.pageOk env), (Index.setupOk env);
    cbv [bind emit ret throw completion trace fst snd];
    repeat (rewrite app_nil_r || cbn [app]);
    rewrite ?count_cons, ?(count_search isBrowserClose),
      ?(count_search unitEvent), ?(count_search isOpen) by reflexivity;
    cbn [isBrowserClose unitEvent isOpen count filter length Nat.add];
    repeat split; try discriminate; try lia;
    intros; discriminate.
Qed.

(** The [try] block after the search: it throws before any unit is
    started, or runs the units of the selection. *)
Lemma session_cases :
  (exists err,
      session env maxResults
      = (Throw err, trace (Scholar.extractResults (Index.resultsPage env)))
      /\ forall papers,
          completion (Scholar.extractResults (Index.resultsPage env))
          = Normal papers -> papers = [])
  \/ (exists papers,
         papers <> []
         /\ completion (Scholar.extractResults (Index.resultsPage env))
            = Normal papers
         /\ session env maxResults
            = (Normal (outcomesOf (Index.units env)
                         (Index.slice0 papers maxResults)),
               trace (Scholar.extractResults (Index.resultsPage env))
                 ++ concat (map (@trace Index.Result)
                              (Index.downloadPromises (Index.units env)
                                 (Index.slice0 papers maxResults))))).
Proof.
  unfold session.
  destruct (Scholar.extractResults (Index.resultsPage env)) as [[papers|err] t].
  - destruct papers as [|p ps].
    + left. exists NoResults. split.
      * cbv [bind Index.processPapers throw length Nat.eqb trace snd].
        now rewrite app_nil_r.
      * cbn [completion fst]. intros papers H. now injection H as <-.
    + right. exists (p :: ps). split; [discriminate|]. split; [reflexivity|].
      cbn [bind trace snd].
      rewrite (processPapers_settles (Index.units env) maxResults (p :: ps))
        by discriminate.
      reflexivity.
  - left. exists err. split; [reflexivity|]. cbn [completion fst]. discriminate.
Qed.

(** The extraction opens, requests and closes nothing. *)
Lemma extraction_is_inward :
  count isBrowserClose
    (trace (Scholar.extractResults (Index.resultsPage env))) = 0%nat
  /\ count unitEvent
       (trace (Scholar.extractResults (Index.resultsPage env))) = 0%nat
  /\ count isOpen
       (trace (Scholar.extractResults (Index.resultsPage env))) = 0%nat.
Proof.
  pose proof (extractResults_cases (Index.resultsPage env)) as E.
  cbv zeta in E. rewrite E.
  destruct (Scholar.isCaptcha _); [repeat split|].
  destruct (Scholar.isSome _); [|repeat split].
  destruct (Scholar.extractionOk _); repeat split.
Qed.

Lemma units_never_close_the_browser envs k targets :
  count isBrowserClose
    (concat (map (@trace Index.Result)
               (Index.mapi (fun i paper => Index.downloadTask (envs i) i paper)
                  k targets))) = 0%nat.
Proof.
  revert k. induction targets as [|p ts IH]; intros k; [reflexivity|].
  cbn [Index.mapi map concat]. rewrite count_app, (IH (S k)).
  destruct (unit_effects_bounds (envs k) k p) as (_ & _ & _ & ->). reflexivity.
Qed.

(** The [try] block as a whole.  Either it throws before any unit is
    started, or the opening and the extraction succeed and the units of
    the selection run. *)
Lemma body_cases :
  (exists err t,
      body = (Throw err, t)
      /\ count isBrowserClose t = 0%nat
      /\ count unitEvent t = 0%nat
      /\ (count isOpen t <= 1)%nat)
  \/ (exists papers t,
         papers <> []
         /\ Index.launchOk env = true /\ Index.pageOk env = true
         /\ Index.setupOk env = true /\ searched env
         /\ completion (Scholar.extractResults (Index.resultsPage env))
            = Normal papers
         /\ body
            = (Normal (outcomesOf (Index.units env)
                         (Index.slice0 papers maxResults)),
               t ++ concat (map (@trace Index.Result)
                              (Index.downloadPromises (Index.units env)
                                 (Index.slice0 papers maxResults))))
         /\ count isBrowserClose t = 0%nat
         /\ count unitEvent t = 0%nat
         /\ (count isOpen t <= 1)%nat).
Proof.
  subst body.
  destruct opening_cases as (Ob & Ou & Oo & _ & Onormal).
  destruct extraction_is_inward as (Xb & Xu & Xo).
  destruct (opening env) as [[[]|e] to] eqn:Eo; cbn [completion trace fst snd] in *.
  2:{ left. exists e, to. repeat split; assumption. }
  destruct (Onormal tt eq_refl) as (Hl & Hp & Hs & Hq).
  destruct session_cases as [(err & Es & _) | (papers & Hne & Hx & Es)];
    cbn [bind]; rewrite Es.
  - left. exists err. eexists. split; [reflexivity|].
    rewrite !count_app, Ob, Ou, Xb, Xu, Xo. repeat split; lia.
  - right. exists papers. eexists. split; [exact Hne|].
    repeat (split; [assumption|]).
    split; [rewrite app_assoc; reflexivity|].
    rewrite !count_app, Ob, Ou, Xb, Xu, Xo. repeat split; lia.
Qed.

End WholeRun.

Lemma extracted_papers page papers :
  completion (Scholar.extractResults page) = Normal papers ->
  papers = Scholar.extractPapers (Scholar.document page).
Proof.
  pose proof (extractResults_cases page) as E. cbv zeta in E. rewrite E.
  destruct (Scholar.isCaptcha _); [discriminate|].
  destruct (Scholar.isSome _); [|discriminate].
  destruct (Scholar.extractionOk _); [|discriminate].
  cbn [completion fst]. intros H. now injection H as <-.
Qed.

(** What [main] does around its [try] block. *)
Lemma closing_facts env maxResults :
  count isBrowserClose (trace (Index.main env maxResults))
  = (if Index.launchOk env then 1%nat else 0%nat)
  /\ (Index.launchOk env = true ->
      exists before after,
        trace (Index.main env maxResults) = before ++ EvCloseBrowser :: after
        /\ count isBrowserClose before = 0%nat
        /\ Forall (fun ev => logEvent ev = true) after
        /\ (Index.browserCloseOk env = false -> after = []))
  /\ (forall err,
         completion (Index.main env maxResults) = Throw err ->
         err = Library BrowserCloseFailed
         /\ Index.launchOk env = true /\ Index.browserCloseOk env = false)
  /\ (Index.launchOk env = true -> Index.browserCloseOk env = false ->
      completion (Index.main env maxResults)
      = Throw (Library BrowserCloseFailed)).
Proof.
  rewrite main_shape. cbv zeta.
  set (body := bind (opening env) (fun _ => session env maxResults)).
  assert (Hb : count isBrowserClose
                 (trace body
                  ++ match completion body with
                     | Normal _ => []
                     | Throw err => [EvLog (LogFatal err)]
                     end) = 0%nat).
  { destruct (body_cases env maxResults)
      as [(err & t & E & Cb & _) | (papers & t & _ & _ & _ & _ & _ & _ & E & Cb & _)];
      fold body in E; rewrite E; cbn [completion trace fst snd];
      rewrite ?count_app, Cb.
    - reflexivity.
    - unfold Index.downloadPromises.
      now rewrite units_never_close_the_browser. }
  destruct (Index.launchOk env), (Index.browserCloseOk env);
    cbn [completion trace fst snd].
  - split; [rewrite count_app, Hb; reflexivity|].
    split; [|split; [discriminate | discriminate]].
    intros _. eexists. eexists. split; [reflexivity|].
    split; [exact Hb|]. split; [repeat constructor | discriminate].
  - split; [rewrite count_app, Hb; reflexivity|].
    split; [|split; [|reflexivity]].
    + intros _. eexists. exists []. split; [reflexivity|].
      split; [exact Hb|]. split; [constructor | reflexivity].
    + intros err H. injection H as <-. repeat split.
  - split; [rewrite count_app, Hb; reflexivity|].
    split; [discriminate|]. split; discriminate.
  - split; [rewrite count_app, Hb; reflexivity|].
    split; [discriminate|]. split; discriminate.
Qed.

(** When the browser was launched, [browser.close()] is called exactly
    once, after everything the search and the units do, and [main] only
    prints after it; when the launch failed nothing is closed.  The only
    error [main] lets out is a failure of that [close], and then [main]
    prints nothing more: there is no summary. *)
Theorem browser_is_closed_once (env : Index.MainEnv)
  (maxResults : Index.JsInt) :
  count isBrowserClose (trace (Index.main env maxResults))
  = (if Index.launchOk env then 1%nat else 0%nat)
  /\ (Index.launchOk env = true ->
      exists before after,
        trace (Index.main env maxResults) = before ++ EvCloseBrowser :: after
        /\ count isBrowserClose before = 0%nat
        /\ Forall (fun ev => logEvent ev = true) after
        /\ (Index.browserCloseOk env = false -> after = []))
  /\ (forall err,
         completion (Index.main env maxResults) = Throw err ->
         err = Library BrowserCloseFailed
         /\ Index.launchOk env = true /\ Index.browserCloseOk env = false)
  /\ (Index.launchOk env = true -> Index.browserCloseOk env = false ->
      completion (Index.main env maxResults)
      = Throw (Library BrowserCloseFailed)).
Proof. exact (closing_facts env maxResults). Qed.

(** A run in which no unit is started does nothing of what the units
    do, opens one tab at most, and counts nothing. *)
Lemma inert_run env maxResults :
  Index.launchOk env = false
  \/ Index.pageOk env = false
  \/ Index.setupOk env = false
  \/ ~ searched env
  \/ (forall papers,
         completion (Scholar.extractResults (Index.resultsPage env))
         = Normal papers ->
         Index.slice0 papers maxResults = []) ->
  count unitEvent (trace (Index.main env maxResults)) = 0%nat
  /\ (count isOpen (trace (Index.main env maxResults)) <= 1)%nat
  /\ forall s, completion (Index.main env maxResults) = Normal s ->
               s = Index.printSummary [].
Proof.
  intros H. rewrite main_shape. cbv zeta.
  set (body := bind (opening env) (fun _ => session env maxResults)).
  assert (Hb : (exists err t,
                   body = (Throw err, t)
                   /\ count unitEvent t = 0%nat /\ (count isOpen t <= 1)%nat)
               \/ (exists t,
                      body = (Normal [], t)
                      /\ count unitEvent t = 0%nat
                      /\ (count isOpen t <= 1)%nat)).
  { destruct (body_cases env maxResults)
      as [(err & t & E & _ & Cu & Co)
         | (papers & t & _ & Hl & Hp & Hs & Hq & Hx & E & _ & Cu & Co)];
      fold body in E.
    - left. exists err, t. repeat split; assumption.
    - right. destruct H as [H | [H | [H | [H | H]]]];
        [congruence | congruence | congruence | contradiction |].
      rewrite (H papers Hx) in E. exists (t ++ []).
      split; [exact E|]. rewrite app_nil_r. split; assumption. }
  destruct Hb as [(err & t & -> & Cu & Co) | (t & -> & Cu & Co)];
    cbn [completion trace fst snd];
    destruct (Index.launchOk env), (Index.browserCloseOk env);
    cbn [completion trace fst snd];
    rewrite !count_app, Cu;
    cbn [count filter length unitEvent isOpen Nat.add];
    (split; [reflexivity|]); (split; [unfold count in Co |- *; lia|]);
    intros s Hs; try discriminate Hs; now injection Hs as <-.
Qed.

(** A run in which no unit is started, because the launch, the opening
    of the search tab or the search fails, the extraction throws or
    returns nothing, or the limit selects no record, makes no download
    request, creates no directory, writes no file, visits no paper page
    and opens no tab besides the search tab; and the summary it prints,
    if it gets there, counts nothing. *)
Theorem run_without_units_is_inert (env : Index.MainEnv)
  (maxResults : Index.JsInt) :
  Index.launchOk env = false
  \/ Index.pageOk env = false
  \/ Index.setupOk env = false
  \/ ~ searched env
  \/ (forall papers,
         completion (Scholar.extractResults (Index.resultsPage env))
         = Normal papers ->
         Index.slice0 papers maxResults = []) ->
  count unitEvent (trace (Index.main env maxResults)) = 0%nat
  /\ (count isOpen (trace (Index.main env maxResults)) <= 1)%nat
  /\ forall s, completion (Index.main env maxResults) = Normal s ->
               s = Index.printSummary [].
Proof. exact (inert_run env maxResults). Qed.

Lemma run_without_units_is_inert_witness :
  count unitEvent (trace (Index.main MoreSamples.blockedRun (Index.Int 5)))
  = 0%nat
  /\ (count isOpen (trace (Index.main MoreSamples.blockedRun (Index.Int 5)))
      <= 1)%nat
  /\ forall s,
      completion (Index.main MoreSamples.blockedRun (Index.Int 5)) = Normal s ->
      s = Index.printSummary [].
Proof.
  apply (run_without_units_is_inert MoreSamples.blockedRun (Index.Int 5)).
  right. right. right. right. intros papers H. vm_compute in H. discriminate H.
Defined.

(** The summary never counts more records than the limit selects among
    the records of the page: at most [k] for a limit [k >= 0], none for
    a limit that is not a number. *)
Theorem summary_within_the_limit (env : Index.MainEnv)
  (maxResults : Index.JsInt) (s : Index.Summary) :
  completion (Index.main env maxResults) = Normal s ->
  (Index.papersFound s
   <= length (Index.slice0
                (Scholar.extractPapers (Scholar.document (Index.resultsPage env)))
                maxResults))%nat
  /\ (forall k, maxResults = Index.Int k -> (0 <= k)%Z ->
                (Index.papersFound s <= Z.to_nat k)%nat)
  /\ (maxResults = Index.NaN -> Index.papersFound s = 0%nat).
Proof.
  intros Hs.
  assert (Hlen : (Index.papersFound s
                  <= length (Index.slice0
                               (Scholar.extractPapers
                                  (Scholar.document (Index.resultsPage env)))
                               maxResults))%nat).
  { revert Hs. rewrite main_shape. cbv zeta.
    set (body := bind (opening env) (fun _ => session env maxResults)).
    assert (Hrs : (length match completion body with
                          | Normal rs => rs
                          | Throw _ => []
                          end
                   <= length (Index.slice0
                                (Scholar.extractPapers
                                   (Scholar.document (Index.resultsPage env)))
                                maxResults))%nat).
    { destruct (body_cases env maxResults)
        as [(err & t & E & _) | (papers & t & _ & _ & _ & _ & _ & Hx & E & _)];
        fold body in E; rewrite E; cbn [completion fst]; [cbn; lia|].
      rewrite <- (extracted_papers _ _ Hx). unfold outcomesOf.
      etransitivity; [apply fulfilledValues_length|].
      rewrite length_map. unfold Index.downloadPromises.
      now rewrite mapi_length. }
    destruct (Index.launchOk env), (Index.browserCloseOk env);
      cbn [completion fst]; intros H; try discriminate H;
      injection H as <-; exact Hrs. }
  split; [exact Hlen|]. split.
  - intros k -> Hk. rewrite slice0_nonneg in Hlen by exact Hk.
    rewrite length_firstn in Hlen. lia.
  - intros ->. destruct (selection_bounds
                           (Scholar.extractPapers
                              (Scholar.document (Index.resultsPage env)))) as [E _].
    rewrite E in Hlen. cbn in Hlen. lia.
Qed.

Lemma summary_within_the_limit_witness :
  (Index.papersFound
     (Index.printSummary
        (outcomesOf (Index.units MoreSamples.smoothRun)
           (Index.slice0
              (Scholar.extractPapers
                 (Scholar.document (Index.resultsPage MoreSamples.smoothRun)))
              (Index.Int 1))))
   <= Z.to_nat 1)%nat.
Proof.
  exact (proj1 (proj2
           (summary_within_the_limit MoreSamples.smoothRun (Index.Int 1)
              (Index.printSummary
                 (outcomesOf (Index.units MoreSamples.smoothRun)
                    (Index.slice0
                       (Scholar.extractPapers
                          (Scholar.document
                             (Index.resultsPage MoreSamples.smoothRun)))
                       (Index.Int 1))))
              eq_refl))
           1%Z eq_refl ltac:(lia)).
Defined.

(** ** The command line *)

Section CommandLine.

Lemma removeFirstDashes_prefix s :
  Args.removeFirstDashes (js "--" ++ s) = s.
Proof. reflexivity. Qed.

Lemma hd_splitOn_app p a b :
  p = Args.isEquals -> noEquals a ->
  splitOn p (a ++ 61%N :: b) = a :: splitOn p b.
Proof.
  intros -> Ha. rewrite (splitOn_app_sep _ a 61%N b eq_refl).
  now rewrite (splitOn_none _ a Ha).
Qed.

(** The pieces of one argument. *)
Lemma parseArg_pieces k v :
  noEquals k ->
  Args.parseArg (js "--" ++ k) = (k, None)
  /\ (noEquals v ->
      Args.parseArg (js "--" ++ k ++ js "=" ++ v) = (k, Some v))
  /\ (noEquals v ->
      forall w, Args.parseArg (js "--" ++ k ++ js "=" ++ v ++ js "=" ++ w)
                = (k, Some v)).
Proof.
  intros Hk. unfold Args.parseArg. split; [|split].
  - rewrite removeFirstDashes_prefix. now rewrite (splitOn_none _ k Hk).
  - intros Hv.
    replace (js "--" ++ k ++ js "=" ++ v) with (js "--" ++ (k ++ 61%N :: v))
      by reflexivity.
    rewrite removeFirstDashes_prefix.
    rewrite (hd_splitOn_app _ k v eq_refl Hk), (splitOn_none _ v Hv).
    reflexivity.
  - intros Hv w.
    replace (js "--" ++ k ++ js "=" ++ v ++ js "=" ++ w)
      with (js "--" ++ (k ++ 61%N :: (v ++ 61%N :: w))) by reflexivity.
    rewrite removeFirstDashes_prefix.
    rewrite (hd_splitOn_app _ k _ eq_refl Hk), (hd_splitOn_app _ v w eq_refl Hv).
    reflexivity.
Qed.

Lemma parseArgs_snoc argv arg :
  Args.parseArgs (argv ++ [arg])
  = Args.set (fst (Args.parseArg arg)) (snd (Args.parseArg arg))
      (Args.parseArgs argv).
Proof.
  unfold Args.parseArgs. rewrite fold_left_app. cbn [fold_left].
  now destruct (Args.parseArg arg).
Qed.

Lemma get_set_same k v o :
  eqb k (js "__proto__") = false -> Args.get k (Args.set k v o) = v.
Proof.
  intros H. unfold Args.set. rewrite H. cbn [Args.get].
  now rewrite eqb_refl.
Qed.

Lemma get_set_other k k' v o :
  eqb k k' = false -> Args.get k' (Args.set k v o) = Args.get k' o.
Proof.
  intros H. unfold Args.set.
  destruct (eqb k (js "__proto__")); [reflexivity|].
  cbn [Args.get]. now rewrite H.
Qed.

(** Reading [key] after one more argument. *)
Lemma get_after argv k v key :
  noEquals k -> noEquals v ->
  Args.get key (Args.parseArgs (argv ++ [js "--" ++ k ++ js "=" ++ v]))
  = if eqb k key && negb (eqb k (js "__proto__")) then Some v
    else Args.get key (Args.parseArgs argv).
Proof.
  intros Hk Hv. rewrite parseArgs_snoc.
  destruct (parseArg_pieces k v Hk) as (_ & Ep & _). rewrite (Ep Hv).
  cbn [fst snd]. destruct (eqb k key) eqn:E.
  - apply eqb_eq in E. subst key.
    destruct (eqb k (js "__proto__")) eqn:P; cbn [andb negb].
    + unfold Args.set. now rewrite P.
    + now apply get_set_same.
  - cbn [andb]. now apply get_set_other.
Qed.

End CommandLine.

(** An argument [--key=value] overrides every earlier argument of the
    same key, whatever came before; what follows a second [=] in the
    value is dropped, and an argument without [=] leaves the key
    [undefined]. *)
Theorem later_argument_overrides (argv : list jsstring) (k v : jsstring) :
  noEquals k -> noEquals v ->
  eqb k (js "__proto__") = false ->
  Args.get k (Args.parseArgs (argv ++ [js "--" ++ k ++ js "=" ++ v])) = Some v
  /\ (forall w,
         Args.get k
           (Args.parseArgs (argv ++ [js "--" ++ k ++ js "=" ++ v ++ js "=" ++ w]))
         = Some v)
  /\ Args.get k (Args.parseArgs (argv ++ [js "--" ++ k])) = None.
Proof.
  intros Hk Hv Hp. destruct (parseArg_pieces k v Hk) as (E0 & E1 & E2).
  rewrite !parseArgs_snoc. split; [|split].
  - rewrite (E1 Hv). now apply get_set_same.
  - intros w. rewrite parseArgs_snoc, (E2 Hv w). now apply get_set_same.
  - rewrite E0. now apply get_set_same.
Qed.

Lemma later_argument_overrides_witness :
  Args.get (js "query")
    (Args.parseArgs ([js "--query=old"] ++ [js "--" ++ js "query" ++ js "=" ++ js "a"]))
  = Some (js "a")
  /\ (forall w,
         Args.get (js "query")
           (Args.parseArgs
              ([js "--query=old"]
                 ++ [js "--" ++ js "query" ++ js "=" ++ js "a" ++ js "=" ++ w]))
         = Some (js "a"))
  /\ Args.get (js "query")
       (Args.parseArgs ([js "--query=old"] ++ [js "--" ++ js "query"])) = None.
Proof.
  apply (later_argument_overrides [js "--query=old"] (js "query") (js "a")).
  - repeat constructor.
  - repeat constructor.
  - reflexivity.
Defined.

Section Numbers.

Lemma digit_code k :
  (k < 10)%N -> isDigit (48 + k) = true /\ Z.of_N (48 + k - 48) = Z.of_N k.
Proof.
  intros H. split.
  - unfold isDigit, in_range. apply andb_true_intro.
    split; apply N.leb_le; lia.
  - f_equal. lia.
Qed.

Lemma digits_stop acc rest :
  rest = [] \/ (exists c r, rest = c :: r /\ isDigit c = false) ->
  Args.digits acc rest = acc.
Proof.
  intros [-> | (c & r & -> & H)]; [reflexivity|].
  cbn [Args.digits]. now rewrite H.
Qed.

Lemma digits_step k acc s :
  (k < 10)%N ->
  Args.digits acc ((48 + k)%N :: s)
  = Args.digits (Some (10 * match acc with Some a => a | None => 0 end
                       + Z.of_N k)%Z) s.
Proof.
  intros H. destruct (digit_code k H) as [D V].
  cbn [Args.digits]. rewrite D, V. reflexivity.
Qed.

(** Reads one digit of [codes]. *)
Ltac read_digit IH :=
  match goal with
  | |- Args.digits ?acc ((?c :: codes ?l) ++ ?rest) = _ =>
      let k := eval vm_compute in (c - 48)%N in
      change ((c :: codes l) ++ rest) with ((48 + k)%N :: codes l ++ rest);
      rewrite (digits_step k acc (codes l ++ rest) eq_refl)
  end.

Lemma digits_acc d acc rest :
  rest = [] \/ (exists c r, rest = c :: r /\ isDigit c = false) ->
  Args.digits (Some (Z.pos acc)) (codes d ++ rest)
  = Some (Z.pos (Pos.of_uint_acc d acc)).
Proof.
  intros Hr. revert acc.
  induction d as [|d IH|d IH|d IH|d IH|d IH|d IH|d IH|d IH|d IH|d IH];
    intros acc; cbn [codes Pos.of_uint_acc];
    [now apply digits_stop| | | | | | | | | |];
    read_digit IH; rewrite <- IH; do 2 f_equal; lia.
Qed.

Lemma digits_of_uint d acc rest :
  acc = None \/ acc = Some 0%Z ->
  d <> Decimal.Nil ->
  rest = [] \/ (exists c r, rest = c :: r /\ isDigit c = false) ->
  Args.digits acc (codes d ++ rest) = Some (Z.of_N (Pos.of_uint d)).
Proof.
  intros Ha Hd Hr. revert acc Ha Hd.
  induction d as [|d IH|d IH|d IH|d IH|d IH|d IH|d IH|d IH|d IH|d IH];
    intros acc Ha Hd; cbn [codes Pos.of_uint]; [contradiction| | | | | | | | | |];
    read_digit IH.
  2-10: change (Z.of_N (N.pos ?p)) with (Z.pos p);
    rewrite <- (digits_acc d _ rest Hr); do 2 f_equal;
    destruct Ha as [-> | ->]; reflexivity.
  replace (10 * match acc with Some a => a | None => 0 end + Z.of_N 0)%Z
    with 0%Z by (destruct Ha as [-> | ->]; reflexivity).
  destruct d; try (apply IH; [now right | discriminate]).
  cbn [codes app Pos.of_uint]. now apply digits_stop.
Qed.

Lemma to_uint_nonnil n : N.to_uint n <> Decimal.Nil.
Proof.
  destruct n as [|p]; [discriminate|].
  apply DecimalPos.Unsigned.to_uint_nonnil.
Qed.

Lemma codes_head d :
  d <> Decimal.Nil -> exists k s, (k < 10)%N /\ codes d = (48 + k)%N :: s.
Proof.
  destruct d; [contradiction|..]; intros _; cbn [codes].
  - exists 0%N; eexists; split; [lia|reflexivity].
  - exists 1%N; eexists; split; [lia|reflexivity].
  - exists 2%N; eexists; split; [lia|reflexivity].
  - exists 3%N; eexists; split; [lia|reflexivity].
  - exists 4%N; eexists; split; [lia|reflexivity].
  - exists 5%N; eexists; split; [lia|reflexivity].
  - exists 6%N; eexists; split; [lia|reflexivity].
  - exists 7%N; eexists; split; [lia|reflexivity].
  - exists 8%N; eexists; split; [lia|reflexivity].
  - exists 9%N; eexists; split; [lia|reflexivity].
Qed.

Lemma digit_is_plain k :
  (k < 10)%N ->
  isSpace (48 + k) = false /\ ((48 + k =? 45) = false)%N
  /\ ((48 + k =? 43) = false)%N /\ Args.isEquals (48 + k) = false
  /\ (48 + k)%N <> 0%N.
Proof.
  intros H.
  assert (C : (k = 0 \/ k = 1 \/ k = 2 \/ k = 3 \/ k = 4 \/ k = 5 \/ k = 6
               \/ k = 7 \/ k = 8 \/ k = 9)%N) by lia.
  repeat destruct C as [-> | C]; try subst k; repeat split; discriminate.
Qed.

Lemma nearestDouble_exact a :
  (a <= 2 ^ 53)%Z -> Args.nearestDouble a = Some a.
Proof.
  intros H. unfold Args.nearestDouble.
  apply Z.leb_le in H. now rewrite H.
Qed.

Lemma parseInt_decimal n rest :
  (Z.of_N n <= 2 ^ 53)%Z ->
  rest = [] \/ (exists c r, rest = c :: r /\ isDigit c = false) ->
  Args.parseInt (decimal n ++ rest) = Index.Int (Z.of_N n)
  /\ Args.parseInt (js "-" ++ decimal n ++ rest) = Index.Int (- Z.of_N n).
Proof.
  intros Hn Hr.
  assert (Hd : Args.digits None (decimal n ++ rest) = Some (Z.of_N n)).
  { unfold decimal.
    rewrite (digits_of_uint _ None rest (or_introl eq_refl) (to_uint_nonnil n) Hr).
    change (Pos.of_uint (N.to_uint n)) with (N.of_uint (N.to_uint n)).
    now rewrite DecimalN.Unsigned.of_to. }
  split.
  - unfold Args.parseInt.
    destruct (codes_head _ (to_uint_nonnil n)) as (k & s & Hk & E).
    destruct (digit_is_plain k Hk) as (Sp & Mi & Pl & _).
    unfold decimal in *. rewrite E in *. cbn [app] in *.
    cbn [dropSpaces]. rewrite Sp, Mi, Pl. cbn [fst snd].
    now rewrite Hd, (nearestDouble_exact _ Hn).
  - unfold Args.parseInt. change (js "-" ++ decimal n ++ rest)
      with (45%N :: decimal n ++ rest).
    cbn [dropSpaces]. change (isSpace 45) with false. cbv iota.
    change (45 =? 45)%N with true. cbv iota. cbn [fst snd].
    now rewrite Hd, (nearestDouble_exact _ Hn).
Qed.

Lemma codes_noEquals d : noEquals (codes d).
Proof.
  induction d; cbn [codes]; constructor; try reflexivity; exact IHd.
Qed.

Lemma codes_truthy d : d <> Decimal.Nil -> truthy (codes d) = true.
Proof.
  intros H. destruct (codes_head d H) as (k & s & _ & ->). reflexivity.
Qed.

End Numbers.

Section SettingsFacts.

Lemma noEquals_app a b : noEquals a -> noEquals b -> noEquals (a ++ b).
Proof. intros Ha Hb. apply Forall_app. now split. Qed.

Lemma decimal_noEquals n : noEquals (decimal n).
Proof. apply codes_noEquals. Qed.

Lemma decimal_cons n : exists c s, decimal n = c :: s.
Proof.
  destruct (codes_head _ (to_uint_nonnil n)) as (k & s & _ & E).
  unfold decimal. rewrite E. now eexists; eexists.
Qed.

(** The limit [main] computes from a last argument [--max=v] with a
    non-empty [v]. *)
Lemma limit_of_last argv v :
  noEquals v -> truthy v = true ->
  Args.maxResults (Args.settings (argv ++ [js "--" ++ js "max" ++ js "=" ++ v]))
  = Args.parseInt v.
Proof.
  intros Hv Ht. unfold Args.settings. cbn [Args.maxResults].
  rewrite (get_after argv (js "max") v (js "max")) by (repeat constructor || exact Hv).
  change (eqb (js "max") (js "max") && negb (eqb (js "max") (js "__proto__")))
    with true.
  cbv iota. cbn [truthy_opt or_empty]. now rewrite Ht.
Qed.

Lemma parseInt_no_number c r :
  isSpace c = false -> isDigit c = false ->
  (c =? 45)%N = false -> (c =? 43)%N = false ->
  Args.parseInt (c :: r) = Index.NaN.
Proof.
  intros Hs Hd Hm Hp. unfold Args.parseInt. cbn [dropSpaces].
  rewrite Hs, Hm, Hp. cbn [fst snd Args.digits]. now rewrite Hd.
Qed.

Lemma get_unnamed key argv :
  Forall (fun arg => eqb (fst (Args.parseArg arg)) key = false) argv ->
  Args.get key (Args.parseArgs argv) = None.
Proof.
  induction argv as [|arg argv IH] using rev_ind; intros H; [reflexivity|].
  apply Forall_app in H. destruct H as [H1 H2].
  rewrite parseArgs_snoc, get_set_other; [now apply IH|].
  now inversion H2.
Qed.

End SettingsFacts.

(** The limit is the number written after [--max=], read in decimal, as
    long as it does not exceed 2^53 (beyond, it is rounded to a double);
    a leading minus sign makes it negative and whatever follows the
    digits is ignored. *)
Theorem limit_is_read_in_decimal (argv : list jsstring) (n : N)
  (rest : jsstring) :
  (Z.of_N n <= 2 ^ 53)%Z ->
  noEquals rest ->
  rest = [] \/ (exists c r, rest = c :: r /\ isDigit c = false) ->
  Args.maxResults (Args.settings (argv ++ [js "--max=" ++ decimal n ++ rest]))
  = Index.Int (Z.of_N n)
  /\ Args.maxResults
       (Args.settings (argv ++ [js "--max=-" ++ decimal n ++ rest]))
     = Index.Int (- Z.of_N n).
Proof.
  intros Hb Hn Hr. destruct (parseInt_decimal n rest Hb Hr) as [P M].
  destruct (decimal_cons n) as (c & s & E).
  split.
  - change (js "--max=" ++ decimal n ++ rest)
      with (js "--" ++ js "max" ++ js "=" ++ (decimal n ++ rest)).
    rewrite limit_of_last; [exact P| |now rewrite E].
    apply noEquals_app; [apply decimal_noEquals | exact Hn].
  - change (js "--max=-" ++ decimal n ++ rest)
      with (js "--" ++ js "max" ++ js "=" ++ (js "-" ++ decimal n ++ rest)).
    rewrite limit_of_last; [exact M| |reflexivity].
    apply noEquals_app; [repeat constructor|].
    apply noEquals_app; [apply decimal_noEquals | exact Hn].
Qed.

Lemma limit_is_read_in_decimal_witness :
  Args.maxResults
    (Args.settings ([js "--query=x"] ++ [js "--max=" ++ decimal 12 ++ js "px"]))
  = Index.Int (Z.of_N 12)
  /\ Args.maxResults
       (Args.settings ([js "--query=x"] ++ [js "--max=-" ++ decimal 12 ++ js "px"]))
     = Index.Int (- Z.of_N 12).
Proof.
  apply (limit_is_read_in_decimal [js "--query=x"] 12 (js "px")).
  - vm_compute. discriminate.
  - repeat constructor.
  - right. exists 112%N, (js "x"). split; reflexivity.
Defined.

(** A [--max] whose value does not start with a digit, a sign or white
    space gives the limit [NaN], and with that limit a run starts no
    unit, whatever the page holds: no download request, no directory, no
    file, no paper page, no tab besides the search tab, and a summary
    that counts nothing. *)
Theorem non_numeric_limit_runs_nothing (argv : list jsstring) (c : N)
  (r : jsstring) (env : Index.MainEnv) :
  noEquals (c :: r) ->
  isSpace c = false -> isDigit c = false ->
  (c =? 45)%N = false -> (c =? 43)%N = false ->
  Args.maxResults (Args.settings (argv ++ [js "--max=" ++ c :: r])) = Index.NaN
  /\ count unitEvent (trace (Index.main env Index.NaN)) = 0%nat
  /\ (count isOpen (trace (Index.main env Index.NaN)) <= 1)%nat
  /\ forall s, completion (Index.main env Index.NaN) = Normal s ->
               s = Index.printSummary [].
Proof.
  intros Hn Hs Hd Hm Hp. split.
  - change (js "--max=" ++ c :: r)
      with (js "--" ++ js "max" ++ js "=" ++ (c :: r)).
    rewrite limit_of_last; [|exact Hn|].
    + now apply parseInt_no_number.
    + unfold truthy. reflexivity.
  - apply inert_run. do 4 right. intros papers _.
    now destruct (selection_bounds papers) as [E _].
Qed.

Lemma non_numeric_limit_runs_nothing_witness :
  Args.maxResults (Args.settings ([] ++ [js "--max=" ++ js "all"])) = Index.NaN
  /\ count unitEvent (trace (Index.main MoreSamples.smoothRun Index.NaN))
     = 0%nat
  /\ (count isOpen (trace (Index.main MoreSamples.smoothRun Index.NaN)) <= 1)%nat
  /\ forall s,
      completion (Index.main MoreSamples.smoothRun Index.NaN) = Normal s ->
      s = Index.printSummary [].
Proof.
  apply (non_numeric_limit_runs_nothing [] 97%N (js "ll") MoreSamples.smoothRun).
  - repeat constructor.
  - reflexivity.
  - reflexivity.
  - reflexivity.
  - reflexivity.
Defined.

(** Without an argument named [query], [max] or [headless], the
    settings are those of config.js: the default query, the limit 5,
    headless on. *)
Theorem defaults_apply (argv : list jsstring) :
  Forall (fun arg =>
            eqb (fst (Args.parseArg arg)) (js "query") = false
            /\ eqb (fst (Args.parseArg arg)) (js "max") = false
            /\ eqb (fst (Args.parseArg arg)) (js "headless") = false) argv ->
  Args.settings argv
  = {| Args.query := Defaults.SEARCH_QUERY;
       Args.maxResults := Index.Int Defaults.MAX_RESULTS;
       Args.headless := Defaults.HEADLESS |}.
Proof.
  intros H. unfold Args.settings.
  rewrite !get_unnamed; [reflexivity|..];
    (eapply Forall_impl; [|exact H]); cbv beta; intros a (Hq & Hm & Hh);
    assumption.
Qed.

Lemma defaults_apply_witness :
  Args.settings [js "--verbose"; js "--out=x"]
  = {| Args.query := Defaults.SEARCH_QUERY;
       Args.maxResults := Index.Int Defaults.MAX_RESULTS;
       Args.headless := Defaults.HEADLESS |}.
Proof.
  apply (defaults_apply [js "--verbose"; js "--out=x"]).
  repeat constructor.
Defined.

(** An empty value gives the default back for the query and the limit,
    whatever was given before, but turns headless off; an argument
    [--headless] without [=] leaves the default on; and headless is on
    only for the exact text [true]. *)
Theorem empty_values_fall_back (argv : list jsstring) :
  Args.query (Args.settings (argv ++ [js "--query="])) = Defaults.SEARCH_QUERY
  /\ Args.maxResults (Args.settings (argv ++ [js "--max="]))
     = Index.Int Defaults.MAX_RESULTS
  /\ Args.headless (Args.settings (argv ++ [js "--headless="])) = false
  /\ Args.headless (Args.settings (argv ++ [js "--headless"])) = Defaults.HEADLESS
  /\ (forall v, noEquals v ->
                (Args.headless (Args.settings (argv ++ [js "--headless=" ++ v]))
                 = true
                 <-> v = js "true")).
Proof.
  unfold Args.settings. cbn [Args.query Args.maxResults Args.headless].
  split; [|split; [|split; [|split]]].
  - change (js "--query=") with (js "--" ++ js "query" ++ js "=" ++ []).
    rewrite get_after by repeat constructor. reflexivity.
  - change (js "--max=") with (js "--" ++ js "max" ++ js "=" ++ []).
    rewrite get_after by repeat constructor. reflexivity.
  - change (js "--headless=") with (js "--" ++ js "headless" ++ js "=" ++ []).
    rewrite get_after by repeat constructor. reflexivity.
  - rewrite parseArgs_snoc. change (Args.parseArg (js "--headless"))
      with (js "headless", @None jsstring).
    cbn [fst snd]. now rewrite get_set_same.
  - intros v Hv.
    change (js "--headless=" ++ v) with (js "--" ++ js "headless" ++ js "=" ++ v).
    rewrite get_after by (repeat constructor || exact Hv).
    change (eqb (js "headless") (js "headless")
            && negb (eqb (js "headless") (js "__proto__"))) with true.
    cbv iota. apply eqb_eq.
Qed.

(** ** Typing and searching *)

Section Typing.

Lemma chars_concat s :
  concat (Ui.chars s) = s /\ forall a, concat (Ui.chars (a :: s)) = a :: s.
Proof.
  induction s as [|b s2 [IH1 IH2]].
  - split; [reflexivity|]. intros a. reflexivity.
  - split; [apply IH2|]. intros a.
    change (Ui.chars (a :: b :: s2))
      with (if Ui.isHighSurrogate a && Ui.isLowSurrogate b
            then [a; b] :: Ui.chars s2
            else [a] :: Ui.chars (b :: s2)).
    destruct (Ui.isHighSurrogate a && Ui.isLowSurrogate b); cbn [concat app].
    + now rewrite IH1.
    + now rewrite IH2.
Qed.

Lemma typed_app t1 t2 : Ui.typed (t1 ++ t2) = Ui.typed t1 ++ Ui.typed t2.
Proof.
  induction t1 as [|ev t1 IH]; [reflexivity|].
  destruct ev; cbn [app Ui.typed]; try exact IH.
  now rewrite IH, app_assoc.
Qed.

Variable env : Ui.SearchEnv.
Variable selector : jsstring.

(** The keystrokes of the loop spell a prefix of what is left to type,
    all of it when the loop completes; the loop does nothing else. *)
Lemma typeChars_spells cs i :
  (exists rest,
      concat cs = Ui.typed (snd (Ui.typeChars env selector i cs)) ++ rest
      /\ (fst (Ui.typeChars env selector i cs) = Normal tt -> rest = []))
  /\ ~ In Ui.UiSubmit (snd (Ui.typeChars env selector i cs)).
Proof.
  revert i. induction cs as [|c cs IH]; intros i.
  - split; [|intros []]. exists []. split; [reflexivity|]. reflexivity.
  - cbn [Ui.typeChars concat]. unfold Ui.step.
    destruct (IH (S i)) as [(rest & E & Hn) Hs].
    destruct (Ui.typeOk env i).
    + destruct (Ui.typeChars env selector (S i) cs) as [r t].
      cbn [fst snd] in *. split.
      * exists rest. split; [|exact Hn].
        cbn [Ui.typed]. rewrite E, app_assoc. reflexivity.
      * intros [H|H]; [discriminate|]. now apply Hs.
    + cbn [fst snd]. split.
      * exists (concat cs). split; [|discriminate].
        cbn [Ui.typed]. now rewrite app_nil_r.
      * intros [H|[]]. discriminate.
Qed.

Lemma humanType_spells text :
  (exists rest,
      text = Ui.typed (snd (Ui.humanType env selector text)) ++ rest
      /\ (fst (Ui.humanType env selector text) = Normal tt -> rest = []))
  /\ ~ In Ui.UiSubmit (snd (Ui.humanType env selector text)).
Proof.
  destruct (typeChars_spells (Ui.chars text) 0) as [(rest & E & Hn) Hs].
  rewrite (proj1 (chars_concat text)) in E.
  unfold Ui.humanType, Ui.step.
  destruct (Ui.focusOk env).
  2:{ cbn [fst snd Ui.typed]. split.
      - exists text. split; [reflexivity | discriminate].
      - intros [H|[]]. discriminate. }
  destruct (Ui.clickOk env).
  2:{ cbn [fst snd Ui.typed]. split.
      - exists text. split; [reflexivity | discriminate].
      - intros [H|[H|[]]]; discriminate. }
  destruct (Ui.typeChars env selector 0 (Ui.chars text)) as [r t].
  cbn [fst snd Ui.typed] in *. split.
  - exists rest. now split.
  - intros [H|[H|H]]; [discriminate | discriminate | now apply Hs].
Qed.

End Typing.

(** [humanType] focuses the field, selects its content and types the
    text one code point at a time: at any moment the keystrokes sent
    spell a prefix of the text, and when [humanType] completes they spell
    the whole text, surrogate pairs included. *)
Theorem humanType_types_the_text (env : Ui.SearchEnv)
  (selector text : jsstring) :
  (exists rest, text = Ui.typed (snd (Ui.humanType env selector text)) ++ rest)
  /\ (fst (Ui.humanType env selector text) = Normal tt ->
      Ui.typed (snd (Ui.humanType env selector text)) = text)
  /\ concat (Ui.chars text) = text.
Proof.
  destruct (humanType_spells env selector text) as [(rest & E & Hn) _].
  split; [now exists rest|]. split; [|apply chars_concat].
  intros H. rewrite (Hn H), app_nil_r in E. now symmetry.
Qed.

(** [searchScholar] submits the form only after the whole query was
    sent to the field: a trace with the submission has typed exactly the
    query, a search that completes has submitted, and when the navigation
    fails or the input field does not appear nothing is typed or
    submitted and the search throws. *)
Theorem search_submits_the_whole_query (env : Ui.SearchEnv)
  (query : jsstring) :
  (In Ui.UiSubmit (snd (Ui.searchScholar env query)) ->
   Ui.typed (snd (Ui.searchScholar env query)) = query)
  /\ (fst (Ui.searchScholar env query) = Normal tt ->
      In Ui.UiSubmit (snd (Ui.searchScholar env query)))
  /\ (Ui.gotoOk env = false \/ Ui.inputFound env = false ->
      Ui.typed (snd (Ui.searchScholar env query)) = []
      /\ ~ In Ui.UiSubmit (snd (Ui.searchScholar env query))
      /\ exists e, fst (Ui.searchScholar env query) = Throw e).
Proof.
  destruct (humanType_spells env Ui.queryInput query) as [(rest & E & Hn) Hs].
  unfold Ui.searchScholar, Ui.step, Ui.randomDelay, Ui.andThen.
  destruct (Ui.gotoOk env).
  2:{ cbn [fst snd Ui.typed]. split; [intros [H|[]]; discriminate|].
      split; [discriminate|]. intros _. split; [reflexivity|].
      split; [intros [H|[]]; discriminate | now eexists]. }
  destruct (Ui.inputFound env).
  2:{ cbn [fst snd Ui.typed]. split; [intros [H|[H|[H|[]]]]; discriminate|].
      split; [discriminate|]. intros _. split; [reflexivity|].
      split; [intros [H|[H|[H|[]]]]; discriminate | now eexists]. }
  destruct (Ui.humanType env Ui.queryInput query) as [[[]|e] t];
    cbn [fst snd] in *.
  - specialize (Hn eq_refl). subst rest. rewrite app_nil_r in E.
    destruct (Ui.submitOk env); cbn [fst snd Ui.typed];
      rewrite typed_app; cbn [Ui.typed]; rewrite app_nil_r.
    + split; [intros _; now symmetry|]. split.
      * intros _. do 3 right. apply in_or_app. right. right. now left.
      * intros [H|H]; discriminate.
    + split; [intros _; now symmetry|]. split; [discriminate|].
      intros [H|H]; discriminate.
  - split; [|split].
    + intros [H|[H|[H|H]]]; try discriminate. contradiction.
    + discriminate.
    + intros [H|H]; discriminate.
Qed.

Lemma search_submits_the_whole_query_witness :
  Ui.typed (snd (Ui.searchScholar MoreSamples.smoothSearch (js "deep learning")))
  = js "deep learning".
Proof.
  apply (proj1 (search_submits_the_whole_query MoreSamples.smoothSearch
                  (js "deep learning"))).
  vm_compute. repeat (first [left; reflexivity | right]).
Defined.
